(** * Daily-Numbers: row selection and field derivation

    A shallow embedding of [dailynumbers.py]: the row selector
    [row_for_date], the field evaluator that [main] runs on the selected
    row, and the per-source loop of [main] that assembles the report.

    Python values are embedded as the inductive [pyval]; floats are the
    kernel's binary64 floats, so the arithmetic of [float(v)] and [sum]
    is the IEEE 754 arithmetic the interpreter performs.  Exceptions are
    values of a [result] type, dictionaries are insertion-ordered
    association lists with Python's overwrite semantics.

    Library functions whose code is not part of the program ([repr],
    [float] on strings, [pandas.to_datetime], the gspread fetch) are the
    methods of the class [Externals]; every theorem holds for all of its
    instances. *)

From Stdlib Require Import ZArith List String Ascii Bool Lia Permutation.
From Stdlib Require Import Floats DecimalString.
Import ListNotations.

Set Warnings "-inexact-float,-register-all".

Open Scope string_scope.
Open Scope Z_scope.

(* ================================================================== *)
(** ** Strings: [str.lower] and [str.strip]

    Strings are byte strings.  Case folding and white space follow
    Python on the ASCII range; bytes above 127 are left unchanged, so
    [lower] and [strip] are [str.lower] and [str.strip] on the strings
    of ASCII characters ([is_ascii]). *)

Module Str.

Definition is_upper (c : ascii) : bool :=
  let n := N_of_ascii c in (65 <=? n)%N && (n <=? 90)%N.

Definition lower_char (c : ascii) : ascii :=
  if is_upper c then ascii_of_N (N_of_ascii c + 32) else c.

(** [s.lower()] *)
Fixpoint lower (s : string) : string :=
  match s with
  | EmptyString => EmptyString
  | String c r => String (lower_char c) (lower r)
  end.

(** [c.isspace()] on ASCII: TAB, LF, VT, FF, CR, FS, GS, RS, US, space. *)
Definition is_space (c : ascii) : bool :=
  let n := N_of_ascii c in
  ((9 <=? n)%N && (n <=? 13)%N) || ((28 <=? n)%N && (n <=? 32)%N).

Fixpoint lstrip (s : string) : string :=
  match s with
  | EmptyString => EmptyString
  | String c r => if is_space c then lstrip r else s
  end.

Fixpoint rstrip (s : string) : string :=
  match s with
  | EmptyString => EmptyString
  | String c r =>
      match rstrip r with
      | EmptyString => if is_space c then EmptyString else String c EmptyString
      | r' => String c r'
      end
  end.

(** [s.strip()] *)
Definition strip (s : string) : string := rstrip (lstrip s).

(** The lookup key the evaluator derives from a configured name:
    [s.strip().lower()]. *)
Definition fold_key (s : string) : string := lower (strip s).

(** [s.isascii()] *)
Fixpoint is_ascii (s : string) : bool :=
  match s with
  | EmptyString => true
  | String c r => (N_of_ascii c <? 128)%N && is_ascii r
  end.

(** Two characters that differ at most by the case of an ASCII letter. *)
Inductive same_char_nocase : ascii -> ascii -> Prop :=
| scn_same c : same_char_nocase c c
| scn_up_lo c : is_upper c = true -> same_char_nocase c (lower_char c)
| scn_lo_up c : is_upper c = true -> same_char_nocase (lower_char c) c.

(** Two strings equal up to the case of their letters. *)
Inductive equal_up_to_case : string -> string -> Prop :=
| euc_nil : equal_up_to_case EmptyString EmptyString
| euc_cons c1 c2 s1 s2 :
    same_char_nocase c1 c2 -> equal_up_to_case s1 s2 ->
    equal_up_to_case (String c1 s1) (String c2 s2).

End Str.

(* ================================================================== *)
(** ** Python values, exceptions, dictionaries *)

(** A calendar date ([datetime.date]). *)
Record date := mkdate { year : Z; month : Z; day : Z }.

Definition date_eqb (a b : date) : bool :=
  (year a =? year b) && (month a =? month b) && (day a =? day b).

(** The values a sheet cell or a JSON configuration can hold.  A [VDict]
    lists its items in insertion order. *)
Inductive pyval : Type :=
| VNone
| VBool (b : bool)
| VInt (z : Z)
| VFloat (x : float)
| VStr (s : string)
| VList (l : list pyval)
| VDict (d : list (string * pyval)).

Definition type_name (v : pyval) : string :=
  match v with
  | VNone => "NoneType"
  | VBool _ => "bool"
  | VInt _ => "int"
  | VFloat _ => "float"
  | VStr _ => "str"
  | VList _ => "list"
  | VDict _ => "dict"
  end.

(** An exception object: its class and [str(e)]. *)
Record exn := mkexn { exn_type : string; exn_msg : string }.

Definition RuntimeError (msg : string) : exn := mkexn "RuntimeError" msg.
Definition TypeError (msg : string) : exn := mkexn "TypeError" msg.
Definition IndexError (msg : string) : exn := mkexn "IndexError" msg.
(** [str(KeyError(k))] is [repr(k)]; the keys indexed by the program are
    the literals ["spreadsheet_id"], ["worksheet"] and ["date_column"]. *)
Definition KeyError (k : string) : exn := mkexn "KeyError" ("'" ++ k ++ "'").

(** A computation that returns or raises. *)
Inductive result (A : Type) : Type :=
| Ok (a : A)
| Raise (e : exn).
Arguments Ok {A} a.
Arguments Raise {A} e.

Definition bind {A B : Type} (c : result A) (k : A -> result B) : result B :=
  match c with
  | Ok a => k a
  | Raise e => Raise e
  end.

Notation "x <- c ;; k" := (bind c (fun x => k))
  (at level 61, c at next level, right associativity).

(** *** Dictionaries

    A [dict] keeps its items in insertion order; assigning to a key that
    is present replaces the value in place and keeps the stored key. *)
Section Dict.
Context {K V : Type} (eqb : K -> K -> bool).

Fixpoint dict_get (d : list (K * V)) (k : K) : option V :=
  match d with
  | [] => None
  | (k', v) :: r => if eqb k' k then Some v else dict_get r k
  end.

Fixpoint dict_set (d : list (K * V)) (k : K) (v : V) : list (K * V) :=
  match d with
  | [] => [(k, v)]
  | (k', v') :: r =>
      if eqb k' k then (k', v) :: r else (k', v') :: dict_set r k v
  end.

Fixpoint dict_del (d : list (K * V)) (k : K) : list (K * V) :=
  match d with
  | [] => []
  | (k', v) :: r => if eqb k' k then dict_del r k else (k', v) :: dict_del r k
  end.

(** [dict(items)]: later items overwrite earlier ones. *)
Definition dict_of_items (items : list (K * V)) : list (K * V) :=
  fold_left (fun d kv => dict_set d (fst kv) (snd kv)) items [].
End Dict.

(** Dictionaries keyed by strings: rows, configurations, field specs. *)
Definition sdict (V : Type) : Type := list (string * V).
Definition sget {V} (d : sdict V) (k : string) : option V := dict_get String.eqb d k.
Definition sset {V} (d : sdict V) (k : string) (v : V) : sdict V := dict_set String.eqb d k v.
Definition sdel {V} (d : sdict V) (k : string) : sdict V := dict_del String.eqb d k.

(** [d.get(k, default)] *)
Definition get_or {V} (d : sdict V) (k : string) (default : V) : V :=
  match sget d k with
  | Some v => v
  | None => default
  end.

(* ================================================================== *)
(** ** Numbers *)

Definition is_nan (x : float) : bool := negb (x =? x)%float.

Definition is_finite (x : float) : bool :=
  match Prim2SF x with
  | S754_zero _ | S754_finite _ _ _ => true
  | _ => false
  end.

(** [float(z)] for an [int]: the nearest double, ties to even;
    [OverflowError] (here [None]) when that would be an infinity. *)
Definition float_of_Z (z : Z) : option float :=
  match binary_normalize prec emax z 0 false with
  | S754_infinity _ => None
  | s => Some (SF2Prim s)
  end.

(** [x == z] for a float and an int: an exact comparison. *)
Definition float_equals_Z (x : float) (z : Z) : bool :=
  match Prim2SF x with
  | S754_zero _ => z =? 0
  | S754_finite s m e =>
      let mz := cond_Zopp s (Zpos m) in
      if 0 <=? e then mz * 2 ^ e =? z else mz =? z * 2 ^ (- e)
  | _ => false
  end.

Definition num_of (v : pyval) : option (Z + float) :=
  match v with
  | VBool b => Some (inl (if b then 1 else 0))
  | VInt z => Some (inl z)
  | VFloat x => Some (inr x)
  | _ => None
  end.

(** Equality of two hashable values as dictionary keys ([a == b]):
    numbers compare by value across [bool], [int] and [float]. *)
Definition key_eqb (a b : pyval) : bool :=
  match a, b with
  | VNone, VNone => true
  | VStr s, VStr t => String.eqb s t
  | _, _ =>
      match num_of a, num_of b with
      | Some (inl m), Some (inl n) => m =? n
      | Some (inl m), Some (inr y) => float_equals_Z y m
      | Some (inr x), Some (inl n) => float_equals_Z x n
      | Some (inr x), Some (inr y) => (x =? y)%float
      | _, _ => false
      end
  end.

Definition is_hashable (v : pyval) : bool :=
  match v with
  | VList _ | VDict _ => false
  | _ => true
  end.

(** [d[k] = v] on a dictionary keyed by arbitrary values. *)
Definition setitem (d : list (pyval * pyval)) (k v : pyval)
  : result (list (pyval * pyval)) :=
  if is_hashable k then Ok (dict_set key_eqb d k v)
  else Raise (TypeError ("unhashable type: '" ++ type_name k ++ "'")).

(** [sum(vals)] for a list of floats: the start value is the int [0] and
    the items are added from left to right, so an empty list gives the
    int [0] and any other list a float. *)
Definition py_sum (vals : list float) : pyval :=
  match vals with
  | [] => VInt 0
  | _ :: _ => VFloat (fold_left PrimFloat.add vals 0%float)
  end.

(** [sum] as CPython 3.12 and later compute it on floats: the first item
    is added to the start value, the others with Neumaier's compensation,
    which is added at the end when it is finite and not zero. *)
Definition neumaier_step (st : float * float) (x : float) : float * float :=
  let '(f, c) := st in
  let t := (f + x)%float in
  let c' := if (abs x <=? abs f)%float
            then (c + ((f - t) + x))%float
            else (c + ((x - t) + f))%float in
  (t, c').

Definition py_sum_compensated (vals : list float) : pyval :=
  match vals with
  | [] => VInt 0
  | x :: r =>
      let '(f, c) := fold_left neumaier_step r ((0 + x)%float, 0%float) in
      VFloat (if negb (c =? 0)%float && is_finite c then (f + c)%float else f)
  end.

(* ================================================================== *)
(** ** Tables *)

(** A [pandas.DataFrame] built from the records of a sheet: the column
    labels and, for each row, its cells in column order.  gspread refuses
    a header row with repeated names, so the labels are distinct. *)
Record DataFrame := mkdf { columns : list string; rows : list (list pyval) }.

(** The cell of row [r] under column [c] (NaN where the row has none). *)
Definition cell (cols : list string) (r : list pyval) (c : string) : pyval :=
  match sget (combine cols r) c with
  | Some v => v
  | None => VFloat nan
  end.

(** [df[c]] *)
Definition column (df : DataFrame) (c : string) : list pyval :=
  map (fun r => cell (columns df) r c) (rows df).

(** [series.to_dict()] for a row of the frame. *)
Definition to_dict (cols : list string) (r : list pyval) : sdict pyval :=
  dict_of_items String.eqb (combine cols r).

(** [df.loc[mask]] *)
Fixpoint loc_mask (rs : list (list pyval)) (mask : list bool) : list (list pyval) :=
  match rs, mask with
  | r :: rs', b :: mask' => if b then r :: loc_mask rs' mask' else loc_mask rs' mask'
  | _, _ => []
  end.

(* ================================================================== *)
(** ** The library functions the program calls *)

Class Externals := {
  (** [repr(v)], which is [str(v)] for every value that is no string. *)
  repr : pyval -> string;
  (** [float(s)] for a string: [None] stands for [ValueError]. *)
  float_of_str : string -> option float;
  (** [pd.to_datetime(series, errors="coerce").dt.date]: one entry per
      cell, [None] for [NaT]. *)
  to_datetime_date : list pyval -> list (option date);
  (** [fetch_sheet_df(client, spreadsheet_id, worksheet)]: the table of
      the sheet, or the exception the backend raised. *)
  fetch_sheet_df : pyval -> pyval -> result DataFrame
}.

(* ================================================================== *)
(** ** The program *)

Section Engine.
Context `{Externals}.

(** [str(v)] *)
Definition py_str (v : pyval) : string :=
  match v with
  | VStr s => s
  | _ => repr v
  end.

(** [float(v)]: [None] stands for the [TypeError], [ValueError] or
    [OverflowError] the conversion raises. *)
Definition py_float (v : pyval) : option float :=
  match v with
  | VNone => None
  | VBool b => Some (if b then 1%float else 0%float)
  | VInt z => float_of_Z z
  | VFloat x => Some x
  | VStr s => float_of_str s
  | VList _ | VDict _ => None
  end.

(** [for x in v]: the items the loop visits, or the [TypeError]. *)
Definition py_iter (v : pyval) : result (list pyval) :=
  match v with
  | VList l => Ok l
  | VStr s => Ok (map (fun c => VStr (String c EmptyString)) (list_ascii_of_string s))
  | VDict d => Ok (map (fun kv => VStr (fst kv)) d)
  | _ => Raise (TypeError ("'" ++ type_name v ++ "' object is not iterable"))
  end.

(** *** [row_for_date] *)

Definition date_column_missing (date_column : pyval) (df : DataFrame) : exn :=
  RuntimeError ("Date column '" ++ py_str date_column ++ "' not found. Found: "
                ++ repr (VList (map VStr (columns df)))).

(** [date_column in df.columns] *)
Definition in_columns (date_column : pyval) (df : DataFrame) : result bool :=
  match date_column with
  | VStr c => Ok (existsb (String.eqb c) (columns df))
  | VList _ | VDict _ =>
      Raise (TypeError ("unhashable type: '" ++ type_name date_column ++ "'"))
  | _ => Ok false
  end.

Definition row_for_date (df : DataFrame) (date_column : pyval) (target_date : date)
  : result (option (sdict pyval)) :=
  present <- in_columns date_column df ;;
  if negb present then Raise (date_column_missing date_column df)
  else
    let dc := to_datetime_date (column df (py_str date_column)) in
    let mask := map (fun d => match d with
                              | Some d' => date_eqb d' target_date
                              | None => false
                              end) dc in
    if negb (existsb (fun b => b) mask) then Ok None
    else
      match loc_mask (rows df) mask with
      | r :: _ => Ok (Some (to_dict (columns df) r))
      | [] => Raise (IndexError "single positional indexer is out-of-bounds")
      end.

(** *** The field evaluator (the body of [main]'s loop over a row) *)

(** [row_l = {str(k).lower(): v for k, v in row.items()}] *)
Definition row_l (row : sdict pyval) : sdict pyval :=
  fold_left (fun d kv => sset d (Str.lower (fst kv)) (snd kv)) row [].

(** The test that turns a cell into [0] before the sum:
    [v is None or (isinstance(v, float) and pd.isna(v)) or v == ""]. *)
Definition is_blank (v : pyval) : bool :=
  match v with
  | VNone => true
  | VFloat x => is_nan x
  | VStr EmptyString => true
  | _ => false
  end.

(** One round of the loop over [keys]: the number appended to [vals]
    for the folded key [k]. *)
Definition sum_term (rl : sdict pyval) (k : string) : float :=
  let v := get_or rl k (VInt 0) in
  let v := if is_blank v then VInt 0 else v in
  match py_float v with
  | Some x => x
  | None => 0%float
  end.

(** The lookup key of a configured name: [str(k).strip().lower()]. *)
Definition lookup_key (k : pyval) : string := Str.fold_key (py_str k).

(** The value of a computed sum over the configured keys [ks]:
    [keys], then [vals], then [sum(vals)]. *)
Definition computed_sum (rl : sdict pyval) (ks : list pyval) : pyval :=
  let keys := map lookup_key ks in
  let vals := map (sum_term rl) keys in
  py_sum vals.

(** One field spec [f]: the label and value it assigns in [fields_out],
    or [None] when the spec is skipped. *)
Definition eval_field (rl : sdict pyval) (f : pyval)
  : result (option (pyval * pyval)) :=
  match f with
  | VStr s =>
      let key := Str.lower (Str.strip s) in
      Ok (Some (f, get_or rl key VNone))
  | VDict d =>
      match sget d "key" with
      | Some k =>
          let key := lookup_key k in
          let label := get_or d "label" (VStr key) in
          Ok (Some (label, get_or rl key VNone))
      | None =>
          match sget d "sum" with
          | Some s =>
              let label := get_or d "label" (VStr "Sum") in
              ks <- py_iter s ;;
              Ok (Some (label, computed_sum rl ks))
          | None => Ok None
          end
      end
  | _ => Ok None
  end.

(** The loop [for f in fields_cfg], threading [fields_out]. *)
Fixpoint eval_fields (rl : sdict pyval) (fs : list pyval)
                     (fields_out : list (pyval * pyval))
  : result (list (pyval * pyval)) :=
  match fs with
  | [] => Ok fields_out
  | f :: rest =>
      r <- eval_field rl f ;;
      match r with
      | None => eval_fields rl rest fields_out
      | Some (label, val) =>
          fields_out' <- setitem fields_out label val ;;
          eval_fields rl rest fields_out'
      end
  end.

(** *** The report *)

(** One element of [results]; [emoji] and [fields] are the keys only a
    successful entry has. *)
Record ReportEntry := mkentry {
  title : pyval;
  emoji : option pyval;
  status : string;
  fields : option (list (pyval * pyval))
}.

(** [cfg[k]] *)
Definition getitem (cfg : sdict pyval) (k : string) : result pyval :=
  match sget cfg k with
  | Some v => Ok v
  | None => Raise (KeyError k)
  end.

(** [cfg.get("title", cfg.get("worksheet", "Sheet"))] *)
Definition title_of (cfg : sdict pyval) : pyval :=
  get_or cfg "title" (get_or cfg "worksheet" (VStr "Sheet")).

(** The body of the [try] for one source. *)
Definition source_body (y_mt : date) (cfg : sdict pyval) : result ReportEntry :=
  spreadsheet_id <- getitem cfg "spreadsheet_id" ;;
  worksheet <- getitem cfg "worksheet" ;;
  df <- fetch_sheet_df spreadsheet_id worksheet ;;
  date_column <- getitem cfg "date_column" ;;
  row <- row_for_date df date_column y_mt ;;
  match row with
  | None =>
      Ok (mkentry (title_of cfg) None ":warning: No row for previous day" None)
  | Some row =>
      let rl := row_l row in
      let fields_cfg := get_or cfg "fields" (VList []) in
      fs <- py_iter fields_cfg ;;
      fields_out <- eval_fields rl fs [] ;;
      Ok (mkentry (title_of cfg) (Some (get_or cfg "emoji" (VStr "📍"))) ""
                  (Some fields_out))
  end.

(** The entry the [except] clause appends. *)
Definition error_entry (cfg : sdict pyval) (e : exn) : ReportEntry :=
  mkentry (title_of cfg) None (":x: Error – " ++ exn_msg e) None.

(** One round of [for cfg in CONFIG]: [results] after the round. *)
Definition main_step (y_mt : date) (results : list ReportEntry) (cfg : sdict pyval)
  : list ReportEntry :=
  match source_body y_mt cfg with
  | Ok entry => results ++ [entry]
  | Raise e => results ++ [error_entry cfg e]
  end.

(** [results] when the loop of [main] ends. *)
Definition main_results (y_mt : date) (CONFIG : list (sdict pyval)) : list ReportEntry :=
  fold_left (main_step y_mt) CONFIG [].

(** The entry of one source, whichever way its round ends. *)
Definition run_source (y_mt : date) (cfg : sdict pyval) : ReportEntry :=
  match source_body y_mt cfg with
  | Ok entry => entry
  | Raise e => error_entry cfg e
  end.

End Engine.

(* ================================================================== *)
(** ** An instance of the library functions

    [Sample] implements each method of [Externals] on the values the
    worked examples use: [repr] of [None], booleans, integers, plain
    strings and lists and dictionaries of these; [float] on ASCII decimal
    literals as CPython reads them; ISO [YYYY-MM-DD] dates; and a backend
    that serves three sheets. *)

Module Sample.

Definition digit_of (c : ascii) : option Z :=
  let n := N_of_ascii c in
  if (48 <=? n)%N && (n <=? 57)%N then Some (Z.of_N n - 48) else None.

Definition is_digit (c : ascii) : bool :=
  match digit_of c with
  | Some _ => true
  | None => false
  end.

(** *** [repr] *)

Definition string_of_Z (z : Z) : string := NilZero.string_of_int (Z.to_int z).

Fixpoint join (sep : string) (l : list string) : string :=
  match l with
  | [] => ""
  | [x] => x
  | x :: r => x ++ sep ++ join sep r
  end.

Definition quote (s : string) : string := "'" ++ s ++ "'".

(** Floats: the special values and the integral ones below [2^53]. *)
Definition repr_float (x : float) : string :=
  match Prim2SF x with
  | S754_nan => "nan"
  | S754_infinity s => if s then "-inf" else "inf"
  | S754_zero s => if s then "-0.0" else "0.0"
  | S754_finite s m e =>
      if (0 <=? e) && (e <=? 52) && (Zpos m * 2 ^ e <? 2 ^ 53)
      then (if s then "-" else "") ++ string_of_Z (Zpos m * 2 ^ e) ++ ".0"
      else if (e <? 0) && (Zpos m mod 2 ^ (- e) =? 0)
      then (if s then "-" else "") ++ string_of_Z (Zpos m / 2 ^ (- e)) ++ ".0"
      else "<float>"
  end.

Fixpoint repr (v : pyval) : string :=
  match v with
  | VNone => "None"
  | VBool b => if b then "True" else "False"
  | VInt z => string_of_Z z
  | VFloat x => repr_float x
  | VStr s => quote s
  | VList l => "[" ++ join ", " (map repr l) ++ "]"
  | VDict d =>
      "{" ++ join ", " (map (fun kv => match kv with
                                       | (k, v') => quote k ++ ": " ++ repr v'
                                       end) d) ++ "}"
  end.

(** *** [float(s)] *)

(** The decimal [m * 10^e10], negated when [neg], rounded to the nearest
    double with ties to even. *)
Definition decimal_to_float (neg : bool) (m e10 : Z) : float :=
  if m =? 0 then SF2Prim (S754_zero neg)
  else
    let num := if 0 <=? e10 then m * 10 ^ e10 else m in
    let den := if 0 <=? e10 then 1 else 10 ^ (- e10) in
    let '(q, e, l) := SFdiv_core_binary prec emax num 0 den 0 in
    SF2Prim (binary_round_aux prec emax neg q e l).

(** Underscores may stand between two digits only; they are removed. *)
Fixpoint drop_underscores (prev : ascii) (s : string) : option string :=
  match s with
  | EmptyString => if Ascii.eqb prev "_" then None else Some EmptyString
  | String c r =>
      if Ascii.eqb c "_" then
        if is_digit prev then drop_underscores c r else None
      else if Ascii.eqb prev "_" && negb (is_digit c) then None
      else option_map (String c) (drop_underscores c r)
  end.

(** The digits at the head of [s], appended to the number [acc]: the
    number, how many digits were read, and the rest of [s]. *)
Fixpoint take_digits (s : string) (acc n : Z) : Z * Z * string :=
  match s with
  | EmptyString => (acc, n, s)
  | String c r =>
      match digit_of c with
      | Some d => take_digits r (10 * acc + d) (n + 1)
      | None => (acc, n, s)
      end
  end.

Definition take_sign (s : string) : bool * string :=
  match s with
  | String "-" r => (true, r)
  | String "+" r => (false, r)
  | _ => (false, s)
  end.

Definition parse_exponent (s : string) : option Z :=
  match s with
  | EmptyString => Some 0
  | String c r =>
      if Ascii.eqb c "e" || Ascii.eqb c "E" then
        let '(neg, r') := take_sign r in
        let '(x, n, rest) := take_digits r' 0 0 in
        match rest with
        | EmptyString => if n =? 0 then None else Some (if neg then - x else x)
        | _ => None
        end
      else None
  end.

Definition parse_decimal (neg : bool) (s : string) : option float :=
  let '(ip, ni, r1) := take_digits s 0 0 in
  let '(m, nf, r2) := match r1 with
                      | String "." r => take_digits r ip 0
                      | _ => (ip, 0, r1)
                      end in
  if ni + nf =? 0 then None
  else match parse_exponent r2 with
       | Some x => Some (decimal_to_float neg m (x - nf))
       | None => None
       end.

Definition float_of_str (s : string) : option float :=
  match drop_underscores Ascii.zero (Str.strip s) with
  | None => None
  | Some t =>
      let '(neg, body) := take_sign t in
      let word := Str.lower body in
      if String.eqb word "inf" || String.eqb word "infinity"
      then Some (if neg then neg_infinity else infinity)
      else if String.eqb word "nan" then Some nan
      else parse_decimal neg body
  end.

(** *** Dates *)

Definition digits_value (s : string) : option Z :=
  let '(x, n, rest) := take_digits s 0 0 in
  match rest with
  | EmptyString => if n =? Z.of_nat (String.length s) then Some x else None
  | _ => None
  end.

Definition iso_date (v : pyval) : option date :=
  match v with
  | VStr s =>
      if (String.length s =? 10)%nat
         && String.eqb (substring 4 1 s) "-" && String.eqb (substring 7 1 s) "-"
      then match digits_value (substring 0 4 s), digits_value (substring 5 2 s),
                 digits_value (substring 8 2 s) with
           | Some y, Some m, Some d =>
               if (1 <=? m) && (m <=? 12) && (1 <=? d) && (d <=? 31)
               then Some (mkdate y m d) else None
           | _, _, _ => None
           end
      else None
  | _ => None
  end.

(** *** A backend with three sheets; the second cannot be fetched. *)

Definition washes : DataFrame :=
  mkdf ["Date"; "A"; "B"]
       [ [VStr "2024-06-01"; VStr "10"; VStr ""];
         [VStr "2024-06-02"; VStr "5"; VStr "3"] ].

Definition revenue : DataFrame :=
  mkdf ["Day"; "Revenue"]
       [ [VStr "n/a"; VInt 7];
         [VStr "2024-05-31"; VInt 12] ].

Definition fetch_sheet_df (spreadsheet_id worksheet : pyval) : result DataFrame :=
  match spreadsheet_id with
  | VStr "sheet-1" => Ok washes
  | VStr "sheet-3" => Ok revenue
  | _ => Raise (mkexn "SpreadsheetNotFound" "<Response [404]>")
  end.

(** *** The inputs of the worked examples *)

Definition june_1 : date := mkdate 2024 6 1.

Definition total_spec : sdict pyval :=
  [("sum", VList [VStr "A"; VStr "B"]); ("label", VStr "Total")].

Definition cfg_washes : sdict pyval :=
  [("title", VStr "Washes"); ("spreadsheet_id", VStr "sheet-1");
   ("worksheet", VStr "Daily"); ("date_column", VStr "Date");
   ("fields", VList [VDict total_spec])].

Definition cfg_gone : sdict pyval :=
  [("title", VStr "Gone"); ("spreadsheet_id", VStr "sheet-2");
   ("worksheet", VStr "Daily"); ("date_column", VStr "Date")].

Definition cfg_revenue : sdict pyval :=
  [("title", VStr "Revenue"); ("spreadsheet_id", VStr "sheet-3");
   ("worksheet", VStr "Daily"); ("date_column", VStr "Day");
   ("fields", VList [VStr "Revenue"])].

Definition cfg_misnamed : sdict pyval :=
  [("spreadsheet_id", VStr "sheet-3"); ("worksheet", VStr "Daily");
   ("date_column", VStr "Date")].

(** The rows of [washes] as [row_for_date] returns them. *)
Definition row_june_1 : sdict pyval :=
  [("Date", VStr "2024-06-01"); ("A", VStr "10"); ("B", VStr "")].

Definition row_june_2 : sdict pyval :=
  [("Date", VStr "2024-06-02"); ("A", VStr "5"); ("B", VStr "3")].

(** A row with two columns that differ by case only. *)
Definition row_two_revenues : sdict pyval :=
  [("Revenue", VInt 1); ("revenue", VInt 2)].

(** Rows after folding, with numbers as the sheet delivers them. *)
Definition rl_refund : sdict pyval := [("a", VInt (-5))].

Definition rl_huge : sdict pyval :=
  [("a", VFloat 1e308); ("b", VFloat 1e308); ("c", VFloat (-1e308))].

Definition rl_infinities : sdict pyval :=
  [("a", VFloat infinity); ("b", VFloat neg_infinity)].

(** A row with a header that ends in a space. *)
Definition row_padded_header : sdict pyval :=
  [("Date", VStr "2024-06-01"); ("Revenue", VInt 42); ("Tips ", VInt 7)].

End Sample.

#[export] Instance sample : Externals := {
  repr := Sample.repr;
  float_of_str := Sample.float_of_str;
  to_datetime_date := map Sample.iso_date;
  fetch_sheet_df := Sample.fetch_sheet_df
}.

(* ================================================================== *)
(** ** Predicates the properties are stated with *)

(** A float that is [+0], [-0], positive or [+inf]: the floats [x] with
    [0 <= x]. *)
Definition sf_nonneg (s : spec_float) : Prop :=
  match s with
  | S754_zero _ | S754_infinity false | S754_finite false _ _ => True
  | _ => False
  end.

(** A float that is a zero or finite. *)
Definition sf_finite (s : spec_float) : Prop :=
  match s with
  | S754_zero _ | S754_finite _ _ _ => True
  | _ => False
  end.

(** A zero, or a finite float whose magnitude (the number of binary
    digits of its mantissa plus its exponent) is at most [b]: the floats
    [x] with [|x| < 2^b]. *)
Definition sf_below (b : Z) (s : spec_float) : Prop :=
  match s with
  | S754_zero _ => True
  | S754_finite _ m e => Zpos (digits2_pos m) + e <= b
  | _ => False
  end.

Definition float_below (b : Z) (x : float) : bool :=
  match Prim2SF x with
  | S754_zero _ => true
  | S754_finite _ m e => Zpos (digits2_pos m) + e <=? b
  | _ => false
  end.

(** A value the report shows as missing: [None] or a NaN float, the
    test [_fmt_value] makes before it prints the em dash. *)
Definition is_missing (v : pyval) : bool :=
  match v with
  | VNone => true
  | VFloat x => is_nan x
  | _ => false
  end.

(** A value that is a finite number greater than or equal to [0]. *)
Definition finite_nonneg (v : pyval) : bool :=
  match v with
  | VInt z => 0 <=? z
  | VFloat x => is_finite x && (0 <=? x)%float
  | _ => false
  end.

Section Predicates.
Context `{Externals}.

(** A looked-up cell that is absent, blank or a number (an [int] or a
    [float]). *)
Definition numeric_or_blank (c : option pyval) : Prop :=
  match c with
  | None => True
  | Some v =>
      is_blank v = true \/ (exists z, v = VInt z) \/ (exists x, v = VFloat x)
  end.

(** A looked-up cell that is absent, blank or converts to a float
    [x] with [0 <= x]. *)
Definition nonneg_or_blank (c : option pyval) : Prop :=
  match c with
  | None => True
  | Some v =>
      is_blank v = true
      \/ exists x, py_float v = Some x /\ (0 <=? x)%float = true
  end.

End Predicates.

(* ================================================================== *)
(** ** Fetching a sheet: [fetch_sheet_df]

    The program's own fetch function over a gspread client.  A
    spreadsheet is what the client answers for a key: the listing of its
    worksheets (or the exception the API call raises); a worksheet has a
    title, a numeric id and the records [get_all_records] returns. *)

From Stdlib Require DecimalPos DecimalZ.

(** [str(z)] for an [int]. *)
Definition int_str (z : Z) : string := NilZero.string_of_int (Z.to_int z).

(** The text after the first occurrence of [c]: [s.split(c, 1)[1]]. *)
Fixpoint after_first (c : ascii) (s : string) : option string :=
  match s with
  | EmptyString => None
  | String a r => if Ascii.eqb a c then Some r else after_first c r
  end.

Record Worksheet := mkws {
  ws_title : string;
  ws_id : Z;
  ws_records : result (list (sdict pyval))
}.

Record Spreadsheet := mksh { sh_worksheets : result (list Worksheet) }.

Class GspreadClient := {
  (** [client.open_by_key(spreadsheet_id)] *)
  open_by_key : pyval -> result Spreadsheet
}.

(** The columns of [pd.DataFrame(data)] for a list of records: the keys
    of the records in the order of their first appearance. *)
Definition add_keys (cols : list string) (r : sdict pyval) : list string :=
  fold_left (fun cols kv =>
               if existsb (String.eqb (fst kv)) cols then cols
               else (cols ++ [fst kv])%list) r cols.

Definition frame_columns (data : list (sdict pyval)) : list string :=
  fold_left add_keys data [].

(** The values the records have under the key [c], NaN where a record
    has none: a column before pandas infers its type. *)
Definition records_column (data : list (sdict pyval)) (c : string) : list pyval :=
  map (fun r => get_or r c (VFloat nan)) data.

(** pandas stores a column with one type (the cells modelled are
    [None], [bool], [int], [float] and text).  A column that holds only
    [int]s, [float]s and [None]s, with a [float] among them or both a
    [None] and an [int], is stored as [float64], provided its [int]s fit
    a 64-bit integer type together; every other column ([int]s only,
    [bool]s, or any text, list or dictionary) keeps its values. *)
Definition is_None (v : pyval) : bool :=
  match v with
  | VNone => true
  | _ => false
  end.

Definition is_int (v : pyval) : bool :=
  match v with
  | VInt _ => true
  | _ => false
  end.

Definition is_float (v : pyval) : bool :=
  match v with
  | VFloat _ => true
  | _ => false
  end.

(** The [int]s of the column lie in the range of [int64] or [uint64],
    and not some below [0] with some above the [int64] range. *)
Definition ints_fit_64 (vals : list pyval) : bool :=
  forallb (fun v => match v with
                    | VInt z => (- 2 ^ 63 <=? z) && (z <? 2 ^ 64)
                    | _ => true
                    end) vals
  && negb (existsb (fun v => match v with
                             | VInt z => z <? 0
                             | _ => false
                             end) vals
           && existsb (fun v => match v with
                                | VInt z => 2 ^ 63 <=? z
                                | _ => false
                                end) vals).

Definition is_float64_column (vals : list pyval) : bool :=
  forallb (fun v => is_None v || is_int v || is_float v) vals
  && (existsb is_float vals || (existsb is_None vals && existsb is_int vals))
  && ints_fit_64 vals.

(** The value of a cell of a [float64] column: an [int] becomes the
    nearest double, [None] becomes NaN. *)
Definition astype_float64 (v : pyval) : pyval :=
  match v with
  | VInt z =>
      match float_of_Z z with
      | Some x => VFloat x
      | None => v
      end
  | VNone => VFloat nan
  | _ => v
  end.

(** The cell the frame holds for the value [v] of column [c]. *)
Definition frame_cell (data : list (sdict pyval)) (c : string) (v : pyval) : pyval :=
  if is_float64_column (records_column data c) then astype_float64 v else v.

(** [pd.DataFrame(data)]: one row per record, NaN where a record lacks
    a column, every column stored with the type inferred for it. *)
Definition DataFrame_of_records (data : list (sdict pyval)) : DataFrame :=
  let cols := frame_columns data in
  mkdf cols (map (fun r => map (fun c => frame_cell data c (get_or r c (VFloat nan))) cols)
                 data).

Module Sheets.
Section Fetch.
Context `{GspreadClient}.

(** The worksheet whose [str(w.id)] is [gid], as the loop over
    [sh.worksheets()] finds it. *)
Definition worksheet_by_gid (worksheet gid : string) (l : list Worksheet)
  : result Worksheet :=
  match find (fun w => String.eqb (int_str (ws_id w)) gid) l with
  | Some w => Ok w
  | None => Raise (RuntimeError ("Worksheet with " ++ worksheet ++ " not found."))
  end.

(** [sh.worksheet(title)] *)
Definition worksheet_by_title (title : string) (l : list Worksheet)
  : result Worksheet :=
  match find (fun w => String.eqb (ws_title w) title) l with
  | Some w => Ok w
  | None => Raise (mkexn "WorksheetNotFound" title)
  end.

Definition fetch_sheet_df (spreadsheet_id worksheet : pyval) : result DataFrame :=
  sh <- open_by_key spreadsheet_id ;;
  match worksheet with
  | VStr name =>
      ws <- (if prefix "gid:" name then
               match after_first ":" name with
               | Some gid =>
                   l <- sh_worksheets sh ;;
                   worksheet_by_gid name gid l
               | None => Raise (IndexError "list index out of range")
               end
             else
               l <- sh_worksheets sh ;;
               worksheet_by_title name l) ;;
      data <- ws_records ws ;;
      Ok (DataFrame_of_records data)
  | _ =>
      Raise (mkexn "AttributeError"
               ("'" ++ type_name worksheet ++ "' object has no attribute 'startswith'"))
  end.

End Fetch.
End Sheets.

(** The library functions with the program's own fetch over a client. *)
Definition with_client (E : Externals) (C : GspreadClient) : Externals :=
  {| repr := @repr E;
     float_of_str := @float_of_str E;
     to_datetime_date := @to_datetime_date E;
     fetch_sheet_df := @Sheets.fetch_sheet_df C |}.

(* ================================================================== *)
(** ** Rendering and delivery: [build_blocks], [slack_post_blocks] *)

Class Delivery := {
  (** [f"{x:,.2f}"] *)
  format_comma_2f : float -> string;
  (** [requests.post(url, json=payload)]: the response's [status_code]
      and [text], or the exception the request raises. *)
  requests_post : string -> pyval -> result (Z * string)
}.

(** [needle in hay] for two strings. *)
Fixpoint contains (needle hay : string) : bool :=
  prefix needle hay
  || match hay with
     | EmptyString => false
     | String _ r => contains needle r
     end.

(** [sep.join(l)] *)
Fixpoint str_join (sep : string) (l : list string) : string :=
  match l with
  | [] => ""
  | [x] => x
  | x :: r => x ++ sep ++ str_join sep r
  end.

Definition newline : string := String (ascii_of_nat 10) EmptyString.

(** [x.is_integer()] *)
Definition float_is_integer (x : float) : bool :=
  match Prim2SF x with
  | S754_zero _ => true
  | S754_finite _ m e => (0 <=? e) || (Zpos m mod 2 ^ (- e) =? 0)
  | _ => false
  end.

(** [int(x)] for a finite float. *)
Definition int_of_float (x : float) : Z :=
  match Prim2SF x with
  | S754_finite s m e =>
      cond_Zopp s (if 0 <=? e then Zpos m * 2 ^ e else Zpos m / 2 ^ (- e))
  | _ => 0
  end.

(** [isinstance(v, (int, float))]; a [bool] is an [int]. *)
Definition is_number (v : pyval) : bool :=
  match v with
  | VBool _ | VInt _ | VFloat _ => true
  | _ => false
  end.

Definition header_block (text : string) : pyval :=
  VDict [("type", VStr "header");
         ("text", VDict [("type", VStr "plain_text"); ("text", VStr text)])].

Definition divider_block : pyval := VDict [("type", VStr "divider")].

Definition section_block (text : string) : pyval :=
  VDict [("type", VStr "section");
         ("text", VDict [("type", VStr "mrkdwn"); ("text", VStr text)])].

Section Rendering.
Context `{Externals} `{Delivery}.

(** ["$" in label or "revenue" in label.lower()] *)
Definition money_hint (label : pyval) : result bool :=
  match label with
  | VStr l => Ok (contains "$" l || contains "revenue" (Str.lower l))
  | VList l =>
      if existsb (fun x => match x with
                           | VStr s => String.eqb s "$"
                           | _ => false
                           end) l
      then Ok true
      else Raise (mkexn "AttributeError" "'list' object has no attribute 'lower'")
  | VDict d =>
      if existsb (fun kv => String.eqb (fst kv) "$") d
      then Ok true
      else Raise (mkexn "AttributeError" "'dict' object has no attribute 'lower'")
  | _ =>
      Raise (TypeError ("argument of type '" ++ type_name label ++ "' is not iterable"))
  end.

(** [_fmt_value(label, v)] *)
Definition _fmt_value (label v : pyval) : result string :=
  match v with
  | VNone => Ok "—"
  | _ =>
      if match v with
         | VFloat x => is_nan x
         | _ => false
         end
      then Ok "—"
      else
        money <- (if is_number v then money_hint label else Ok false) ;;
        if money then
          match py_float v with
          | Some x => Ok ("$" ++ format_comma_2f x)
          | None =>
              Raise (mkexn "OverflowError" "int too large to convert to float")
          end
        else
          match v with
          | VFloat x =>
              if float_is_integer x then Ok (py_str (VInt (int_of_float x)))
              else Ok (py_str v)
          | _ => Ok (py_str v)
          end
  end.

(** The list [fields_md] for the items of [fields]. *)
Fixpoint fields_md (items : list (pyval * pyval)) : result (list string) :=
  match items with
  | [] => Ok []
  | (k, v) :: rest =>
      s <- _fmt_value k v ;;
      md <- fields_md rest ;;
      Ok (("*" ++ py_str k ++ ":* " ++ s) :: md)
  end.

(** [section_text] for one element of [results]. *)
Definition section_text (r : ReportEntry) : result string :=
  let flds := match fields r with
              | Some f => f
              | None => []
              end in
  let emj := match emoji r with
             | Some e => e
             | None => VStr "📍"
             end in
  let text := py_str emj ++ " *" ++ py_str (title r) ++ "*" in
  md <- fields_md flds ;;
  let text := match md with
              | [] => text
              | _ :: _ => text ++ newline ++ str_join newline md
              end in
  let text := match status r with
              | EmptyString => text
              | st => text ++ newline ++ st
              end in
  Ok text.

(** The loop [for r in results], threading [blocks]. *)
Fixpoint blocks_loop (results : list ReportEntry) (blocks : list pyval)
  : result (list pyval) :=
  match results with
  | [] => Ok blocks
  | r :: rest =>
      text <- section_text r ;;
      blocks_loop rest (blocks ++ [section_block text; divider_block])
  end.

Definition build_blocks (results : list ReportEntry) (date_label : string)
  : result (list pyval) :=
  blocks_loop results
    [header_block ("Daily Car Wash Summary – " ++ date_label); divider_block].

(** [slack_post_blocks(blocks)]; [SLACK_WEBHOOK_URL] is [None] when the
    environment variable is not set. *)
Definition slack_post_blocks (SLACK_WEBHOOK_URL : option string) (blocks : list pyval)
  : result unit :=
  match SLACK_WEBHOOK_URL with
  | Some (String c u) =>
      resp <- requests_post (String c u) (VDict [("blocks", VList blocks)]) ;;
      if 300 <=? fst resp
      then Raise (RuntimeError ("Slack webhook failed: " ++ int_str (fst resp)
                                ++ " " ++ snd resp))
      else Ok tt
  | _ =>
      Raise (RuntimeError
        "No Slack credentials set. Provide SLACK_WEBHOOK_URL or SLACK_BOT_TOKEN+SLACK_CHANNEL_ID.")
  end.

(** The end of [main]: the blocks of [results] are built and posted. *)
Definition main_deliver (SLACK_WEBHOOK_URL : option string) (y_mt : date)
                        (date_label : string) (CONFIG : list (sdict pyval))
  : result unit :=
  blocks <- build_blocks (main_results y_mt CONFIG) date_label ;;
  slack_post_blocks SLACK_WEBHOOK_URL blocks.

End Rendering.

(** *** An instance of the delivery functions for the worked examples *)

Module SampleDelivery.

(** [num / den] rounded to the nearest integer, ties to even. *)
Definition round_half_even (num den : Z) : Z :=
  let q := num / den in
  let r := num mod den in
  match 2 * r ?= den with
  | Lt => q
  | Gt => q + 1
  | Eq => if Z.even q then q else q + 1
  end.

Definition two_digits (z : Z) : string :=
  if z <? 10 then "0" ++ int_str z else int_str z.

Definition three_digits (z : Z) : string :=
  if z <? 10 then "00" ++ int_str z
  else if z <? 100 then "0" ++ int_str z
  else int_str z.

(** The digits of [z] in groups of three; [p] bounds the recursion. *)
Fixpoint group_thousands (p : positive) (z : Z) : string :=
  if z <? 1000 then int_str z
  else match p with
       | xH => int_str z
       | xO p' | xI p' =>
           group_thousands p' (z / 1000) ++ "," ++ three_digits (z mod 1000)
       end.

Definition format_comma_2f (x : float) : string :=
  match Prim2SF x with
  | S754_nan => "nan"
  | S754_infinity s => if s then "-inf" else "inf"
  | S754_zero s => if s then "-0.00" else "0.00"
  | S754_finite s m e =>
      let n := if 0 <=? e then Zpos m * 2 ^ e * 100
               else round_half_even (Zpos m * 100) (2 ^ (- e)) in
      (if s then "-" else "")
      ++ group_thousands (Z.to_pos (n / 100 + 1)) (n / 100)
      ++ "." ++ two_digits (n mod 100)
  end.

Definition webhook : string := "https://hooks.slack.com/services/T0/B0/secret".

Definition requests_post (url : string) (payload : pyval) : result (Z * string) :=
  if String.eqb url webhook then Ok (200, "ok") else Ok (404, "no_service").

(** A client with one spreadsheet of three worksheets; the last has no
    data rows. *)
Definition record_june_1 : sdict pyval :=
  [("Date", VStr "2024-06-01"); ("Washes", VInt 42); ("Revenue", VFloat 1234.5)].

Definition record_june_2 : sdict pyval :=
  [("Date", VStr "2024-06-02"); ("Washes", VInt 40); ("Revenue", VFloat 980)].

(** A record whose revenue is a whole number, delivered as an [int]. *)
Definition record_june_3 : sdict pyval :=
  [("Date", VStr "2024-06-03"); ("Washes", VInt 38); ("Revenue", VInt 1100)].

Definition book : list Worksheet :=
  [ mkws "Daily" 0 (Ok [record_june_1; record_june_2]);
    mkws "gid:0" 77 (Ok [record_june_2]);
    mkws "Empty" 5 (Ok []) ].

Definition open_by_key (spreadsheet_id : pyval) : result Spreadsheet :=
  match spreadsheet_id with
  | VStr "book-1" => Ok (mksh (Ok book))
  | _ => Raise (mkexn "SpreadsheetNotFound" "<Response [404]>")
  end.

(** A table with two rows of the same day. *)
Definition two_shifts : DataFrame :=
  mkdf ["Date"; "Washes"]
       [ [VStr "2024-05-31"; VInt 30];
         [VStr "2024-06-01"; VInt 41];
         [VStr "2024-06-01"; VInt 42] ].

(** A source whose second field spec cannot be evaluated. *)
Definition cfg_bad_sum : sdict pyval :=
  [("title", VStr "Washes"); ("spreadsheet_id", VStr "sheet-1");
   ("worksheet", VStr "Daily"); ("date_column", VStr "Date");
   ("fields", VList [VStr "A"; VDict [("sum", VInt 5)]; VStr "B"])].

(** Five sources: one is reported, one cannot be fetched, one names a
    date column its sheet does not have, one has a field spec that
    cannot be evaluated, and one has no row for the day. *)
Definition five_sources : list (sdict pyval) :=
  [Sample.cfg_washes; Sample.cfg_gone; Sample.cfg_misnamed; cfg_bad_sum;
   Sample.cfg_revenue].

(** The results of a run with one source reported and one failed. *)
Definition two_results : list ReportEntry :=
  [ mkentry (VStr "Main St") (Some (VStr "📍")) ""
            (Some [(VStr "Washes", VInt 42); (VStr "Revenue", VFloat 1234.5);
                   (VStr "Nope", VNone)]);
    mkentry (VStr "Gone") None ":x: Error – <Response [404]>" None ].

End SampleDelivery.

#[export] Instance sample_delivery : Delivery := {
  format_comma_2f := SampleDelivery.format_comma_2f;
  requests_post := SampleDelivery.requests_post
}.

#[export] Instance sample_client : GspreadClient := {
  open_by_key := SampleDelivery.open_by_key
}.

(* ================================================================== *)
(** ** The date label of the message

    [y_mt.strftime("%a, %b %d, %Y").replace(" 0", " ")], with the names
    of the C locale. *)

(** Days from 1970-01-01 to a date of the Gregorian calendar. *)
Definition days_from_civil (d : date) : Z :=
  let y := if month d <=? 2 then year d - 1 else year d in
  let era := y / 400 in
  let yoe := y - era * 400 in
  let mp := if 2 <? month d then month d - 3 else month d + 9 in
  let doy := (153 * mp + 2) / 5 + day d - 1 in
  let doe := yoe * 365 + yoe / 4 - yoe / 100 + doy in
  era * 146097 + doe - 719468.

(** [d.weekday()]: Monday is 0. *)
Definition weekday (d : date) : Z := (days_from_civil d + 3) mod 7.

Definition day_names : list string :=
  ["Mon"; "Tue"; "Wed"; "Thu"; "Fri"; "Sat"; "Sun"].

Definition month_names : list string :=
  ["Jan"; "Feb"; "Mar"; "Apr"; "May"; "Jun";
   "Jul"; "Aug"; "Sep"; "Oct"; "Nov"; "Dec"].

(** [%a] *)
Definition day_abbr (d : date) : string :=
  nth (Z.to_nat (weekday d)) day_names "".

(** [%b] *)
Definition month_abbr (d : date) : string :=
  nth (Z.to_nat (month d - 1)) month_names "".

(** [z] in decimal, padded with zeros to [n] digits. *)
Fixpoint zero_pad (n : nat) (digits : string) : string :=
  match n with
  | O => digits
  | S n' => if (String.length digits <=? n')%nat
            then zero_pad n' (String "0" digits) else digits
  end.

(** [d.strftime("%a, %b %d, %Y")] *)
Definition strftime_a_b_d_Y (d : date) : string :=
  day_abbr d ++ ", " ++ month_abbr d ++ " " ++ zero_pad 2 (int_str (day d))
  ++ ", " ++ zero_pad 4 (int_str (year d)).

(** [s.replace(old, new)] for a non-empty [old]: the occurrences of
    [old] are replaced from left to right; [skip] counts the characters
    of a replaced occurrence that are still to be passed over. *)
Fixpoint str_replace_from (old new : string) (skip : nat) (s : string) : string :=
  match s with
  | EmptyString => EmptyString
  | String c r =>
      match skip with
      | S k => str_replace_from old new k r
      | O =>
          if prefix old s
          then new ++ str_replace_from old new (String.length old - 1) r
          else String c (str_replace_from old new 0 r)
      end
  end.

Definition str_replace (old new s : string) : string :=
  str_replace_from old new 0 s.

Definition date_label (y_mt : date) : string :=
  str_replace " 0" " " (strftime_a_b_d_Y y_mt).

(** A word of a date: not empty, without a space, and not starting with
    the digit 0. *)
Fixpoint no_space (s : string) : bool :=
  match s with
  | EmptyString => true
  | String c r => negb (Ascii.eqb c " ") && no_space r
  end.

Definition plain_word (s : string) : bool :=
  match s with
  | EmptyString => false
  | String c r => negb (Ascii.eqb c "0") && no_space s
  end.

(** The decimal text of [z] is a plain word of as many digits as [z]
    has (for [z] from 1 to 9999). *)
Definition int_str_ok (z : Z) : bool :=
  plain_word (int_str z)
  && Nat.eqb (String.length (int_str z))
             (if z <? 10 then 1%nat
              else if z <? 100 then 2%nat
              else if z <? 1000 then 3%nat else 4%nat).

(* ================================================================== *)
(** ** Predicates for the further properties *)

(** A field spec of none of the three recognised shapes: no string, and
    no dictionary with a [key] or a [sum]. *)
Definition unrecognized_spec (f : pyval) : bool :=
  match f with
  | VStr _ => false
  | VDict d =>
      match sget d "key", sget d "sum" with
      | None, None => true
      | _, _ => false
      end
  | _ => true
  end.

(** A field of a report entry that [_fmt_value] can render: its label is
    a string and its value, when it is an [int], converts to a float. *)
Definition renderable_field (kv : pyval * pyval) : Prop :=
  (exists l, fst kv = VStr l)
  /\ (forall z, snd kv = VInt z -> float_of_Z z <> None).

(** A looked-up cell that is absent or blank. *)
Definition blank_or_absent (c : option pyval) : Prop :=
  match c with
  | None => True
  | Some v => is_blank v = true
  end.

(* ================================================================== *)
(** * Properties *)

(** ** Dictionaries and strings *)

Lemma sget_sset_same {V} (d : sdict V) k v : sget (sset d k v) k = Some v.
Proof.
  unfold sget, sset.
  induction d as [|[k' v'] r IH]; simpl.
  - now rewrite String.eqb_refl.
  - destruct (String.eqb k' k) eqn:E; simpl; rewrite E; auto.
Qed.

Lemma sget_sset_other {V} (d : sdict V) k k' v :
  k <> k' -> sget (sset d k v) k' = sget d k'.
Proof.
  intros Hne. unfold sget, sset.
  induction d as [|[k0 v0] r IH]; simpl.
  - apply String.eqb_neq in Hne. now rewrite Hne.
  - destruct (String.eqb k0 k) eqn:E; simpl.
    + apply String.eqb_eq in E. subst k0.
      apply String.eqb_neq in Hne. now rewrite Hne.
    + now rewrite IH.
Qed.

Lemma sget_sdel_other {V} (d : sdict V) k k' :
  k <> k' -> sget (sdel d k) k' = sget d k'.
Proof.
  intros Hne. unfold sget, sdel.
  induction d as [|[k0 v0] r IH]; simpl; auto.
  destruct (String.eqb k0 k) eqn:E; simpl.
  - apply String.eqb_eq in E. subst k0.
    apply String.eqb_neq in Hne. now rewrite Hne.
  - now rewrite IH.
Qed.

Lemma get_or_sdel_other {V} (d : sdict V) k k' (dflt : V) :
  k <> k' -> get_or (sdel d k) k' dflt = get_or d k' dflt.
Proof. intros Hne. unfold get_or. now rewrite sget_sdel_other. Qed.

Lemma date_eqb_eq a b : date_eqb a b = true -> a = b.
Proof.
  destruct a, b. unfold date_eqb. simpl. intros E.
  apply andb_prop in E as [E E3]. apply andb_prop in E as [E1 E2].
  apply Z.eqb_eq in E1, E2, E3. congruence.
Qed.

Lemma lower_char_space c : Str.is_space (Str.lower_char c) = Str.is_space c.
Proof. destruct c as [[] [] [] [] [] [] [] []]; reflexivity. Qed.

Lemma lower_char_idem c : Str.lower_char (Str.lower_char c) = Str.lower_char c.
Proof. destruct c as [[] [] [] [] [] [] [] []]; reflexivity. Qed.

Lemma lower_lstrip s : Str.lower (Str.lstrip s) = Str.lstrip (Str.lower s).
Proof.
  induction s as [|c r IH]; simpl; auto.
  rewrite lower_char_space. destruct (Str.is_space c); auto.
Qed.

Lemma lower_rstrip s : Str.lower (Str.rstrip s) = Str.rstrip (Str.lower s).
Proof.
  induction s as [|c r IH]; simpl; auto.
  rewrite <- IH, lower_char_space.
  destruct (Str.rstrip r); simpl; auto.
  destruct (Str.is_space c); auto.
Qed.

Lemma fold_key_lower s : Str.fold_key s = Str.strip (Str.lower s).
Proof. unfold Str.fold_key, Str.strip. now rewrite lower_rstrip, lower_lstrip. Qed.

Lemma same_char_lower c1 c2 :
  Str.same_char_nocase c1 c2 -> Str.lower_char c1 = Str.lower_char c2.
Proof. intros []; auto using lower_char_idem, eq_sym. Qed.

Lemma equal_up_to_case_lower s1 s2 :
  Str.equal_up_to_case s1 s2 -> Str.lower s1 = Str.lower s2.
Proof.
  induction 1 as [|c1 c2 s1 s2 Hc _ IH]; simpl; auto.
  now rewrite (same_char_lower _ _ Hc), IH.
Qed.

Lemma equal_up_to_case_fold_key s1 s2 :
  Str.equal_up_to_case s1 s2 -> Str.fold_key s1 = Str.fold_key s2.
Proof.
  intros E. rewrite !fold_key_lower. now rewrite (equal_up_to_case_lower _ _ E).
Qed.

(** ** The loop of [main] *)

Section MainFacts.
Context `{Externals}.

Lemma main_loop_from y cs acc :
  fold_left (main_step y) cs acc = (acc ++ map (run_source y) cs)%list.
Proof.
  revert acc. induction cs as [|cfg cs IH]; intros acc; simpl.
  - now rewrite app_nil_r.
  - rewrite IH. unfold main_step, run_source.
    destruct (source_body y cfg); now rewrite <- app_assoc.
Qed.

Lemma main_results_map y cs : main_results y cs = map (run_source y) cs.
Proof. unfold main_results. now rewrite main_loop_from. Qed.

Lemma main_results_app y pre cfg post :
  main_results y (pre ++ cfg :: post)
  = (main_results y pre ++ [run_source y cfg] ++ main_results y post)%list.
Proof. rewrite !main_results_map, map_app. reflexivity. Qed.

Lemma in_columns_str c df :
  in_columns (VStr c) df = Ok (existsb (String.eqb c) (columns df)).
Proof. reflexivity. Qed.

Lemma existsb_eqb_In c cols : existsb (String.eqb c) cols = true <-> In c cols.
Proof.
  rewrite existsb_exists. split.
  - intros [x [Hin E]]. apply String.eqb_eq in E. now subst.
  - intros Hin. exists c. split; auto. apply String.eqb_refl.
Qed.

Lemma row_for_date_missing df c D :
  ~ In c (columns df) ->
  row_for_date df (VStr c) D = Raise (date_column_missing (VStr c) df).
Proof.
  intros Hnot. unfold row_for_date. rewrite in_columns_str. simpl.
  destruct (existsb (String.eqb c) (columns df)) eqn:E; auto.
  apply existsb_eqb_In in E. contradiction.
Qed.

(** C1.  For every configured list of sources the loop of [main]
    leaves exactly one entry per source, in the configured order, and
    the entry of a source is decided by that source alone.  An
    exception of any of the three stages is caught at the source: when
    the fetch raises, when the fetch returns and [row_for_date] raises,
    and when a row is selected and the loop over the field specs (or
    the iteration over [fields] itself) raises, the entry is the error
    entry: the source's title and the status [":x: Error – "] followed
    by the exception's message.  When no stage raises the entry is the
    one for a day without a row, or the one with the evaluated
    fields. *)
Theorem main_isolates_sources (y_mt : date) (CONFIG : list (sdict pyval)) :
  let failed := fun (cfg : sdict pyval) (e : exn) =>
    mkentry (title_of cfg) None (":x: Error – " ++ exn_msg e) None in
  List.length (main_results y_mt CONFIG) = List.length CONFIG
  /\ forall i cfg,
       nth_error CONFIG i = Some cfg ->
       exists entry,
         nth_error (main_results y_mt CONFIG) i = Some entry
         /\ title entry = title_of cfg
         /\ (forall e, source_body y_mt cfg = Raise e -> entry = failed cfg e)
         /\ forall sid ws,
              sget cfg "spreadsheet_id" = Some sid -> sget cfg "worksheet" = Some ws ->
              (forall e, fetch_sheet_df sid ws = Raise e -> entry = failed cfg e)
              /\ forall df dc,
                   fetch_sheet_df sid ws = Ok df -> sget cfg "date_column" = Some dc ->
                   (forall e, row_for_date df dc y_mt = Raise e -> entry = failed cfg e)
                   /\ (row_for_date df dc y_mt = Ok None ->
                       entry = mkentry (title_of cfg) None
                                       ":warning: No row for previous day" None)
                   /\ forall row,
                        row_for_date df dc y_mt = Ok (Some row) ->
                        (forall e, py_iter (get_or cfg "fields" (VList [])) = Raise e ->
                           entry = failed cfg e)
                        /\ forall fs,
                             py_iter (get_or cfg "fields" (VList [])) = Ok fs ->
                             (forall e, eval_fields (row_l row) fs [] = Raise e ->
                                entry = failed cfg e)
                             /\ (forall out,
                                   eval_fields (row_l row) fs [] = Ok out ->
                                   entry = mkentry (title_of cfg)
                                                   (Some (get_or cfg "emoji" (VStr "📍")))
                                                   "" (Some out)).
Proof.
  intros failed. rewrite main_results_map. split; [apply length_map|].
  intros i cfg Hi. exists (run_source y_mt cfg).
  split; [now apply map_nth_error|]. split; [|split].
  - unfold run_source. destruct (source_body y_mt cfg) as [entry|e] eqn:E.
    + unfold source_body in E.
      destruct (getitem cfg "spreadsheet_id"); simpl in E; [|discriminate].
      destruct (getitem cfg "worksheet"); simpl in E; [|discriminate].
      destruct (fetch_sheet_df a a0); simpl in E; [|discriminate].
      destruct (getitem cfg "date_column"); simpl in E; [|discriminate].
      destruct (row_for_date a1 a2 y_mt) as [[row|]|]; simpl in E; [| |discriminate].
      * destruct (py_iter _); simpl in E; [|discriminate].
        destruct (eval_fields _ _ _); simpl in E; [|discriminate].
        injection E as <-. reflexivity.
      * injection E as <-. reflexivity.
    + reflexivity.
  - intros e E. unfold run_source. now rewrite E.
  - intros sid ws Hs Hw. unfold run_source, source_body, getitem.
    rewrite Hs, Hw. cbn [bind]. split.
    + intros e Hf. now rewrite Hf.
    + intros df dc Hf Hd. rewrite Hf. cbn [bind]. rewrite Hd. cbn [bind].
      split; [|split].
      * intros e Hr. now rewrite Hr.
      * intros Hr. now rewrite Hr.
      * intros row Hr. rewrite Hr. cbn [bind]. split.
        -- intros e Hfs. now rewrite Hfs.
        -- intros fs Hfs. rewrite Hfs. cbn [bind]. split.
           ++ intros e He. now rewrite He.
           ++ intros out Ho. now rewrite Ho.
Qed.

(** C4.  When the date column is a column of the table and no entry of
    the parsed column is the target date (unparsable cells are [NaT]),
    [row_for_date] returns [None] and raises nothing. *)
Theorem row_for_date_not_found (df : DataFrame) (c : string) (D : date) :
  In c (columns df) ->
  Forall (fun d => d <> Some D) (to_datetime_date (column df c)) ->
  row_for_date df (VStr c) D = Ok None.
Proof.
  intros Hin Hno. unfold row_for_date. rewrite in_columns_str. simpl.
  apply existsb_eqb_In in Hin. rewrite Hin. simpl.
  set (dc := to_datetime_date (column df c)) in *.
  assert (Hmask : existsb (fun b : bool => b)
            (map (fun d => match d with
                           | Some d' => date_eqb d' D
                           | None => false
                           end) dc) = false).
  { induction Hno as [|d l Hd _ IH]; simpl; auto.
    rewrite IH. destruct d as [d'|]; auto.
    destruct (date_eqb d' D) eqn:E; auto.
    apply date_eqb_eq in E. subst. now elim Hd. }
  now rewrite Hmask.
Qed.

(** C5.  When the date column is no column of the table,
    [row_for_date] raises the [RuntimeError] that names the column
    (it does not return [None]); in [main] that source gets the error
    entry carrying the message, and the entries of the sources before
    and after it are the ones they get without it. *)
Theorem missing_date_column_is_source_error (df : DataFrame) (c : string) (D : date) :
  ~ In c (columns df) ->
  row_for_date df (VStr c) D = Raise (date_column_missing (VStr c) df)
  /\ exn_type (date_column_missing (VStr c) df) = "RuntimeError"
  /\ forall cfg sid ws,
       sget cfg "spreadsheet_id" = Some sid -> sget cfg "worksheet" = Some ws ->
       fetch_sheet_df sid ws = Ok df ->
       sget cfg "date_column" = Some (VStr c) ->
       run_source D cfg = error_entry cfg (date_column_missing (VStr c) df)
       /\ forall pre post,
            main_results D (pre ++ cfg :: post)
            = (main_results D pre
               ++ [error_entry cfg (date_column_missing (VStr c) df)]
               ++ main_results D post)%list.
Proof.
  intros Hnot. split; [now apply row_for_date_missing|]. split; [reflexivity|].
  intros cfg sid ws Hs Hw Hf Hd.
  assert (Hrun : run_source D cfg = error_entry cfg (date_column_missing (VStr c) df)).
  { unfold run_source, source_body, getitem. rewrite Hs, Hw. simpl.
    rewrite Hf. simpl. rewrite Hd. simpl.
    now rewrite (row_for_date_missing df c D Hnot). }
  split; auto. intros pre post. now rewrite main_results_app, Hrun.
Qed.

End MainFacts.

(** ** Floating-point addition *)

Lemma Prim2SF_zero : Prim2SF 0%float = S754_zero false.
Proof. reflexivity. Qed.

Lemma nonneg_shape x : (0 <=? x)%float = true <-> sf_nonneg (Prim2SF x).
Proof.
  rewrite leb_spec, Prim2SF_zero. unfold SFleb, SFcompare.
  destruct (Prim2SF x) as [s|s| |s m e]; try destruct s; simpl; intuition congruence.
Qed.

Lemma shr_1_nonneg mrs : 0 <= shr_m mrs -> 0 <= shr_m (shr_1 mrs).
Proof.
  destruct mrs as [m r s]. simpl.
  destruct m as [|p|p]; simpl; try lia; destruct p; simpl; lia.
Qed.

Lemma iter_shr_1_nonneg p :
  forall mrs, 0 <= shr_m mrs -> 0 <= shr_m (iter_pos shr_1 p mrs).
Proof. induction p; intros mrs Hm; simpl; auto using shr_1_nonneg. Qed.

Lemma shr_fexp_nonneg m e l :
  0 <= m -> 0 <= shr_m (fst (shr_fexp prec emax m e l)).
Proof.
  intros Hm. unfold shr_fexp, shr.
  assert (H0 : 0 <= shr_m (shr_record_of_loc m l))
    by (destruct l as [|[]]; simpl; lia).
  destruct (fexp prec emax (Zdigits2 m + e) - e); simpl;
    auto using iter_shr_1_nonneg.
Qed.

Lemma round_nearest_even_nonneg m l : 0 <= m -> 0 <= round_nearest_even m l.
Proof.
  intros Hm. destruct l as [|[]]; simpl; try lia. destruct (Z.even m); lia.
Qed.

(** Rounding a non-negative mantissa gives a float that is not negative. *)
Lemma binary_round_aux_nonneg m e l :
  0 <= m -> sf_nonneg (binary_round_aux prec emax false m e l).
Proof.
  intros Hm. unfold binary_round_aux.
  pose proof (shr_fexp_nonneg m e l Hm) as H1.
  destruct (shr_fexp prec emax m e l) as [mrs' e']. simpl in H1.
  pose proof (shr_fexp_nonneg _ e' loc_Exact
                (round_nearest_even_nonneg _ (loc_of_shr_record mrs') H1)) as H2.
  destruct (shr_fexp prec emax _ e' loc_Exact) as [mrs'' e'']. simpl in H2.
  destruct (shr_m mrs'') as [|p|p]; simpl; auto; try lia;
    destruct (e'' <=? _); simpl; auto.
Qed.

Lemma SFadd_nonneg a b : sf_nonneg a -> sf_nonneg b -> sf_nonneg (SF64add a b).
Proof.
  destruct a as [sa|sa| |sa ma ea], b as [sb|sb| |sb mb eb]; simpl;
    try destruct sa; try destruct sb; simpl; auto; try contradiction.
  intros _ _. unfold binary_normalize, binary_round.
  destruct (shl_align ma ea (Z.min ea eb)) as [ma' ea'].
  destruct (shl_align mb eb (Z.min ea eb)) as [mb' eb']. simpl.
  destruct (shl_align _ _ _) as [mz ez].
  apply binary_round_aux_nonneg. lia.
Qed.

Lemma add_nonneg x y :
  (0 <=? x)%float = true -> (0 <=? y)%float = true -> (0 <=? x + y)%float = true.
Proof. rewrite !nonneg_shape, add_spec. apply SFadd_nonneg. Qed.

Lemma fold_add_nonneg l :
  Forall (fun x => (0 <=? x)%float = true) l ->
  forall acc, (0 <=? acc)%float = true ->
  (0 <=? fold_left PrimFloat.add l acc)%float = true.
Proof. induction 1 as [|x l Hx _ IH]; intros acc Hacc; simpl; auto using add_nonneg. Qed.

Lemma SFadd_comm a b : SF64add a b = SF64add b a.
Proof.
  destruct a as [sa|sa| |sa ma ea], b as [sb|sb| |sb mb eb];
    try (unfold SF64add, SFadd; rewrite (Z.min_comm eb ea), Z.add_comm; reflexivity);
    try destruct sa; try destruct sb; reflexivity.
Qed.

(** The sum of two floats from the start value [0] does not depend on
    their order. *)
Lemma sum_two_swap x y : (0 + x + y = 0 + y + x)%float.
Proof.
  apply Prim2SF_inj. rewrite !add_spec, Prim2SF_zero.
  destruct (Prim2SF x) as [sa|sa| |sa ma ea], (Prim2SF y) as [sb|sb| |sb mb eb];
    try destruct sa; try destruct sb; try reflexivity;
    apply SFadd_comm.
Qed.

(** ** Magnitudes of floats *)

Lemma digits2_pos_bounds p :
  2 ^ (Zpos (digits2_pos p) - 1) <= Zpos p < 2 ^ Zpos (digits2_pos p).
Proof.
  induction p as [p IH|p IH|]; simpl digits2_pos.
  - rewrite Pos2Z.inj_succ.
    replace (Z.succ (Zpos (digits2_pos p)) - 1)
      with (Z.succ (Zpos (digits2_pos p) - 1)) by lia.
    rewrite !Z.pow_succ_r by lia. lia.
  - rewrite Pos2Z.inj_succ.
    replace (Z.succ (Zpos (digits2_pos p)) - 1)
      with (Z.succ (Zpos (digits2_pos p) - 1)) by lia.
    rewrite !Z.pow_succ_r by lia. lia.
  - simpl. lia.
Qed.

Lemma Zdigits2_nonneg m : 0 <= Zdigits2 m.
Proof. destruct m; simpl; lia. Qed.

Lemma Zdigits2_lt m : 0 <= m -> m < 2 ^ Zdigits2 m.
Proof.
  destruct m as [|p|p]; simpl; try lia. intros _. apply digits2_pos_bounds.
Qed.

Lemma Zdigits2_le m n : 0 <= n -> 0 <= m < 2 ^ n -> Zdigits2 m <= n.
Proof.
  intros Hn [H0 Hm]. destruct m as [|p|p]; simpl; try lia.
  pose proof (digits2_pos_bounds p) as [Hlo _].
  assert (Hlt : 2 ^ (Zpos (digits2_pos p) - 1) < 2 ^ n) by lia.
  apply Z.pow_lt_mono_r_iff in Hlt; lia.
Qed.

Lemma iter_xO_digits m d :
  Zpos (digits2_pos (Pos.iter xO m d)) = Zpos (digits2_pos m) + Zpos d.
Proof.
  induction d as [|d IH] using Pos.peano_ind.
  - simpl. lia.
  - rewrite Pos.iter_succ. simpl digits2_pos. rewrite Pos2Z.inj_succ, IH. lia.
Qed.

Lemma shl_align_spec m e e' :
  snd (shl_align m e e') = Z.min e e'
  /\ Zpos (digits2_pos (fst (shl_align m e e'))) + snd (shl_align m e e')
     = Zpos (digits2_pos m) + e.
Proof.
  unfold shl_align. destruct (e' - e) as [|d|d] eqn:E; cbn [fst snd]; try lia.
  rewrite iter_xO_digits. lia.
Qed.

Lemma shr_1_digits mrs :
  0 <= shr_m mrs ->
  Zdigits2 (shr_m (shr_1 mrs)) <= Z.max 0 (Zdigits2 (shr_m mrs) - 1).
Proof.
  destruct mrs as [m r s]. cbn [shr_m].
  destruct m as [|[p|p|]|p]; cbn [shr_1 shr_m Zdigits2 digits2_pos]; lia.
Qed.

Lemma iter_shr_1_digits p :
  forall mrs, 0 <= shr_m mrs ->
  Zdigits2 (shr_m (iter_pos shr_1 p mrs)) <= Z.max 0 (Zdigits2 (shr_m mrs) - Zpos p).
Proof.
  induction p as [p IH|p IH|]; intros mrs Hm; simpl iter_pos.
  - pose proof (shr_1_digits mrs Hm) as H1.
    pose proof (shr_1_nonneg mrs Hm) as N1.
    pose proof (IH _ N1) as H2.
    pose proof (iter_shr_1_nonneg p _ N1) as N2.
    pose proof (IH _ N2) as H3. lia.
  - pose proof (IH _ Hm) as H2.
    pose proof (iter_shr_1_nonneg p _ Hm) as N2.
    pose proof (IH _ N2) as H3. lia.
  - apply shr_1_digits, Hm.
Qed.

Lemma shr_m_of_loc m l : shr_m (shr_record_of_loc m l) = m.
Proof. destruct l as [|[]]; reflexivity. Qed.

Lemma shr_fexp_bound m e l :
  0 <= m ->
  snd (shr_fexp prec emax m e l) = Z.max e (fexp prec emax (Zdigits2 m + e))
  /\ 0 <= shr_m (fst (shr_fexp prec emax m e l))
  /\ Zdigits2 (shr_m (fst (shr_fexp prec emax m e l))) + snd (shr_fexp prec emax m e l)
     <= Z.max (Zdigits2 m + e) (snd (shr_fexp prec emax m e l)).
Proof.
  intros Hm. unfold shr_fexp, shr.
  assert (H0 : 0 <= shr_m (shr_record_of_loc m l)) by now rewrite shr_m_of_loc.
  destruct (fexp prec emax (Zdigits2 m + e) - e) as [|p|p] eqn:E; simpl.
  - rewrite shr_m_of_loc. lia.
  - pose proof (iter_shr_1_digits p _ H0) as Hd. rewrite shr_m_of_loc in Hd.
    pose proof (iter_shr_1_nonneg p _ H0). lia.
  - rewrite shr_m_of_loc. lia.
Qed.

Lemma round_nearest_even_digits m l :
  0 <= m ->
  0 <= round_nearest_even m l
  /\ Zdigits2 (round_nearest_even m l) <= Zdigits2 m + 1.
Proof.
  intros Hm.
  assert (Hs : Zdigits2 (m + 1) <= Zdigits2 m + 1).
  { pose proof (Zdigits2_nonneg m). pose proof (Zdigits2_lt m Hm).
    apply Zdigits2_le; [lia|]. rewrite Z.pow_add_r by lia. simpl (2 ^ 1). lia. }
  destruct l as [|[]]; simpl; try (split; lia).
  destruct (Z.even m); split; lia.
Qed.

Lemma fexp_eq x : fexp prec emax x = Z.max (x - 53) (-1074).
Proof. reflexivity. Qed.

(** Rounding a mantissa [m >= 0] at an exponent in range, of magnitude at
    most [D <= 1023]: the result is a zero or a finite float of magnitude
    at most [D + 1]. *)
Lemma binary_round_aux_bound s m e l D :
  0 <= m -> -1074 <= e <= 971 -> e < D -> Zdigits2 m + e <= D -> D <= 1023 ->
  sf_below (D + 1) (binary_round_aux prec emax s m e l).
Proof.
  intros Hm He HeD HD HD'. unfold binary_round_aux.
  pose proof (shr_fexp_bound m e l Hm) as (E1 & N1 & B1).
  destruct (shr_fexp prec emax m e l) as [mrs' e']. simpl in E1, N1, B1.
  pose proof (round_nearest_even_digits _ (loc_of_shr_record mrs') N1) as (N2 & B2).
  pose proof (shr_fexp_bound _ e' loc_Exact N2) as (E3 & N3 & B3).
  destruct (shr_fexp prec emax _ e' loc_Exact) as [mrs'' e'']. simpl in E3, N3, B3.
  rewrite fexp_eq in *.
  destruct (shr_m mrs'') as [|p|p] eqn:Em; simpl; auto; try lia.
  simpl in B3.
  destruct (e'' <=? _) eqn:El; simpl.
  - lia.
  - apply Z.leb_gt in El. change (emax - prec) with 971 in El. lia.
Qed.

Lemma binary_round_bound s m e D :
  -1074 <= e <= 971 -> Zpos (digits2_pos m) + e <= D -> D <= 1023 ->
  sf_below (D + 1) (binary_round prec emax s m e).
Proof.
  intros He HD HD'. unfold binary_round.
  pose proof (shl_align_spec m e (fexp prec emax (Zpos (digits2_pos m) + e))) as [E1 E2].
  destruct (shl_align m e _) as [mz ez]. cbn [fst snd] in E1, E2. rewrite fexp_eq in E1.
  apply binary_round_aux_bound; cbn [Zdigits2]; lia.
Qed.

Lemma valid_finite_exponent s m e :
  valid_binary (S754_finite s m e) = true -> -1074 <= e <= 971.
Proof.
  simpl. unfold bounded, canonical_mantissa. intros Hv.
  apply andb_prop in Hv as [Hc Hb].
  apply Z.eqb_eq in Hc. apply Z.leb_le in Hb. rewrite fexp_eq in Hc.
  change (emax - prec) with 971 in Hb. lia.
Qed.

(** The sum of two floats that are not negative and of magnitude at most
    [k <= 1022] is finite, of magnitude at most [k + 2]. *)
Lemma SFadd_below k a b :
  valid_binary a = true -> valid_binary b = true ->
  sf_nonneg a -> sf_nonneg b -> sf_below k a -> sf_below k b -> k <= 1022 ->
  sf_below (k + 2) (SF64add a b).
Proof.
  intros Va Vb Na Nb Ha Hb Hk.
  destruct a as [sa|sa| |sa ma ea]; try (exfalso; exact Ha);
    destruct b as [sb|sb| |sb mb eb]; try (exfalso; exact Hb).
  - destruct sa, sb; exact I.
  - cbn [sf_below] in Hb. unfold SF64add, SFadd. cbn [sf_below]. lia.
  - cbn [sf_below] in Ha. unfold SF64add, SFadd. cbn [sf_below]. lia.
  - destruct sa; [exfalso; exact Na|]. destruct sb; [exfalso; exact Nb|].
    cbn [sf_below] in Ha, Hb.
    apply valid_finite_exponent in Va, Vb.
    unfold SF64add, SFadd.
    pose proof (shl_align_spec ma ea (Z.min ea eb)) as [A1 A2].
    pose proof (shl_align_spec mb eb (Z.min ea eb)) as [B1 B2].
    destruct (shl_align ma ea (Z.min ea eb)) as [ma' ea'].
    destruct (shl_align mb eb (Z.min ea eb)) as [mb' eb']. cbn [fst snd] in *.
    change (binary_normalize prec emax (cond_Zopp false (Zpos ma') + cond_Zopp false (Zpos mb'))
              (Z.min ea eb) false)
      with (binary_round prec emax false (ma' + mb') (Z.min ea eb)).
    replace (k + 2) with ((k + 1) + 1) by lia.
    set (ez := Z.min ea eb) in *.
    pose proof (digits2_pos_bounds ma') as [_ La].
    pose proof (digits2_pos_bounds mb') as [_ Lb].
    assert (Hpa : 2 ^ Zpos (digits2_pos ma') <= 2 ^ (k - ez))
      by (apply Z.pow_le_mono_r; lia).
    assert (Hpb : 2 ^ Zpos (digits2_pos mb') <= 2 ^ (k - ez))
      by (apply Z.pow_le_mono_r; lia).
    assert (Hd : Zdigits2 (Zpos (ma' + mb')) <= k - ez + 1).
    { apply Zdigits2_le; [lia|]. rewrite Z.pow_add_r by lia. change (2 ^ 1) with 2.
      rewrite Pos2Z.inj_add. lia. }
    cbn [Zdigits2] in Hd.
    apply binary_round_bound; lia.
Qed.

(** Rounding never gives NaN. *)
Lemma binary_round_aux_not_nan s m e l :
  0 <= m -> binary_round_aux prec emax s m e l <> S754_nan.
Proof.
  intros Hm. unfold binary_round_aux.
  pose proof (shr_fexp_bound m e l Hm) as (_ & N1 & _).
  destruct (shr_fexp prec emax m e l) as [mrs' e']. cbn [fst snd] in N1.
  pose proof (round_nearest_even_digits _ (loc_of_shr_record mrs') N1) as (N2 & _).
  pose proof (shr_fexp_bound _ e' loc_Exact N2) as (_ & N3 & _).
  destruct (shr_fexp prec emax _ e' loc_Exact) as [mrs'' e'']. cbn [fst snd] in N3.
  destruct (shr_m mrs'') as [|p|p]; try lia; try discriminate.
  destruct (e'' <=? _); discriminate.
Qed.

(** Adding a finite float to a float that is no NaN gives no NaN. *)
Lemma SFadd_not_nan a b : a <> S754_nan -> sf_finite b -> SF64add a b <> S754_nan.
Proof.
  intros Na Fb.
  destruct a as [sa|sa| |sa ma ea]; try (now elim Na);
    destruct b as [sb|sb| |sb mb eb]; try (exfalso; exact Fb);
    unfold SF64add, SFadd; try discriminate.
  - destruct sa, sb; discriminate.
  - unfold binary_normalize.
    destruct (_ + _) as [|p|p]; try discriminate;
      unfold binary_round; destruct (shl_align _ _ _) as [mz ez];
      apply binary_round_aux_not_nan; lia.
Qed.

(** *** From [spec_float] to the floats of the program *)

Lemma float_below_spec b x : float_below b x = true <-> sf_below b (Prim2SF x).
Proof.
  unfold float_below. destruct (Prim2SF x) as [s|s| |s m e]; simpl;
    try (split; [discriminate | contradiction]); try tauto.
  apply Z.leb_le.
Qed.

Lemma is_finite_spec x : is_finite x = true <-> sf_finite (Prim2SF x).
Proof.
  unfold is_finite. destruct (Prim2SF x); simpl;
    try (split; [discriminate | contradiction]); tauto.
Qed.

Lemma SFeqb_refl s : s <> S754_nan -> SFeqb s s = true.
Proof.
  intros Hn. destruct s as [s|s| |s m e]; try (now elim Hn);
    unfold SFeqb, SFcompare; try (destruct s; reflexivity).
  destruct s; now rewrite Z.compare_refl, Pos.compare_cont_refl.
Qed.

Lemma is_nan_spec x : is_nan x = false <-> Prim2SF x <> S754_nan.
Proof.
  unfold is_nan. rewrite eqb_spec. split.
  - intros E Hn. rewrite Hn in E. discriminate E.
  - intros Hn. now rewrite SFeqb_refl.
Qed.

Lemma sf_below_finite b s : sf_below b s -> sf_finite s.
Proof. destruct s; simpl; auto. Qed.

Lemma add_below k x y :
  (0 <=? x)%float = true -> (0 <=? y)%float = true ->
  float_below k x = true -> float_below k y = true -> k <= 1022 ->
  float_below (k + 2) (x + y) = true.
Proof.
  rewrite !nonneg_shape, !float_below_spec, add_spec.
  intros Nx Ny Bx By Hk. apply SFadd_below; auto using Prim2SF_valid.
Qed.

Lemma float_below_mono b b' x :
  b <= b' -> float_below b x = true -> float_below b' x = true.
Proof.
  rewrite !float_below_spec. destruct (Prim2SF x); simpl; auto. lia.
Qed.

(** Adding, from a total that is not negative and below [2^k], floats
    that are not negative and below [2^b]: the total stays finite as
    long as two binary digits are left for every addition. *)
Lemma fold_add_below b l :
  Forall (fun x => (0 <=? x)%float = true /\ float_below b x = true) l ->
  forall acc k,
    (0 <=? acc)%float = true -> float_below k acc = true -> b <= k ->
    k + 2 * Z.of_nat (List.length l) <= 1024 ->
    is_finite (fold_left PrimFloat.add l acc) = true.
Proof.
  induction 1 as [|x l [Nx Bx] _ IH]; intros acc k Na Ba Hb Hk.
  - simpl. apply is_finite_spec. apply float_below_spec in Ba.
    now apply sf_below_finite in Ba.
  - cbn [fold_left]. cbn [List.length] in Hk.
    apply (IH _ (k + 2)); try lia.
    + now apply add_nonneg.
    + apply add_below; auto; try lia. now apply (float_below_mono b k).
Qed.

Lemma add_not_nan x y :
  is_nan x = false -> is_finite y = true -> is_nan (x + y) = false.
Proof.
  rewrite !is_nan_spec, is_finite_spec, add_spec. apply SFadd_not_nan.
Qed.

Lemma fold_add_not_nan l :
  Forall (fun x => is_finite x = true) l ->
  forall acc, is_nan acc = false -> is_nan (fold_left PrimFloat.add l acc) = false.
Proof.
  induction 1 as [|x l Hx _ IH]; intros acc Ha; simpl; auto using add_not_nan.
Qed.

Lemma nonneg_not_nan x : (0 <=? x)%float = true -> is_nan x = false.
Proof.
  rewrite nonneg_shape, is_nan_spec. intros Hs Hn. rewrite Hn in Hs. exact Hs.
Qed.

Lemma add_infinity_r x : (0 <=? x)%float = true -> (x + infinity)%float = infinity.
Proof.
  rewrite nonneg_shape. intros Hx. apply Prim2SF_inj. rewrite add_spec.
  change (Prim2SF infinity) with (S754_infinity false).
  destruct (Prim2SF x) as [s|s| |s m e]; try destruct s; simpl in *;
    try reflexivity; contradiction.
Qed.

Lemma add_infinity_l y : (0 <=? y)%float = true -> (infinity + y)%float = infinity.
Proof.
  rewrite nonneg_shape. intros Hy. apply Prim2SF_inj. rewrite add_spec.
  change (Prim2SF infinity) with (S754_infinity false).
  destruct (Prim2SF y) as [s|s| |s m e]; try destruct s; simpl in *;
    try reflexivity; contradiction.
Qed.

Lemma fold_add_from_infinity l :
  Forall (fun x => (0 <=? x)%float = true) l ->
  fold_left PrimFloat.add l infinity = infinity.
Proof.
  induction 1 as [|x l Hx _ IH]; simpl; auto. now rewrite add_infinity_l.
Qed.

Lemma fold_add_infinity l :
  Forall (fun x => (0 <=? x)%float = true) l -> In infinity l ->
  forall acc, (0 <=? acc)%float = true -> fold_left PrimFloat.add l acc = infinity.
Proof.
  induction 1 as [|x l Hx Hl IH]; intros Hin acc Ha; [easy|].
  simpl. destruct Hin as [-> | Hin].
  - rewrite add_infinity_r by assumption. now apply fold_add_from_infinity.
  - apply IH; auto using add_nonneg.
Qed.

(** *** Sums that are NaN *)

Lemma is_nan_true_spec x : is_nan x = true <-> Prim2SF x = S754_nan.
Proof.
  split.
  - intros Hx. destruct (Prim2SF x) eqn:P; try reflexivity;
      assert (Hf : is_nan x = false) by (apply is_nan_spec; rewrite P; discriminate);
      rewrite Hf in Hx; discriminate Hx.
  - intros P. destruct (is_nan x) eqn:E; auto.
    apply is_nan_spec in E. contradiction.
Qed.

Lemma SFadd_nan_r a : SF64add a S754_nan = S754_nan.
Proof. now destruct a. Qed.

Lemma SFadd_infinity_or_nan s a b :
  a = S754_infinity s \/ a = S754_nan ->
  SF64add a b = S754_infinity s \/ SF64add a b = S754_nan.
Proof.
  intros [-> | ->]; [|now right].
  destruct b as [sb|sb| |sb mb eb]; simpl; auto.
  destruct s, sb; auto.
Qed.

Lemma SFadd_infinity_r s a :
  SF64add a (S754_infinity s) = S754_infinity s
  \/ SF64add a (S754_infinity s) = S754_nan.
Proof. destruct a as [sa|sa| |sa ma ea]; simpl; auto. destruct sa, s; auto. Qed.

Lemma SFadd_opposite_infinity s a :
  a = S754_infinity s \/ a = S754_nan ->
  SF64add a (S754_infinity (negb s)) = S754_nan.
Proof. intros [-> | ->]; [now destruct s | reflexivity]. Qed.

Lemma fold_add_from_nan l :
  forall acc, Prim2SF acc = S754_nan ->
  Prim2SF (fold_left PrimFloat.add l acc) = S754_nan.
Proof.
  induction l as [|y l IH]; intros acc Ha; simpl; auto.
  apply IH. now rewrite add_spec, Ha.
Qed.

Lemma fold_add_nan_term l :
  (exists x, In x l /\ is_nan x = true) ->
  forall acc, Prim2SF (fold_left PrimFloat.add l acc) = S754_nan.
Proof.
  induction l as [|y l IH]; intros [x [Hin Hx]] acc; [easy|].
  simpl. destruct Hin as [-> | Hin].
  - apply fold_add_from_nan. apply is_nan_true_spec in Hx.
    rewrite add_spec, Hx. apply SFadd_nan_r.
  - apply IH. eauto.
Qed.

Lemma fold_add_after_infinity s l :
  (exists y, In y l /\ Prim2SF y = S754_infinity (negb s)) ->
  forall acc,
    Prim2SF acc = S754_infinity s \/ Prim2SF acc = S754_nan ->
    Prim2SF (fold_left PrimFloat.add l acc) = S754_nan.
Proof.
  induction l as [|y l IH]; intros [z [Hin Hz]] acc Ha; [easy|].
  simpl. destruct Hin as [-> | Hin].
  - apply fold_add_from_nan. rewrite add_spec, Hz.
    now apply SFadd_opposite_infinity.
  - apply IH; [eauto|]. rewrite add_spec. now apply SFadd_infinity_or_nan.
Qed.

Lemma fold_add_both_infinities l :
  (exists y, In y l /\ Prim2SF y = S754_infinity false) ->
  (exists y, In y l /\ Prim2SF y = S754_infinity true) ->
  forall acc, Prim2SF (fold_left PrimFloat.add l acc) = S754_nan.
Proof.
  induction l as [|y l IH]; intros [p [Hp Ep]] [n [Hn En]] acc; [easy|].
  simpl. destruct Hp as [-> | Hp].
  - destruct Hn as [-> | Hn]; [rewrite Ep in En; discriminate En|].
    apply (fold_add_after_infinity false); [eauto|].
    rewrite add_spec, Ep. apply SFadd_infinity_r.
  - destruct Hn as [-> | Hn].
    + apply (fold_add_after_infinity true); [eauto|].
      rewrite add_spec, En. apply SFadd_infinity_r.
    + apply IH; eauto.
Qed.

(** [float(z)] succeeds for every [int] below [2^1023] in absolute
    value. *)
Lemma float_of_Z_fits z : - 2 ^ 1023 < z < 2 ^ 1023 -> float_of_Z z <> None.
Proof.
  intros Hz. unfold float_of_Z, binary_normalize.
  destruct z as [|p|p]; [discriminate| |].
  - assert (B : sf_below (1023 + 1) (binary_round prec emax false p 0)).
    { apply binary_round_bound; try lia.
      pose proof (Zdigits2_le (Zpos p) 1023). simpl in H. lia. }
    destruct (binary_round prec emax false p 0); try discriminate. now elim B.
  - assert (B : sf_below (1023 + 1) (binary_round prec emax true p 0)).
    { apply binary_round_bound; try lia.
      pose proof (Zdigits2_le (Zpos p) 1023). simpl in H. lia. }
    destruct (binary_round prec emax true p 0); try discriminate. now elim B.
Qed.

(** ** The case-insensitive view of a row *)

Lemma row_l_loop_keeps (post : sdict pyval) k :
  (forall c' v', In (c', v') post -> Str.lower c' <> k) ->
  forall d,
    sget (fold_left (fun d kv => sset d (Str.lower (fst kv)) (snd kv)) post d) k
    = sget d k.
Proof.
  induction post as [|[c' v'] post IH]; intros Hpost d; simpl; auto.
  rewrite IH.
  - apply sget_sset_other. apply (Hpost c' v'). now left.
  - intros c0 v0 Hin. apply (Hpost c0 v0). now right.
Qed.

(** C2 (as the code has it).  When several columns of the selected row
    fold to the same lower-case name, [row_l] keeps the value of the last
    of them in row order: a column after which no other column folds to
    the same name is the one whose value is found under the folded name. *)
Theorem row_l_last_occurrence_wins (pre post : sdict pyval) (c : string) (v : pyval) :
  (forall c' v', In (c', v') post -> Str.lower c' <> Str.lower c) ->
  sget (row_l (pre ++ (c, v) :: post)%list) (Str.lower c) = Some v.
Proof.
  intros Hpost. unfold row_l. rewrite fold_left_app. simpl.
  rewrite (row_l_loop_keeps post (Str.lower c) Hpost).
  apply sget_sset_same.
Qed.

(** ** The field evaluator *)

Section EvalFacts.
Context `{Externals}.

Lemma sum_term_absent rl key : sget rl key = None -> sum_term rl key = 0%float.
Proof. intros E. unfold sum_term, get_or. now rewrite E. Qed.

Lemma sum_term_blank rl key v :
  sget rl key = Some v -> is_blank v = true -> sum_term rl key = 0%float.
Proof. intros E B. unfold sum_term, get_or. now rewrite E, B. Qed.

Lemma sum_term_value rl key v x :
  sget rl key = Some v -> is_blank v = false -> py_float v = Some x ->
  sum_term rl key = x.
Proof. intros E B F. unfold sum_term, get_or. now rewrite E, B, F. Qed.

Lemma sum_term_failure rl key v :
  sget rl key = Some v -> py_float v = None -> sum_term rl key = 0%float.
Proof.
  intros E F. unfold sum_term, get_or. rewrite E.
  destruct (is_blank v); [reflexivity | now rewrite F].
Qed.

(** C3 (as the code has it).  A structured item with a [key] and no
    [label] is evaluated with the folded key as its label: the key
    string trimmed and lower-cased, the same string the row is looked
    up with. *)
Theorem aliased_default_label_is_folded_key
        (rl f : sdict pyval) (k : string) :
  sget f "key" = Some (VStr k) -> sget f "label" = None ->
  eval_field rl (VDict f)
  = Ok (Some (VStr (Str.lower (Str.strip k)),
              get_or rl (Str.lower (Str.strip k)) VNone)).
Proof.
  intros Hk Hl. unfold eval_field, get_or. rewrite Hk, Hl. reflexivity.
Qed.

Lemma is_blank_cases v :
  is_blank v = true <->
  v = VNone \/ v = VStr "" \/ exists x, v = VFloat x /\ is_nan x = true.
Proof.
  split.
  - destruct v as [| | |x|s| |]; simpl; try discriminate; auto.
    + intros Hx. right. right. eauto.
    + destruct s; [auto | discriminate].
  - intros [-> | [-> | [x [-> Hx]]]]; auto.
Qed.

Lemma py_sum_finite_terms vals :
  Forall (fun x => is_finite x = true) vals -> is_missing (py_sum vals) = false.
Proof.
  intros Hall. destruct vals as [|x vals]; [reflexivity|].
  unfold py_sum, is_missing. now apply fold_add_not_nan.
Qed.

Lemma py_sum_nan_terms vals :
  (exists x, In x vals /\ is_nan x = true)
  \/ (In infinity vals /\ In neg_infinity vals) ->
  is_missing (py_sum vals) = true.
Proof.
  intros Hc. destruct vals as [|x0 vals].
  - destruct Hc as [[x [[] _]] | [[] _]].
  - unfold py_sum, is_missing. apply is_nan_true_spec.
    destruct Hc as [Hnan | [Hp Hn]].
    + now apply fold_add_nan_term.
    + apply fold_add_both_infinities; [exists infinity | exists neg_infinity];
        (split; [assumption | reflexivity]).
Qed.

(** C6 (as the code has it).  A structured item with a [sum] and no
    [key] evaluates, for every row and every sequence of keys, without
    raising, to its label and the sum of one number per key in order.
    The number of a key is [0] when the folded key is absent from the
    row, when its value is [None], a NaN float or the empty string, and
    when [float()] fails on it; otherwise it is the float the value
    converts to.  The key is resolved without regard to case: it finds
    the cell of the last column whose name equals the stripped key up
    to the case of its letters.  The sum is the int [0] or a float,
    never [None].  The float is no NaN when every number added is
    finite; it is NaN, the value the report treats as missing, when a
    number added is NaN or when both [+inf] and [-inf] are added. *)
Theorem computed_sum_total (rl f : sdict pyval) (s : pyval) (ks : list pyval) :
  sget f "key" = None -> sget f "sum" = Some s -> py_iter s = Ok ks ->
  let vals := map (fun k => sum_term rl (lookup_key k)) ks in
  eval_field rl (VDict f) = Ok (Some (get_or f "label" (VStr "Sum"), py_sum vals))
  /\ ((ks = [] /\ py_sum vals = VInt 0)
      \/ (ks <> [] /\ py_sum vals = VFloat (fold_left PrimFloat.add vals 0%float)))
  /\ py_sum vals <> VNone
  /\ (Forall (fun x => is_finite x = true) vals -> is_missing (py_sum vals) = false)
  /\ ((exists x, In x vals /\ is_nan x = true)
      \/ (In infinity vals /\ In neg_infinity vals) ->
      is_missing (py_sum vals) = true)
  /\ (forall v, is_blank v = true <->
                v = VNone \/ v = VStr "" \/ exists x, v = VFloat x /\ is_nan x = true)
  /\ (forall key,
        (sget rl key = None -> sum_term rl key = 0%float)
        /\ (forall v, sget rl key = Some v -> is_blank v = true ->
              sum_term rl key = 0%float)
        /\ (forall v, sget rl key = Some v -> py_float v = None ->
              sum_term rl key = 0%float)
        /\ (forall v x, sget rl key = Some v -> is_blank v = false ->
              py_float v = Some x -> sum_term rl key = x))
  /\ forall (row pre post : sdict pyval) (k : pyval) (c : string) (v : pyval),
       rl = row_l row ->
       Forall (fun kv => Str.is_ascii (fst kv) = true) row ->
       Str.is_ascii (py_str k) = true ->
       row = (pre ++ (c, v) :: post)%list ->
       (forall c' v', In (c', v') post -> Str.lower c' <> Str.lower c) ->
       Str.equal_up_to_case (Str.strip (py_str k)) c ->
       sget rl (lookup_key k) = Some v.
Proof.
  intros Hk Hs Hit vals. split.
  { unfold eval_field. rewrite Hk, Hs, Hit. simpl.
    unfold computed_sum. now rewrite map_map. }
  split.
  { subst vals. destruct ks; [left | right]; split; auto; discriminate. }
  split; [destruct vals; discriminate|].
  split; [apply py_sum_finite_terms|].
  split; [apply py_sum_nan_terms|].
  split; [apply is_blank_cases|].
  split.
  { intros key. repeat split.
    - apply sum_term_absent.
    - apply sum_term_blank.
    - apply sum_term_failure.
    - apply sum_term_value. }
  intros row pre post k c v -> _ _ -> Hpost Hkc.
  apply equal_up_to_case_lower in Hkc.
  unfold lookup_key, Str.fold_key. rewrite Hkc.
  unfold row_l. rewrite fold_left_app. simpl.
  rewrite (row_l_loop_keeps post (Str.lower c) Hpost).
  apply sget_sset_same.
Qed.

Lemma sum_term_nonneg rl key :
  nonneg_or_blank (sget rl key) -> (0 <=? sum_term rl key)%float = true.
Proof.
  unfold nonneg_or_blank. destruct (sget rl key) as [v|] eqn:E.
  - intros [B | [x [F Hx]]].
    + now rewrite (sum_term_blank rl key v E B).
    + destruct (is_blank v) eqn:B.
      * now rewrite (sum_term_blank rl key v E B).
      * now rewrite (sum_term_value rl key v x E B F).
  - intros _. now rewrite (sum_term_absent rl key E).
Qed.

(** C7 (as the code has it).  When every key of a computed sum finds
    a cell that is absent, blank or converts to a float that is not
    negative, the sum is the int [0] (for no keys) or a float [x] with
    [0 <= x], so neither negative nor NaN.  It is [+inf] as soon as one
    cell converts to [+inf].  It is finite when every cell converts to a
    float below [2^b] and two binary digits are left below [2^1024] for
    every key: [b + 2 * len(keys) <= 1024]. *)
Theorem computed_sum_nonneg (rl : sdict pyval) (ks : list pyval) :
  Forall (fun k => nonneg_or_blank (sget rl (lookup_key k))) ks ->
  (ks = [] /\ computed_sum rl ks = VInt 0)
  \/ exists x,
       computed_sum rl ks = VFloat x
       /\ (0 <=? x)%float = true
       /\ is_nan x = false
       /\ ((exists k, In k ks /\ sum_term rl (lookup_key k) = infinity) ->
           x = infinity)
       /\ (forall b,
             Forall (fun k => float_below b (sum_term rl (lookup_key k)) = true) ks ->
             b + 2 * Z.of_nat (List.length ks) <= 1024 ->
             is_finite x = true).
Proof.
  intros Hall. unfold computed_sum.
  destruct ks as [|k0 ks0]; [now left | right].
  set (ks := k0 :: ks0) in *.
  assert (Hnn : Forall (fun x => (0 <=? x)%float = true)
                       (map (sum_term rl) (map lookup_key ks))).
  { rewrite map_map. apply Forall_map.
    eapply Forall_impl; [|exact Hall].
    intros a Ha. now apply sum_term_nonneg. }
  exists (fold_left PrimFloat.add (map (sum_term rl) (map lookup_key ks)) 0%float).
  assert (H0 : (0 <=? fold_left PrimFloat.add
                        (map (sum_term rl) (map lookup_key ks)) 0)%float = true)
    by (apply fold_add_nonneg; [exact Hnn | reflexivity]).
  split; [reflexivity|]. split; [exact H0|].
  split; [now apply nonneg_not_nan|]. split.
  - intros [k [Hin Hk]]. apply fold_add_infinity; [exact Hnn| |reflexivity].
    rewrite map_map. rewrite <- Hk.
    exact (in_map (fun k => sum_term rl (lookup_key k)) ks k Hin).
  - intros b Hb Hlen.
    apply (fold_add_below b) with (k := b); try reflexivity; try lia.
    + rewrite map_map. apply Forall_map.
      rewrite Forall_forall in *. intros k Hin. split.
      * apply sum_term_nonneg. now apply Hall.
      * now apply Hb.
    + now rewrite !length_map.
Qed.

(** C8 (as the code has it).  Re-ordering the keys of a computed sum
    re-orders the numbers that are added and changes none of them, and
    a sum over at most two keys has the same value in either order.
    (With three or more keys the floats are still added from left to
    right, and the rounded total can depend on the order.) *)
Theorem computed_sum_reordering (rl : sdict pyval) (ks ks' : list pyval) :
  Permutation ks ks' ->
  Permutation (map (fun k => sum_term rl (lookup_key k)) ks)
              (map (fun k => sum_term rl (lookup_key k)) ks')
  /\ ((List.length ks <= 2)%nat -> computed_sum rl ks = computed_sum rl ks').
Proof.
  intros P. split; [now apply Permutation_map|].
  intros Hlen. destruct ks as [|a [|b [|c r]]]; simpl in Hlen; try lia.
  - apply Permutation_nil in P. now subst.
  - apply Permutation_length_1_inv in P. now subst.
  - apply Permutation_length_2_inv in P as [-> | ->]; auto.
    unfold computed_sum. simpl. f_equal. apply sum_two_swap.
Qed.

(** C9.  Two lookup keys that are equal up to the case of their
    letters give the same value against the same row, whether they
    stand as plain strings or as the [key] of a structured item. *)
Theorem lookup_ignores_case (row : sdict pyval) (k1 k2 : string) :
  Str.equal_up_to_case k1 k2 ->
  exists v,
    eval_field (row_l row) (VStr k1) = Ok (Some (VStr k1, v))
    /\ eval_field (row_l row) (VStr k2) = Ok (Some (VStr k2, v))
    /\ forall f1 f2,
         sget f1 "key" = Some (VStr k1) -> sget f2 "key" = Some (VStr k2) ->
         eval_field (row_l row) (VDict f1)
         = Ok (Some (get_or f1 "label" (VStr (Str.fold_key k1)), v))
         /\ eval_field (row_l row) (VDict f2)
            = Ok (Some (get_or f2 "label" (VStr (Str.fold_key k2)), v)).
Proof.
  intros E. apply equal_up_to_case_fold_key in E.
  exists (get_or (row_l row) (Str.fold_key k1) VNone). split; [reflexivity|].
  split.
  - simpl. fold (Str.fold_key k2). now rewrite E.
  - intros f1 f2 H1 H2. unfold eval_field, lookup_key. rewrite H1, H2. simpl.
    now rewrite E.
Qed.

(** C10.  A structured item that has both a [key] and a [sum] is
    evaluated as a direct lookup with a label: its result is the
    label and the row's value under the folded key, the same result
    as for the item without its [sum] entry, whatever that entry
    holds. *)
Theorem key_takes_precedence_over_sum (rl f : sdict pyval) (k s : pyval) :
  sget f "key" = Some k -> sget f "sum" = Some s ->
  eval_field rl (VDict f)
  = Ok (Some (get_or f "label" (VStr (lookup_key k)),
              get_or rl (lookup_key k) VNone))
  /\ eval_field rl (VDict f) = eval_field rl (VDict (sdel f "sum")).
Proof.
  intros Hk Hs. unfold eval_field.
  rewrite (sget_sdel_other f "sum" "key") by discriminate.
  rewrite Hk. rewrite get_or_sdel_other by discriminate. split; reflexivity.
Qed.

End EvalFacts.

(* ================================================================== *)
(** * Worked examples *)

(** The run of the specification's partial-failure scenario: three
    sources, the second of which cannot be fetched. *)
Example partial_failure_report :
  main_results Sample.june_1 [Sample.cfg_washes; Sample.cfg_gone; Sample.cfg_revenue]
  = [ mkentry (VStr "Washes") (Some (VStr "📍")) "" (Some [(VStr "Total", VFloat 10)]);
      mkentry (VStr "Gone") None ":x: Error – <Response [404]>" None;
      mkentry (VStr "Revenue") None ":warning: No row for previous day" None ].
Proof. vm_compute. reflexivity. Qed.

Example row_for_date_selects_june_1 :
  row_for_date Sample.washes (VStr "Date") Sample.june_1 = Ok (Some Sample.row_june_1).
Proof. vm_compute. reflexivity. Qed.

Example direct_field_round_trip :
  eval_fields (row_l [("Washes", VInt 42); ("Date", VStr "2024-01-01")])
              [VStr "Washes"] []
  = Ok [(VStr "Washes", VInt 42)].
Proof. vm_compute. reflexivity. Qed.

Example unrecognized_spec_is_skipped :
  eval_fields (row_l Sample.row_june_1) [VDict [("foo", VInt 1)]] [] = Ok [].
Proof. vm_compute. reflexivity. Qed.

(** An exception of the evaluation stage ([fields] is no sequence) ends
    as the error entry of its source; the next source is processed. *)
Example evaluation_error_is_isolated :
  main_results Sample.june_1
    [ [("title", VStr "Washes"); ("spreadsheet_id", VStr "sheet-1");
       ("worksheet", VStr "Daily"); ("date_column", VStr "Date");
       ("fields", VInt 5)];
      Sample.cfg_revenue ]
  = [ mkentry (VStr "Washes") None ":x: Error – 'int' object is not iterable" None;
      mkentry (VStr "Revenue") None ":warning: No row for previous day" None ].
Proof. vm_compute. reflexivity. Qed.

(** A cell that holds the text ["nan"] is not blank and converts: the
    sum is the float NaN. *)
Example text_nan_sums_to_nan :
  computed_sum [("a", VStr "nan")] [VStr "a"] = VFloat nan.
Proof. vm_compute. reflexivity. Qed.

(** The inputs that separate two key orders under left-to-right addition
    separate them under compensated summation as well. *)
Example compensated_sum_depends_on_order :
  py_sum_compensated [1e308; 1e308; -1e308]%float = VFloat infinity
  /\ py_sum_compensated [1e308; -1e308; 1e308]%float = VFloat 1e308.
Proof. split; vm_compute; reflexivity. Qed.

(** The sum of [+inf] and [-inf] is NaN under either summation, and a
    NaN value is printed as a missing one. *)
Example opposite_infinities_sum_to_nan :
  py_sum [infinity; neg_infinity] = VFloat nan
  /\ py_sum_compensated [infinity; neg_infinity] = VFloat nan
  /\ _fmt_value (VStr "Total") (VFloat nan) = Ok "—".
Proof. repeat split; vm_compute; reflexivity. Qed.

(** [2^64] is about [1.8e19]. *)
Example float_below_64 :
  float_below 64 1e19 = true /\ float_below 64 2e19 = false
  /\ float_below 64 0 = true /\ float_below 64 infinity = false.
Proof. repeat split; vm_compute; reflexivity. Qed.

(** Left-to-right addition of three ordinary decimals. *)
Example plain_sum_depends_on_order :
  py_sum [0.1; 0.2; 0.3]%float = VFloat 0.6000000000000001
  /\ py_sum [0.3; 0.2; 0.1]%float = VFloat 0.6.
Proof. split; vm_compute; reflexivity. Qed.

(** ** C1 *)

Lemma main_isolates_sources_witness :
  List.length (main_results Sample.june_1 SampleDelivery.five_sources) = 5%nat
  /\ nth_error (main_results Sample.june_1 SampleDelivery.five_sources) 0
     = Some (mkentry (VStr "Washes") (Some (VStr "📍")) ""
                     (Some [(VStr "Total", VFloat 10)]))
  /\ nth_error (main_results Sample.june_1 SampleDelivery.five_sources) 1
     = Some (mkentry (VStr "Gone") None ":x: Error – <Response [404]>" None)
  /\ nth_error (main_results Sample.june_1 SampleDelivery.five_sources) 2
     = Some (mkentry (VStr "Daily") None
               ":x: Error – Date column 'Date' not found. Found: ['Day', 'Revenue']"
               None)
  /\ nth_error (main_results Sample.june_1 SampleDelivery.five_sources) 3
     = Some (mkentry (VStr "Washes") None
               ":x: Error – 'int' object is not iterable" None)
  /\ nth_error (main_results Sample.june_1 SampleDelivery.five_sources) 4
     = Some (mkentry (VStr "Revenue") None ":warning: No row for previous day" None).
Proof.
  destruct (main_isolates_sources Sample.june_1 SampleDelivery.five_sources)
    as [Hlen Hnth].
  split; [exact Hlen|]. split; [|split; [|split; [|split]]].
  - destruct (Hnth 0%nat Sample.cfg_washes eq_refl) as (entry & -> & _ & _ & Hst).
    destruct (Hst (VStr "sheet-1") (VStr "Daily") eq_refl eq_refl) as [_ Hsel].
    destruct (Hsel Sample.washes (VStr "Date") eq_refl eq_refl) as (_ & _ & Hrow).
    destruct (Hrow Sample.row_june_1 eq_refl) as [_ Hev].
    destruct (Hev [VDict Sample.total_spec] eq_refl) as [_ Hout].
    f_equal. exact (Hout [(VStr "Total", VFloat 10)] eq_refl).
  - destruct (Hnth 1%nat Sample.cfg_gone eq_refl) as (entry & -> & _ & _ & Hst).
    destruct (Hst (VStr "sheet-2") (VStr "Daily") eq_refl eq_refl) as [Hfetch _].
    f_equal. exact (Hfetch (mkexn "SpreadsheetNotFound" "<Response [404]>") eq_refl).
  - destruct (Hnth 2%nat Sample.cfg_misnamed eq_refl) as (entry & -> & _ & _ & Hst).
    destruct (Hst (VStr "sheet-3") (VStr "Daily") eq_refl eq_refl) as [_ Hsel].
    destruct (Hsel Sample.revenue (VStr "Date") eq_refl eq_refl) as (Hraise & _).
    f_equal.
    exact (Hraise (RuntimeError
                     "Date column 'Date' not found. Found: ['Day', 'Revenue']")
                  eq_refl).
  - destruct (Hnth 3%nat SampleDelivery.cfg_bad_sum eq_refl)
      as (entry & -> & _ & _ & Hst).
    destruct (Hst (VStr "sheet-1") (VStr "Daily") eq_refl eq_refl) as [_ Hsel].
    destruct (Hsel Sample.washes (VStr "Date") eq_refl eq_refl) as (_ & _ & Hrow).
    destruct (Hrow Sample.row_june_1 eq_refl) as [_ Hev].
    destruct (Hev [VStr "A"; VDict [("sum", VInt 5)]; VStr "B"] eq_refl) as [Herr _].
    f_equal. exact (Herr (TypeError "'int' object is not iterable") eq_refl).
  - destruct (Hnth 4%nat Sample.cfg_revenue eq_refl) as (entry & -> & _ & _ & Hst).
    destruct (Hst (VStr "sheet-3") (VStr "Daily") eq_refl eq_refl) as [_ Hsel].
    destruct (Hsel Sample.revenue (VStr "Day") eq_refl eq_refl) as (_ & Hnone & _).
    f_equal. exact (Hnone eq_refl).
Defined.

(** ** C2 *)

(** C2 as stated fails: with the columns [Revenue] and [revenue] in this
    order, [row_l] holds the value of [revenue], the later column, and
    not the value of the first column that folds to ["revenue"]. *)
Lemma row_l_first_occurrence_does_not_win :
  sget (row_l Sample.row_two_revenues) "revenue" = Some (VInt 2)
  /\ ~ (forall (pre post : sdict pyval) (c : string) (v : pyval),
          (forall c' v', In (c', v') pre -> Str.lower c' <> Str.lower c) ->
          sget (row_l (pre ++ (c, v) :: post)%list) (Str.lower c) = Some v).
Proof.
  split; [reflexivity|].
  intros Hfirst.
  specialize (Hfirst [] [("revenue", VInt 2)] "Revenue" (VInt 1)).
  simpl in Hfirst. discriminate Hfirst. intros c' v' [].
Qed.

Lemma row_l_last_occurrence_wins_witness :
  (forall c' v', In (c', v') [("Washes", VInt 3)] ->
                 Str.lower c' <> Str.lower "REVENUE")
  /\ sget (row_l ([("Revenue", VInt 1)] ++ ("REVENUE", VInt 2) :: [("Washes", VInt 3)])%list)
          (Str.lower "REVENUE") = Some (VInt 2).
Proof.
  assert (Hpost : forall c' v', In (c', v') [("Washes", VInt 3)] ->
                                Str.lower c' <> Str.lower "REVENUE").
  { intros c' v' [E | []]. injection E as <- _. discriminate. }
  split; [exact Hpost|].
  exact (row_l_last_occurrence_wins [("Revenue", VInt 1)] [("Washes", VInt 3)]
           "REVENUE" (VInt 2) Hpost).
Defined.

(** ** C3 *)

(** C3 as stated fails: the item [{"key": "Revenue"}] gets the label
    ["revenue"], not ["Revenue"]. *)
Lemma aliased_default_label_is_not_the_key_as_written :
  eval_field (row_l [("Revenue", VInt 42)]) (VDict [("key", VStr "Revenue")])
  = Ok (Some (VStr "revenue", VInt 42))
  /\ ~ (forall (E : Externals) (rl f : sdict pyval) (k : string),
          sget f "key" = Some (VStr k) -> sget f "label" = None ->
          exists v, eval_field rl (VDict f) = Ok (Some (VStr k, v))).
Proof.
  split; [reflexivity|].
  intros Hlabel.
  destruct (Hlabel sample [] [("key", VStr "Revenue")] "Revenue" eq_refl eq_refl)
    as [v Hv].
  discriminate Hv.
Qed.

Lemma aliased_default_label_is_folded_key_witness :
  sget [("key", VStr " Revenue ")] "key" = Some (VStr " Revenue ")
  /\ sget [("key", VStr " Revenue ")] "label" = @None pyval
  /\ eval_field (row_l [("Revenue", VInt 42)]) (VDict [("key", VStr " Revenue ")])
     = Ok (Some (VStr "revenue", VInt 42)).
Proof.
  split; [reflexivity|]. split; [reflexivity|].
  exact (aliased_default_label_is_folded_key
           (row_l [("Revenue", VInt 42)]) [("key", VStr " Revenue ")] " Revenue "
           eq_refl eq_refl).
Defined.

(** ** C4 *)

Lemma row_for_date_not_found_witness :
  In "Day" (columns Sample.revenue)
  /\ Forall (fun d => d <> Some Sample.june_1)
            (to_datetime_date (column Sample.revenue "Day"))
  /\ row_for_date Sample.revenue (VStr "Day") Sample.june_1 = Ok None.
Proof.
  assert (Hin : In "Day" (columns Sample.revenue)) by (left; reflexivity).
  assert (Hno : Forall (fun d => d <> Some Sample.june_1)
                       (to_datetime_date (column Sample.revenue "Day"))).
  { repeat constructor; discriminate. }
  split; [exact Hin|]. split; [exact Hno|].
  exact (row_for_date_not_found Sample.revenue "Day" Sample.june_1 Hin Hno).
Defined.

(** ** C5 *)

Lemma missing_date_column_is_source_error_witness :
  ~ In "Date" (columns Sample.revenue)
  /\ row_for_date Sample.revenue (VStr "Date") Sample.june_1
     = Raise (RuntimeError "Date column 'Date' not found. Found: ['Day', 'Revenue']")
  /\ main_results Sample.june_1
       [Sample.cfg_washes; Sample.cfg_misnamed; Sample.cfg_revenue]
     = (main_results Sample.june_1 [Sample.cfg_washes]
        ++ [mkentry (VStr "Daily") None
              ":x: Error – Date column 'Date' not found. Found: ['Day', 'Revenue']"
              None]
        ++ main_results Sample.june_1 [Sample.cfg_revenue])%list.
Proof.
  assert (Hnot : ~ In "Date" (columns Sample.revenue)).
  { intros [E | [E | []]]; discriminate E. }
  destruct (missing_date_column_is_source_error Sample.revenue "Date" Sample.june_1 Hnot)
    as (Hraise & _ & Hmain).
  split; [exact Hnot|]. split; [exact Hraise|].
  destruct (Hmain Sample.cfg_misnamed (VStr "sheet-3") (VStr "Daily")
              eq_refl eq_refl eq_refl eq_refl) as [_ Hiso].
  exact (Hiso [Sample.cfg_washes] [Sample.cfg_revenue]).
Defined.

(** ** C6 *)

(** C6 as stated fails: over the cells [inf] and [-inf] the sum is the
    float NaN, the value the program treats as missing: the message
    shows the em dash for it, as for [None]. *)
Lemma computed_sum_can_be_missing :
  computed_sum Sample.rl_infinities [VStr "a"; VStr "b"] = VFloat nan
  /\ is_missing (VFloat nan) = true
  /\ _fmt_value (VStr "Total") (computed_sum Sample.rl_infinities [VStr "a"; VStr "b"])
     = _fmt_value (VStr "Total") VNone
  /\ ~ (forall (E : Externals) (rl f : sdict pyval) (ks : list pyval),
          sget f "key" = None -> sget f "sum" = Some (VList ks) ->
          exists label v,
            eval_field rl (VDict f) = Ok (Some (label, v)) /\ is_missing v = false).
Proof.
  split; [vm_compute; reflexivity|]. split; [reflexivity|].
  split; [vm_compute; reflexivity|].
  intros Hclaim.
  destruct (Hclaim sample Sample.rl_infinities
              [("sum", VList [VStr "a"; VStr "b"])] [VStr "a"; VStr "b"]
              eq_refl eq_refl) as (label & v & Hev & Hv).
  vm_compute in Hev. injection Hev as _ <-. vm_compute in Hv. discriminate Hv.
Qed.

Lemma computed_sum_total_witness :
  sget Sample.total_spec "key" = @None pyval
  /\ sget Sample.total_spec "sum" = Some (VList [VStr "A"; VStr "B"])
  /\ py_iter (VList [VStr "A"; VStr "B"]) = Ok [VStr "A"; VStr "B"]
  /\ eval_field (row_l Sample.row_june_1) (VDict Sample.total_spec)
     = Ok (Some (VStr "Total", VFloat 10))
  /\ is_missing (VFloat 10) = false
  /\ sget (row_l Sample.row_june_1) (lookup_key (VStr " a ")) = Some (VStr "10").
Proof.
  destruct (computed_sum_total (row_l Sample.row_june_1) Sample.total_spec
              (VList [VStr "A"; VStr "B"]) [VStr "A"; VStr "B"]
              eq_refl eq_refl eq_refl)
    as (Hev & _ & _ & Hfin & _ & _ & _ & Hfound).
  split; [reflexivity|]. split; [reflexivity|]. split; [reflexivity|].
  split; [exact Hev|]. split.
  - apply Hfin. repeat constructor.
  - refine (Hfound Sample.row_june_1 [("Date", VStr "2024-06-01")] [("B", VStr "")]
                   (VStr " a ") "A" (VStr "10") eq_refl _ eq_refl eq_refl _ _).
    + repeat constructor.
    + intros c' v' [E | []]. injection E as <- _. discriminate.
    + vm_compute. constructor; [exact (Str.scn_lo_up "A" eq_refl) | constructor].
Defined.

(** ** C7 *)

(** C7 as stated fails: a negative number in the row makes the sum
    negative, and two large numbers make it infinite. *)
Lemma computed_sum_can_be_negative_or_infinite :
  computed_sum Sample.rl_refund [VStr "a"] = VFloat (-5)
  /\ finite_nonneg (VFloat (-5)) = false
  /\ computed_sum Sample.rl_huge [VStr "a"; VStr "b"] = VFloat infinity
  /\ finite_nonneg (VFloat infinity) = false
  /\ ~ (forall (E : Externals) (rl : sdict pyval) (ks : list pyval),
          Forall (fun k => numeric_or_blank (sget rl (lookup_key k))) ks ->
          finite_nonneg (computed_sum rl ks) = true).
Proof.
  repeat split; try reflexivity.
  intros Hclaim.
  assert (Hnum : Forall (fun k => numeric_or_blank (sget Sample.rl_refund (lookup_key k)))
                        [VStr "a"]).
  { constructor; [|constructor]. right. left. now exists (-5). }
  specialize (Hclaim sample Sample.rl_refund [VStr "a"] Hnum).
  vm_compute in Hclaim. discriminate Hclaim.
Qed.

Lemma computed_sum_nonneg_witness :
  Forall (fun k => nonneg_or_blank (sget (row_l Sample.row_june_1) (lookup_key k)))
         [VStr "A"; VStr "B"]
  /\ exists x,
       computed_sum (row_l Sample.row_june_1) [VStr "A"; VStr "B"] = VFloat x
       /\ (0 <=? x)%float = true
       /\ is_finite x = true.
Proof.
  assert (Hall : Forall (fun k => nonneg_or_blank
                                    (sget (row_l Sample.row_june_1) (lookup_key k)))
                        [VStr "A"; VStr "B"]).
  { constructor; [|constructor; [|constructor]].
    - right. exists 10%float. split; reflexivity.
    - left. reflexivity. }
  split; [exact Hall|].
  destruct (computed_sum_nonneg (row_l Sample.row_june_1) [VStr "A"; VStr "B"] Hall)
    as [[Hks _] | (x & Hx & Hnn & _ & _ & Hfin)]; [discriminate Hks|].
  exists x. split; [exact Hx|]. split; [exact Hnn|].
  apply (Hfin 64).
  - repeat constructor.
  - simpl. lia.
Defined.

(** ** C8 *)

(** C8 as stated fails: over the cells [1e308], [1e308] and [-1e308] the
    key order [a, b, c] overflows to [+inf] and the order [a, c, b] gives
    [1e308]. *)
Lemma computed_sum_depends_on_key_order :
  Permutation [VStr "a"; VStr "b"; VStr "c"] [VStr "a"; VStr "c"; VStr "b"]
  /\ computed_sum Sample.rl_huge [VStr "a"; VStr "b"; VStr "c"] = VFloat infinity
  /\ computed_sum Sample.rl_huge [VStr "a"; VStr "c"; VStr "b"] = VFloat 1e308
  /\ ~ (forall (E : Externals) (rl : sdict pyval) (ks ks' : list pyval),
          Permutation ks ks' -> computed_sum rl ks = computed_sum rl ks').
Proof.
  assert (P : Permutation [VStr "a"; VStr "b"; VStr "c"] [VStr "a"; VStr "c"; VStr "b"])
    by (apply perm_skip, perm_swap).
  split; [exact P|]. split; [reflexivity|]. split; [reflexivity|].
  intros Hclaim.
  specialize (Hclaim sample Sample.rl_huge _ _ P).
  apply (f_equal (fun v => match v with
                           | VFloat x => Prim2SF x
                           | _ => S754_nan
                           end)) in Hclaim.
  vm_compute in Hclaim. discriminate Hclaim.
Qed.

Lemma computed_sum_reordering_witness :
  Permutation [VStr "A"; VStr "B"] [VStr "B"; VStr "A"]
  /\ Permutation (map (fun k => sum_term (row_l Sample.row_june_2) (lookup_key k))
                      [VStr "A"; VStr "B"])
                 (map (fun k => sum_term (row_l Sample.row_june_2) (lookup_key k))
                      [VStr "B"; VStr "A"])
  /\ computed_sum (row_l Sample.row_june_2) [VStr "A"; VStr "B"]
     = computed_sum (row_l Sample.row_june_2) [VStr "B"; VStr "A"].
Proof.
  assert (P : Permutation [VStr "A"; VStr "B"] [VStr "B"; VStr "A"])
    by apply perm_swap.
  destruct (computed_sum_reordering (row_l Sample.row_june_2) _ _ P) as [Hperm Hsum].
  split; [exact P|]. split; [exact Hperm|].
  apply Hsum. apply le_n.
Defined.

(** ** C9 *)

Lemma lookup_ignores_case_witness :
  Str.equal_up_to_case "Revenue" "revenue"
  /\ exists v,
       eval_field (row_l [("Revenue", VInt 42)]) (VStr "Revenue")
       = Ok (Some (VStr "Revenue", v))
       /\ eval_field (row_l [("Revenue", VInt 42)]) (VStr "revenue")
          = Ok (Some (VStr "revenue", v))
       /\ v = VInt 42.
Proof.
  assert (E : Str.equal_up_to_case "Revenue" "revenue").
  { constructor; [exact (Str.scn_up_lo "R" eq_refl)|].
    repeat (constructor; [apply Str.scn_same|]). constructor. }
  split; [exact E|].
  destruct (lookup_ignores_case [("Revenue", VInt 42)] "Revenue" "revenue" E)
    as (v & H1 & H2 & _).
  exists v. split; [exact H1|]. split; [exact H2|].
  injection H1 as <-. reflexivity.
Defined.

(** ** C10 *)

Lemma key_takes_precedence_over_sum_witness :
  sget [("key", VStr "A"); ("sum", VInt 7)] "key" = Some (VStr "A")
  /\ sget [("key", VStr "A"); ("sum", VInt 7)] "sum" = Some (VInt 7)
  /\ eval_field (row_l Sample.row_june_1) (VDict [("key", VStr "A"); ("sum", VInt 7)])
     = Ok (Some (VStr "a", VStr "10")).
Proof.
  split; [reflexivity|]. split; [reflexivity|].
  exact (proj1 (key_takes_precedence_over_sum (row_l Sample.row_june_1)
                  [("key", VStr "A"); ("sum", VInt 7)] (VStr "A") (VInt 7)
                  eq_refl eq_refl)).
Defined.

(* ================================================================== *)
(** * Further properties of the program *)

(** ** Dictionaries built from items *)

Lemma sset_notin_app {V} (d : sdict V) k v :
  ~ In k (map fst d) -> sset d k v = (d ++ [(k, v)])%list.
Proof.
  unfold sset. induction d as [|[k' v'] r IH]; simpl; intros Hn; auto.
  destruct (String.eqb k' k) eqn:E.
  - apply String.eqb_eq in E. subst. elim Hn. now left.
  - rewrite IH; auto.
Qed.

Lemma dict_of_items_from {V} (items acc : sdict V) :
  NoDup (map fst (acc ++ items)) ->
  fold_left (fun d kv => dict_set String.eqb d (fst kv) (snd kv)) items acc
  = (acc ++ items)%list.
Proof.
  revert acc. induction items as [|[k v] r IH]; intros acc Hnd; simpl.
  - now rewrite app_nil_r.
  - assert (Hk : ~ In k (map fst acc)).
    { rewrite map_app in Hnd. simpl in Hnd.
      apply NoDup_remove_2 in Hnd. intros Hin. apply Hnd.
      apply in_or_app. now left. }
    change (dict_set String.eqb acc k v) with (sset acc k v).
    rewrite (sset_notin_app acc k v Hk).
    rewrite IH; rewrite <- app_assoc; simpl; auto.
Qed.

Lemma dict_of_items_nodup {V} (items : sdict V) :
  NoDup (map fst items) -> dict_of_items String.eqb items = items.
Proof. intros Hnd. unfold dict_of_items. now rewrite dict_of_items_from. Qed.

Lemma sget_in_nodup {V} (d : sdict V) k v :
  NoDup (map fst d) -> In (k, v) d -> sget d k = Some v.
Proof.
  unfold sget. induction d as [|[k' v'] r IH]; simpl; intros Hnd Hin; [easy|].
  inversion Hnd as [|? ? Hk Hr]; subst.
  destruct Hin as [E | Hin].
  - injection E as -> ->. now rewrite String.eqb_refl.
  - destruct (String.eqb k' k) eqn:E; auto.
    apply String.eqb_eq in E. subst. elim Hk.
    change k with (fst (k, v)). now apply in_map.
Qed.

Lemma sget_some_in {V} (d : sdict V) k v : sget d k = Some v -> In (k, v) d.
Proof.
  unfold sget. induction d as [|[k' v'] r IH]; simpl; [easy|].
  destruct (String.eqb k' k) eqn:E; intros Hg.
  - apply String.eqb_eq in E. injection Hg as ->. subst. now left.
  - right. auto.
Qed.

Lemma combine_keys_nodup {V} (cols : list string) (r : list V) :
  NoDup cols -> NoDup (map fst (combine cols r)).
Proof.
  revert r. induction cols as [|c cols IH]; intros r Hnd; simpl; [constructor|].
  destruct r as [|v r]; simpl; [constructor|].
  inversion Hnd as [|? ? Hc Hr]; subst. constructor; auto.
  intros Hin. apply Hc. apply in_map_iff in Hin as [[c' v'] [E Hin]].
  simpl in E. subst. now apply in_combine_l in Hin.
Qed.

Lemma combine_nth_in {V} (cols : list string) (r : list V) i c v :
  nth_error cols i = Some c -> nth_error r i = Some v -> In (c, v) (combine cols r).
Proof.
  revert r i. induction cols as [|c0 cols IH]; intros r i Hc Hv.
  - now destruct i.
  - destruct r as [|v0 r]; [now destruct i|].
    destruct i as [|i]; simpl in *.
    + injection Hc as ->. injection Hv as ->. now left.
    + right. eauto.
Qed.

(** X2.  The dictionary of a row maps every column label to the cell
    the row has in that column. *)
Theorem to_dict_holds_each_cell (cols : list string) (r : list pyval)
        (i : nat) (c : string) (v : pyval) :
  NoDup cols -> nth_error cols i = Some c -> nth_error r i = Some v ->
  sget (to_dict cols r) c = Some v.
Proof.
  intros Hnd Hc Hv. unfold to_dict.
  rewrite dict_of_items_nodup by now apply combine_keys_nodup.
  apply sget_in_nodup; [now apply combine_keys_nodup|].
  eapply combine_nth_in; eauto.
Qed.

(** ** Row selection *)

Lemma loc_mask_skip (pre : list (list pyval)) (mpre : list bool) rest mask :
  List.length mpre = List.length pre -> Forall (fun b => b = false) mpre ->
  loc_mask (pre ++ rest) (mpre ++ mask) = loc_mask rest mask.
Proof.
  revert mpre. induction pre as [|p pre IH]; intros mpre Hlen Hf.
  - destruct mpre; [reflexivity | discriminate].
  - destruct mpre as [|b mpre]; [discriminate|].
    inversion Hf as [|? ? Hb Hrest]; subst. simpl. apply IH; auto.
Qed.

Section SelectionFacts.
Context `{Externals}.

(** X1.  When the date column is present and some cell of it parses to
    the target date, [row_for_date] returns the dictionary of the first
    row, in table order, whose cell does; later rows of the same date
    are not looked at. *)
Theorem row_for_date_first_match (df : DataFrame) (c : string) (D : date)
        (pre post : list (list pyval)) (r : list pyval)
        (dpre dpost : list (option date)) :
  In c (columns df) ->
  rows df = (pre ++ r :: post)%list ->
  to_datetime_date (column df c) = (dpre ++ Some D :: dpost)%list ->
  List.length dpre = List.length pre ->
  Forall (fun d => d <> Some D) dpre ->
  row_for_date df (VStr c) D = Ok (Some (to_dict (columns df) r)).
Proof.
  intros Hin Hrows Hdc Hlen Hno. unfold row_for_date.
  rewrite in_columns_str. simpl.
  apply existsb_eqb_In in Hin. rewrite Hin. simpl.
  rewrite Hdc, Hrows, map_app. simpl.
  assert (HD : date_eqb D D = true).
  { unfold date_eqb. now rewrite !Z.eqb_refl. }
  rewrite HD.
  rewrite existsb_app. simpl. rewrite orb_true_r. simpl.
  rewrite loc_mask_skip.
  - reflexivity.
  - now rewrite length_map.
  - apply Forall_map. eapply Forall_impl; [|exact Hno].
    intros [d|] Hd; auto.
    destruct (date_eqb d D) eqn:E; auto.
    apply date_eqb_eq in E. subst. now elim Hd.
Qed.

End SelectionFacts.

(** ** The case-insensitive view *)

Lemma row_l_loop_sound (items d : sdict pyval) k v :
  sget (fold_left (fun d kv => sset d (Str.lower (fst kv)) (snd kv)) items d) k
  = Some v ->
  (exists c, In (c, v) items /\ Str.lower c = k) \/ sget d k = Some v.
Proof.
  revert d. induction items as [|[c0 v0] items IH]; intros d Hg; simpl in *.
  - now right.
  - apply IH in Hg as [[c [Hin E]] | Hg].
    + left. exists c. split; auto.
    + destruct (string_dec (Str.lower c0) k) as [E | Hne].
      * subst. rewrite sget_sset_same in Hg. injection Hg as ->.
        left. exists c0. split; auto.
      * rewrite sget_sset_other in Hg by assumption. now right.
Qed.

Lemma row_l_loop_complete (items d : sdict pyval) k :
  (exists c v, In (c, v) items /\ Str.lower c = k) \/ sget d k <> None ->
  sget (fold_left (fun d kv => sset d (Str.lower (fst kv)) (snd kv)) items d) k
  <> None.
Proof.
  revert d. induction items as [|[c0 v0] items IH]; intros d Hc; simpl in *.
  - destruct Hc as [[c [v [[] _]]] | Hd]. exact Hd.
  - apply IH. destruct Hc as [[c [v [[E | Hin] Hl]]] | Hd].
    + injection E as -> ->. right. subst. now rewrite sget_sset_same.
    + left. eauto.
    + right. destruct (string_dec (Str.lower c0) k) as [E | Hne].
      * subst. now rewrite sget_sset_same.
      * now rewrite sget_sset_other.
Qed.

Lemma lower_idem s : Str.lower (Str.lower s) = Str.lower s.
Proof. induction s as [|c r IH]; simpl; auto. now rewrite lower_char_idem, IH. Qed.

(** X3.  The keys of [row_l] are exactly the lower-cased column names of
    the row: a value found under a key is the value of a column whose
    lower-cased name is that key, every column of the row is found under
    its lower-cased name, and nothing is found under a key that has an
    upper-case letter. *)
Theorem row_l_keys_are_folded_columns (row : sdict pyval) :
  (forall k v, sget (row_l row) k = Some v ->
               exists c, In (c, v) row /\ Str.lower c = k)
  /\ (forall c v, In (c, v) row -> sget (row_l row) (Str.lower c) <> None)
  /\ (forall k, Str.lower k <> k -> sget (row_l row) k = None).
Proof.
  split; [|split].
  - intros k v Hg. apply row_l_loop_sound in Hg as [Hc | Hd]; auto. discriminate.
  - intros c v Hin. apply row_l_loop_complete. left. eauto.
  - intros k Hk. destruct (sget (row_l row) k) as [v|] eqn:Hg; auto.
    apply row_l_loop_sound in Hg as [[c [_ E]] | Hd]; [|discriminate].
    elim Hk. subst. apply lower_idem.
Qed.

(** *** Case folding and stripping *)

Lemma lower_char_eq_nocase a b :
  Str.lower_char a = Str.lower_char b -> Str.same_char_nocase a b.
Proof.
  unfold Str.lower_char.
  destruct (Str.is_upper a) eqn:Ha, (Str.is_upper b) eqn:Hb; intros E.
  - assert (Eab : a = b).
    { unfold Str.is_upper in Ha, Hb.
      apply andb_prop in Ha as [_ Ha]. apply andb_prop in Hb as [_ Hb].
      apply N.leb_le in Ha, Hb.
      apply (f_equal N_of_ascii) in E.
      rewrite !N_ascii_embedding in E by lia.
      rewrite <- (ascii_N_embedding a), <- (ascii_N_embedding b).
      f_equal. lia. }
    subst. apply Str.scn_same.
  - subst b. pose proof (Str.scn_up_lo a Ha) as S.
    unfold Str.lower_char in S. now rewrite Ha in S.
  - subst a. pose proof (Str.scn_lo_up b Hb) as S.
    unfold Str.lower_char in S. now rewrite Hb in S.
  - subst. apply Str.scn_same.
Qed.

Lemma lower_eq_equal_up_to_case s1 s2 :
  Str.lower s1 = Str.lower s2 -> Str.equal_up_to_case s1 s2.
Proof.
  revert s2. induction s1 as [|c1 s1 IH]; intros [|c2 s2] E; simpl in E;
    try discriminate; [constructor|].
  injection E as Ec Es. constructor; auto using lower_char_eq_nocase.
Qed.

Lemma lower_length s : String.length (Str.lower s) = String.length s.
Proof. induction s as [|c r IH]; simpl; auto. Qed.

Lemma lstrip_length s : (String.length (Str.lstrip s) <= String.length s)%nat.
Proof.
  induction s as [|c r IH]; simpl; auto. destruct (Str.is_space c); simpl; lia.
Qed.

Lemma lstrip_fixed s :
  String.length (Str.lstrip s) = String.length s -> Str.lstrip s = s.
Proof.
  destruct s as [|c r]; simpl; auto.
  destruct (Str.is_space c); auto.
  pose proof (lstrip_length r). lia.
Qed.

Lemma rstrip_length s : (String.length (Str.rstrip s) <= String.length s)%nat.
Proof.
  induction s as [|c r IH]; simpl; auto.
  destruct (Str.rstrip r); simpl in *; [destruct (Str.is_space c); simpl|]; lia.
Qed.

Lemma rstrip_fixed s :
  String.length (Str.rstrip s) = String.length s -> Str.rstrip s = s.
Proof.
  induction s as [|c r IH]; simpl; auto.
  pose proof (rstrip_length r) as Hl.
  destruct (Str.rstrip r) as [|a r'] eqn:E; simpl in *.
  - destruct (Str.is_space c); simpl; [discriminate|].
    intros Hlen. destruct r; [reflexivity | discriminate].
  - intros Hlen. f_equal. apply IH. lia.
Qed.

Lemma strip_fixed s :
  String.length (Str.strip s) = String.length s -> Str.strip s = s.
Proof.
  unfold Str.strip. intros Hlen.
  pose proof (lstrip_length s). pose proof (rstrip_length (Str.lstrip s)).
  assert (El : Str.lstrip s = s) by (apply lstrip_fixed; lia).
  rewrite El in *. now apply rstrip_fixed.
Qed.

Lemma lstrip_idem s : Str.lstrip (Str.lstrip s) = Str.lstrip s.
Proof.
  induction s as [|c r IH]; simpl; auto.
  destruct (Str.is_space c) eqn:E; auto. simpl. now rewrite E.
Qed.

Lemma rstrip_cons c r :
  Str.rstrip (String c r)
  = match Str.rstrip r with
    | EmptyString => if Str.is_space c then EmptyString else String c EmptyString
    | String a r' => String c (String a r')
    end.
Proof. simpl. now destruct (Str.rstrip r). Qed.

Lemma rstrip_idem s : Str.rstrip (Str.rstrip s) = Str.rstrip s.
Proof.
  induction s as [|c r IH]; [reflexivity|].
  rewrite rstrip_cons. destruct (Str.rstrip r) as [|a r'] eqn:E.
  - destruct (Str.is_space c) eqn:Ec; [reflexivity|].
    rewrite rstrip_cons. simpl. now rewrite Ec.
  - rewrite rstrip_cons, IH. reflexivity.
Qed.

Lemma lstrip_rstrip t : Str.lstrip t = t -> Str.lstrip (Str.rstrip t) = Str.rstrip t.
Proof.
  destruct t as [|c r]; [reflexivity|]. intros Hl.
  assert (Ec : Str.is_space c = false).
  { simpl in Hl. destruct (Str.is_space c); auto.
    pose proof (lstrip_length r) as Hlen. rewrite Hl in Hlen. simpl in Hlen. lia. }
  rewrite rstrip_cons. destruct (Str.rstrip r); rewrite ?Ec; simpl; now rewrite Ec.
Qed.

Lemma strip_idem s : Str.strip (Str.strip s) = Str.strip s.
Proof.
  unfold Str.strip.
  rewrite (lstrip_rstrip (Str.lstrip s)) by apply lstrip_idem.
  apply rstrip_idem.
Qed.

(** A name that starts or ends with white space is the stripped form of
    no string, whatever the case. *)
Lemma padded_name_never_matches (name c : string) :
  Str.strip c <> c -> ~ Str.equal_up_to_case (Str.strip name) c.
Proof.
  intros Hc E. apply Hc. apply strip_fixed.
  apply equal_up_to_case_lower in E.
  assert (El : Str.lower (Str.strip c) = Str.lower c).
  { change (Str.lower (Str.strip c)) with (Str.fold_key c).
    rewrite fold_key_lower, <- E, <- fold_key_lower.
    unfold Str.fold_key. now rewrite strip_idem. }
  rewrite <- (lower_length (Str.strip c)), El. apply lower_length.
Qed.

Lemma row_l_loop_filter (p : string * pyval -> bool) (k : string) (items : sdict pyval) :
  (forall c v, In (c, v) items -> p (c, v) = false -> Str.lower c <> k) ->
  forall d d',
    sget d k = sget d' k ->
    sget (fold_left (fun d kv => sset d (Str.lower (fst kv)) (snd kv))
                    (filter p items) d) k
    = sget (fold_left (fun d kv => sset d (Str.lower (fst kv)) (snd kv)) items d') k.
Proof.
  induction items as [|[c0 v0] items IH]; intros Hp d d' Hd; simpl; auto.
  assert (Hrest : forall c v, In (c, v) items -> p (c, v) = false -> Str.lower c <> k).
  { intros c v Hin. apply Hp. now right. }
  destruct (p (c0, v0)) eqn:E; simpl; apply IH; auto.
  - destruct (string_dec (Str.lower c0) k) as [-> | Hne].
    + now rewrite !sget_sset_same.
    + now rewrite !sget_sset_other.
  - rewrite sget_sset_other; auto. apply (Hp c0 v0); auto. now left.
Qed.

Section LookupFacts.
Context `{Externals}.

(** X4.  For a row with ASCII column names, no two of which have the
    same lower-cased name, and an ASCII plain-string spec: the spec
    finds the cell of the column whose name equals the spec, stripped of
    surrounding white space, up to the case of its letters, and keeps
    the spec as written as the label; it finds [None] when no column is
    such.  Only the spec is stripped: a column whose own name starts or
    ends with white space matches no spec, and the result of every spec
    is the one it has on the row without that column. *)
Theorem direct_spec_finds_cell (row : sdict pyval) (name : string) :
  Forall (fun kv => Str.is_ascii (fst kv) = true) row ->
  Str.is_ascii name = true ->
  NoDup (map (fun kv => Str.lower (fst kv)) row) ->
  (forall c v,
      In (c, v) row -> Str.equal_up_to_case (Str.strip name) c ->
      eval_field (row_l row) (VStr name) = Ok (Some (VStr name, v)))
  /\ ((forall c v, In (c, v) row -> ~ Str.equal_up_to_case (Str.strip name) c) ->
      eval_field (row_l row) (VStr name) = Ok (Some (VStr name, VNone)))
  /\ (forall c v,
        In (c, v) row -> Str.strip c <> c ->
        ~ Str.equal_up_to_case (Str.strip name) c
        /\ eval_field (row_l row) (VStr name)
           = eval_field (row_l (filter (fun kv => negb (String.eqb (fst kv) c)) row))
                        (VStr name)).
Proof.
  intros _ _ Hnd. split; [|split].
  - intros c v Hin Hname.
    apply equal_up_to_case_lower in Hname.
    apply in_split in Hin as [pre [post ->]].
    assert (Hpost : forall c' v', In (c', v') post -> Str.lower c' <> Str.lower c).
    { intros c' v' Hin' E.
      rewrite map_app in Hnd. simpl in Hnd. apply NoDup_remove_2 in Hnd.
      apply Hnd. apply in_or_app. right. rewrite <- E.
      change (Str.lower c') with ((fun kv : string * pyval => Str.lower (fst kv)) (c', v')).
      now apply in_map. }
    simpl. unfold get_or, row_l. rewrite Hname.
    rewrite fold_left_app. simpl.
    rewrite (row_l_loop_keeps post (Str.lower c) Hpost), sget_sset_same.
    reflexivity.
  - intros Hnone. simpl. unfold get_or.
    destruct (sget (row_l row) (Str.lower (Str.strip name))) as [v|] eqn:Hg; auto.
    apply row_l_loop_sound in Hg as [[c [Hin E]] | Hd]; [|discriminate].
    elim (Hnone c v Hin). apply lower_eq_equal_up_to_case. now symmetry.
  - intros c v Hin Hpad.
    pose proof (padded_name_never_matches name c Hpad) as Hno.
    split; [exact Hno|].
    simpl. unfold get_or, row_l.
    rewrite (row_l_loop_filter (fun kv => negb (String.eqb (fst kv) c))
               (Str.lower (Str.strip name)) row) with (d' := []); auto.
    intros c' v' _ Hc' E. simpl in Hc'.
    apply negb_false_iff, String.eqb_eq in Hc'. subst c'.
    apply Hno. apply lower_eq_equal_up_to_case. now symmetry.
Qed.

End LookupFacts.

(** ** The loop over the field specs *)

Lemma dict_get_set_same {K V} (eqb : K -> K -> bool) (d : list (K * V)) k v :
  eqb k k = true -> dict_get eqb (dict_set eqb d k v) k = Some v.
Proof.
  intros Hk. induction d as [|[k' v'] r IH]; simpl.
  - now rewrite Hk.
  - destruct (eqb k' k) eqn:E; simpl; now rewrite E.
Qed.

Lemma dict_set_present_keys {K V} (eqb : K -> K -> bool) (d : list (K * V)) k v :
  dict_get eqb d k <> None -> map fst (dict_set eqb d k v) = map fst d.
Proof.
  induction d as [|[k' v'] r IH]; simpl; intros Hp; [easy|].
  destruct (eqb k' k) eqn:E; simpl; auto. now rewrite IH.
Qed.

Lemma dict_set_absent {K V} (eqb : K -> K -> bool) (d : list (K * V)) k v :
  dict_get eqb d k = None -> dict_set eqb d k v = (d ++ [(k, v)])%list.
Proof.
  induction d as [|[k' v'] r IH]; simpl; intros Hp; auto.
  destruct (eqb k' k) eqn:E; [discriminate|]. now rewrite IH.
Qed.

Section LoopFacts.
Context `{Externals}.

Lemma eval_fields_app rl (a b : list pyval) acc :
  eval_fields rl (a ++ b) acc = (d <- eval_fields rl a acc ;; eval_fields rl b d).
Proof.
  revert acc. induction a as [|f a IH]; intros acc; simpl; auto.
  destruct (eval_field rl f) as [[[label val]|]|e]; simpl; auto.
  destruct (setitem acc label val); simpl; auto.
Qed.

Lemma unrecognized_spec_skipped rl f :
  unrecognized_spec f = true -> eval_field rl f = Ok None.
Proof.
  destruct f as [| | | | |l|d]; simpl; try easy.
  destruct (sget d "key"); [discriminate|].
  destruct (sget d "sum"); [discriminate|]. reflexivity.
Qed.

(** X5.  A field spec of an unrecognised shape is skipped wherever it
    stands: the loop over the specs ends as it does over the list
    without it, in the fields it builds and in the exception it raises. *)
Theorem unrecognized_spec_is_transparent
        (rl : sdict pyval) (fs1 fs2 : list pyval) (f : pyval)
        (fields_out : list (pyval * pyval)) :
  unrecognized_spec f = true ->
  eval_fields rl (fs1 ++ f :: fs2) fields_out = eval_fields rl (fs1 ++ fs2) fields_out.
Proof.
  intros Hf. rewrite !eval_fields_app.
  destruct (eval_fields rl fs1 fields_out); simpl; auto.
  now rewrite (unrecognized_spec_skipped rl f Hf).
Qed.

Lemma dict_set_fresh_name (g : string -> pyval * pyval) (acc : list string) n v :
  (forall a, fst (g a) = VStr a) -> ~ In n acc ->
  dict_set key_eqb (map g acc) (VStr n) v = (map g acc ++ [(VStr n, v)])%list.
Proof.
  intros Hg Hn. apply dict_set_absent.
  induction acc as [|a acc IH]; simpl; auto.
  specialize (Hg a). destruct (g a) as [ka va]. simpl in *. subst ka. simpl.
  destruct (String.eqb a n) eqn:E.
  - apply String.eqb_eq in E. subst. elim Hn. now left.
  - apply IH. intros Hin. apply Hn. now right.
Qed.

Lemma direct_specs_from rl (names acc : list string) :
  NoDup (acc ++ names) ->
  eval_fields rl (map VStr names)
              (map (fun n => (VStr n, get_or rl (Str.fold_key n) VNone)) acc)
  = Ok (map (fun n => (VStr n, get_or rl (Str.fold_key n) VNone)) (acc ++ names)).
Proof.
  revert acc. induction names as [|n names IH]; intros acc Hnd; simpl.
  - now rewrite app_nil_r.
  - unfold setitem. simpl.
    rewrite (dict_set_fresh_name
               (fun n => (VStr n, get_or rl (Str.fold_key n) VNone)) acc n).
    + change (Str.lower (Str.strip n)) with (Str.fold_key n).
      replace (map (fun n0 => (VStr n0, get_or rl (Str.fold_key n0) VNone)) acc
               ++ [(VStr n, get_or rl (Str.fold_key n) VNone)])%list
        with (map (fun n0 => (VStr n0, get_or rl (Str.fold_key n0) VNone))
                  (acc ++ [n])) by (rewrite map_app; reflexivity).
      rewrite IH; rewrite <- app_assoc; simpl; auto.
    + reflexivity.
    + apply NoDup_remove_2 in Hnd. intros Hin. apply Hnd.
      apply in_or_app. now left.
Qed.

(** X6.  For plain-string specs that are pairwise different, the fields
    of the entry are the specs in their configured order, each with the
    value found under its folded key ([None] when the row has none). *)
Theorem direct_specs_keep_their_order (rl : sdict pyval) (names : list string) :
  NoDup names ->
  eval_fields rl (map VStr names) []
  = Ok (map (fun n => (VStr n, get_or rl (Str.fold_key n) VNone)) names).
Proof. intros Hnd. exact (direct_specs_from rl names [] Hnd). Qed.

(** X7.  A spec whose label was already assigned by an earlier spec
    overwrites the value in place: after the loop the label holds the
    later value and the labels keep the order they had; a label that is
    new is appended at the end. *)
Theorem later_spec_overwrites_label
        (rl : sdict pyval) (fs : list pyval) (f label v : pyval)
        (out : list (pyval * pyval)) :
  eval_fields rl fs [] = Ok out ->
  eval_field rl f = Ok (Some (label, v)) ->
  is_hashable label = true -> key_eqb label label = true ->
  exists out',
    eval_fields rl (fs ++ [f]) [] = Ok out'
    /\ dict_get key_eqb out' label = Some v
    /\ (dict_get key_eqb out label <> None -> map fst out' = map fst out)
    /\ (dict_get key_eqb out label = None -> out' = (out ++ [(label, v)])%list).
Proof.
  intros Hfs Hf Hh Hk. exists (dict_set key_eqb out label v).
  split; [|split; [|split]].
  - rewrite eval_fields_app, Hfs. simpl. rewrite Hf. simpl.
    unfold setitem. now rewrite Hh.
  - now apply dict_get_set_same.
  - apply dict_set_present_keys.
  - apply dict_set_absent.
Qed.

(** X8.  A field spec whose evaluation raises makes the whole source an
    error entry: the fields the specs before it had produced are not
    reported. *)
Theorem raising_spec_fails_the_source
        (y_mt : date) (cfg row : sdict pyval) (sid ws dc : pyval) (df : DataFrame)
        (fs1 fs2 : list pyval) (f : pyval) (out1 : list (pyval * pyval)) (e : exn) :
  sget cfg "spreadsheet_id" = Some sid -> sget cfg "worksheet" = Some ws ->
  fetch_sheet_df sid ws = Ok df ->
  sget cfg "date_column" = Some dc ->
  row_for_date df dc y_mt = Ok (Some row) ->
  sget cfg "fields" = Some (VList (fs1 ++ f :: fs2)) ->
  eval_fields (row_l row) fs1 [] = Ok out1 ->
  eval_field (row_l row) f = Raise e ->
  run_source y_mt cfg = error_entry cfg e.
Proof.
  intros Hs Hw Hf Hd Hr Hfields H1 He.
  unfold run_source, source_body, getitem, get_or.
  rewrite Hs, Hw. simpl. rewrite Hf. simpl. rewrite Hd. simpl.
  rewrite Hr. simpl. rewrite Hfields. simpl.
  rewrite eval_fields_app, H1. simpl. rewrite He. reflexivity.
Qed.

(** X9.  A source that lacks [spreadsheet_id], or has it and lacks
    [worksheet], gets the error entry whose status quotes the missing
    key, whatever the backend holds. *)
Theorem missing_source_key_is_reported (y_mt : date) (cfg : sdict pyval) :
  (sget cfg "spreadsheet_id" = None ->
   run_source y_mt cfg
   = mkentry (title_of cfg) None ":x: Error – 'spreadsheet_id'" None)
  /\ (sget cfg "spreadsheet_id" <> None -> sget cfg "worksheet" = None ->
      run_source y_mt cfg
      = mkentry (get_or cfg "title" (VStr "Sheet")) None
                ":x: Error – 'worksheet'" None).
Proof.
  split.
  - intros Hs. unfold run_source, source_body, getitem. now rewrite Hs.
  - intros Hs Hw. unfold run_source, source_body, getitem.
    destruct (sget cfg "spreadsheet_id"); [|easy]. simpl. rewrite Hw. simpl.
    unfold error_entry, title_of, get_or at 2. now rewrite Hw.
Qed.

End LoopFacts.

(** ** Fetching a sheet *)

Lemma to_int_not_nil z : Z.to_int z <> Decimal.Pos Decimal.Nil
                         /\ Z.to_int z <> Decimal.Neg Decimal.Nil.
Proof.
  destruct z as [|p|p]; simpl; split; try discriminate;
    intros E; injection E as E;
    now apply DecimalPos.Unsigned.to_uint_nonnil in E.
Qed.

Lemma int_str_inj a b : int_str a = int_str b -> a = b.
Proof.
  unfold int_str. intros E. apply DecimalZ.to_int_inj.
  assert (Ha := NilZero.isi (Z.to_int a) (proj1 (to_int_not_nil a))
                            (proj2 (to_int_not_nil a))).
  assert (Hb := NilZero.isi (Z.to_int b) (proj1 (to_int_not_nil b))
                            (proj2 (to_int_not_nil b))).
  rewrite E in Ha. rewrite Ha in Hb. now injection Hb.
Qed.

Lemma find_first {A} (p : A -> bool) (pre post : list A) (x : A) :
  Forall (fun y => p y = false) pre -> p x = true ->
  find p (pre ++ x :: post) = Some x.
Proof.
  intros Hpre Hx. induction Hpre as [|y pre Hy _ IH]; simpl.
  - now rewrite Hx.
  - now rewrite Hy.
Qed.

Lemma find_none_all {A} (p : A -> bool) (l : list A) :
  Forall (fun y => p y = false) l -> find p l = None.
Proof. induction 1 as [|y l Hy _ IH]; simpl; auto. now rewrite Hy. Qed.

Lemma prefix_gid g : prefix "gid:" ("gid:" ++ g) = true.
Proof. simpl. now destruct g. Qed.

Lemma after_first_gid g : after_first ":" ("gid:" ++ g) = Some g.
Proof. reflexivity. Qed.

Section FetchFacts.
Context `{GspreadClient}.

(** X10.  A worksheet given as ["gid:"] followed by the decimal id of a
    worksheet of the spreadsheet is fetched by that id: the frame is
    built from the records of the first worksheet with the id, whatever
    the titles of the worksheets are.  When the text after ["gid:"] is
    the decimal id of no worksheet, the fetch raises the
    [RuntimeError] that names the worksheet as configured. *)
Theorem fetch_by_gid_selects_by_id
        (sid : pyval) (sh : Spreadsheet) (l : list Worksheet) :
  open_by_key sid = Ok sh -> sh_worksheets sh = Ok l ->
  (forall pre w post,
      l = (pre ++ w :: post)%list ->
      Forall (fun w' => ws_id w' <> ws_id w) pre ->
      Sheets.fetch_sheet_df sid (VStr ("gid:" ++ int_str (ws_id w)))
      = (data <- ws_records w ;; Ok (DataFrame_of_records data)))
  /\ (forall g,
        Forall (fun w' => int_str (ws_id w') <> g) l ->
        Sheets.fetch_sheet_df sid (VStr ("gid:" ++ g))
        = Raise (RuntimeError ("Worksheet with gid:" ++ g ++ " not found."))).
Proof.
  intros Hopen Hl. split.
  - intros pre w post -> Hpre.
    unfold Sheets.fetch_sheet_df. rewrite Hopen. cbn [bind].
    rewrite prefix_gid, after_first_gid, Hl. cbn [bind].
    unfold Sheets.worksheet_by_gid. rewrite find_first.
    + reflexivity.
    + eapply Forall_impl; [|exact Hpre]. intros w' Hw'. simpl in Hw'.
      apply String.eqb_neq. intros E. apply Hw'. now apply int_str_inj.
    + apply String.eqb_refl.
  - intros g Hg.
    unfold Sheets.fetch_sheet_df. rewrite Hopen. cbn [bind].
    rewrite prefix_gid, after_first_gid, Hl. cbn [bind].
    unfold Sheets.worksheet_by_gid. rewrite find_none_all; [reflexivity|].
    eapply Forall_impl; [|exact Hg]. intros w' Hw'. simpl in Hw'.
    now apply String.eqb_neq.
Qed.

(** X11.  A worksheet name that does not start with ["gid:"] is fetched
    by title: the frame is built from the records of the first worksheet
    with that title, and a title no worksheet has raises
    [WorksheetNotFound]. *)
Theorem fetch_by_title_selects_first
        (sid : pyval) (sh : Spreadsheet) (l : list Worksheet) (name : string) :
  open_by_key sid = Ok sh -> sh_worksheets sh = Ok l ->
  prefix "gid:" name = false ->
  (forall pre w post,
      l = (pre ++ w :: post)%list -> ws_title w = name ->
      Forall (fun w' => ws_title w' <> name) pre ->
      Sheets.fetch_sheet_df sid (VStr name)
      = (data <- ws_records w ;; Ok (DataFrame_of_records data)))
  /\ (Forall (fun w' => ws_title w' <> name) l ->
      Sheets.fetch_sheet_df sid (VStr name)
      = Raise (mkexn "WorksheetNotFound" name)).
Proof.
  intros Hopen Hl Hname. split.
  - intros pre w post -> Hw Hpre.
    unfold Sheets.fetch_sheet_df. rewrite Hopen. cbn [bind].
    rewrite Hname, Hl. cbn [bind].
    unfold Sheets.worksheet_by_title. rewrite find_first.
    + reflexivity.
    + eapply Forall_impl; [|exact Hpre]. intros w' Hw'. simpl in Hw'.
      now apply String.eqb_neq.
    + subst. apply String.eqb_refl.
  - intros Hnone.
    unfold Sheets.fetch_sheet_df. rewrite Hopen. cbn [bind].
    rewrite Hname, Hl. cbn [bind].
    unfold Sheets.worksheet_by_title. rewrite find_none_all; [reflexivity|].
    eapply Forall_impl; [|exact Hnone]. intros w' Hw'. simpl in Hw'.
    now apply String.eqb_neq.
Qed.

End FetchFacts.

Lemma add_keys_known (cols : list string) (r : sdict pyval) :
  (forall k, In k (map fst r) -> In k cols) -> add_keys cols r = cols.
Proof.
  unfold add_keys. induction r as [|[k v] r IH]; simpl; intros Hk; auto.
  assert (E : existsb (String.eqb k) cols = true).
  { apply existsb_exists. exists k. split; [apply Hk; now left|].
    apply String.eqb_refl. }
  rewrite E. apply IH. intros k' Hin. apply Hk. now right.
Qed.

Lemma add_keys_fresh (r : sdict pyval) (acc : list string) :
  NoDup (acc ++ map fst r) -> add_keys acc r = (acc ++ map fst r)%list.
Proof.
  unfold add_keys. revert acc. induction r as [|[k v] r IH]; intros acc Hnd; simpl.
  - now rewrite app_nil_r.
  - simpl in Hnd.
    assert (E : existsb (String.eqb k) acc = false).
    { destruct (existsb (String.eqb k) acc) eqn:E; auto.
      apply existsb_exists in E as [x [Hin Ex]]. apply String.eqb_eq in Ex. subst x.
      apply NoDup_remove_2 in Hnd. elim Hnd. apply in_or_app. now left. }
    rewrite E. rewrite IH; rewrite <- app_assoc; simpl; auto.
Qed.

Lemma frame_columns_uniform (data : list (sdict pyval)) (cols : list string) :
  NoDup cols -> data <> [] -> Forall (fun r => map fst r = cols) data ->
  frame_columns data = cols.
Proof.
  intros Hnd Hne Hall. unfold frame_columns.
  destruct data as [|r0 rest]; [easy|]. simpl.
  inversion Hall as [|? ? H0 Hrest]; subst.
  rewrite (add_keys_fresh r0 []) by exact Hnd. simpl.
  clear Hall Hne. induction Hrest as [|r rest Hr _ IH]; simpl; auto.
  rewrite add_keys_known; auto. intros k Hin. now rewrite <- Hr.
Qed.

Lemma text_column_keeps_values (vals : list pyval) :
  Exists (fun w => exists s, w = VStr s) vals -> is_float64_column vals = false.
Proof.
  intros Hex. unfold is_float64_column.
  assert (E : forallb (fun v => is_None v || is_int v || is_float v) vals = false).
  { induction Hex as [w l [s ->] | w l _ IH]; simpl; [reflexivity|].
    rewrite IH. apply andb_false_r. }
  now rewrite E.
Qed.

Lemma int_column_keeps_values (vals : list pyval) :
  Forall (fun w => exists z, w = VInt z) vals -> is_float64_column vals = false.
Proof.
  intros Hall. unfold is_float64_column.
  assert (Ef : existsb is_float vals = false).
  { clear - Hall. induction Hall as [|w l [z ->] _ IH]; simpl; auto. }
  assert (En : existsb is_None vals = false).
  { clear - Hall. induction Hall as [|w l [z ->] _ IH]; simpl; auto. }
  rewrite Ef, En. simpl. now rewrite andb_false_r.
Qed.

Lemma number_column_is_float64 (vals : list pyval) :
  Forall (fun w => (exists z, w = VInt z /\ - 2 ^ 63 <= z < 2 ^ 63)
                   \/ exists x, w = VFloat x) vals ->
  Exists (fun w => exists x, w = VFloat x) vals ->
  is_float64_column vals = true.
Proof.
  intros Hall Hex. unfold is_float64_column, ints_fit_64.
  assert (E2 : existsb is_float vals = true).
  { clear - Hex. induction Hex as [w l [x ->] | w l _ IH]; cbn [existsb]; [reflexivity|].
    rewrite IH. apply orb_true_r. }
  assert (E1 : forallb (fun v => is_None v || is_int v || is_float v) vals = true).
  { clear - Hall. induction Hall as [|w l [[z [-> _]] | [x ->]] _ IH];
      cbn [forallb is_None is_int is_float orb andb]; auto. }
  assert (E3 : forallb (fun v => match v with
                                 | VInt z => (- 2 ^ 63 <=? z) && (z <? 2 ^ 64)
                                 | _ => true
                                 end) vals = true).
  { clear - Hall. induction Hall as [|w l [[z [-> Hz]] | [x ->]] _ IH]; cbn [forallb]; auto.
    rewrite IH, andb_true_r. apply andb_true_intro. split.
    - apply Z.leb_le. lia.
    - apply Z.ltb_lt. lia. }
  assert (E4 : existsb (fun v => match v with
                                 | VInt z => 2 ^ 63 <=? z
                                 | _ => false
                                 end) vals = false).
  { clear - Hall. induction Hall as [|w l [[z [-> Hz]] | [x ->]] _ IH]; cbn [existsb]; auto.
    rewrite IH, orb_false_r. apply Z.leb_gt. lia. }
  rewrite E1, E2, E3, E4. cbn [orb andb]. now rewrite andb_false_r.
Qed.

Lemma cells_of_record_with (r : sdict pyval) (g : string -> pyval -> pyval) :
  NoDup (map fst r) ->
  map (fun c => g c (get_or r c (VFloat nan))) (map fst r)
  = map (fun kv => g (fst kv) (snd kv)) r.
Proof.
  intros Hnd. rewrite map_map. apply map_ext_in. intros [k v] Hin. simpl.
  unfold get_or. now rewrite (sget_in_nodup r k v Hnd Hin).
Qed.

Lemma combine_map_fst {A B} (l : list (A * B)) (g : A * B -> B) :
  combine (map fst l) (map g l) = map (fun kv => (fst kv, g kv)) l.
Proof. induction l as [|[a b] l IH]; simpl; auto. now rewrite IH. Qed.

(** X12.  For records as the sheet delivers them, each value an [int],
    a [float] or text, that all have the same distinct keys in the same
    order (the header row), one of them holding text, the frame built
    from them has these keys as its columns and one row per record, in
    order.  The dictionary of a row has the keys of its record, and
    under a key the value of the record as the column stores it: the
    value itself in a column that holds text somewhere or holds only
    [int]s, and in a column of [int]s and [float]s with at least one
    [float] the float of the value, so that an [int] of the sheet comes
    back as a [float]. *)
Theorem frame_row_is_its_record
        (data : list (sdict pyval)) (cols : list string) (i : nat) (r : sdict pyval) :
  NoDup cols -> Forall (fun r => map fst r = cols) data ->
  Forall (fun r : sdict pyval =>
            Forall (fun kv => (exists z, snd kv = VInt z) \/ (exists x, snd kv = VFloat x)
                              \/ (exists s, snd kv = VStr s)) r) data ->
  (exists r' c s, In r' data /\ In (c, VStr s) r') ->
  nth_error data i = Some r ->
  columns (DataFrame_of_records data) = cols
  /\ List.length (rows (DataFrame_of_records data)) = List.length data
  /\ exists cells,
       nth_error (rows (DataFrame_of_records data)) i = Some cells
       /\ map fst (to_dict cols cells) = cols
       /\ forall c v,
            In (c, v) r ->
            (Exists (fun w => exists s, w = VStr s) (records_column data c)
             \/ Forall (fun w => exists z, w = VInt z) (records_column data c) ->
             sget (to_dict cols cells) c = Some v)
            /\ (Forall (fun w => (exists z, w = VInt z /\ - 2 ^ 63 <= z < 2 ^ 63)
                                 \/ exists x, w = VFloat x)
                       (records_column data c) ->
                Exists (fun w => exists x, w = VFloat x) (records_column data c) ->
                (forall x, v = VFloat x -> sget (to_dict cols cells) c = Some v)
                /\ (forall z, v = VInt z ->
                      exists x, float_of_Z z = Some x
                                /\ sget (to_dict cols cells) c = Some (VFloat x))).
Proof.
  intros Hnd Hall _ _ Hi.
  assert (Hne : data <> []) by (intros ->; now destruct i).
  assert (Hcols : frame_columns data = cols) by now apply frame_columns_uniform.
  assert (Hr : map fst r = cols).
  { rewrite Forall_forall in Hall. apply Hall. eapply nth_error_In; eauto. }
  unfold DataFrame_of_records. rewrite Hcols. cbn [columns rows].
  split; [reflexivity|]. split; [apply length_map|].
  exists (map (fun c => frame_cell data c (get_or r c (VFloat nan))) cols). split.
  { exact (map_nth_error
             (fun r0 : sdict pyval =>
                map (fun c => frame_cell data c (get_or r0 c (VFloat nan))) cols)
             i data Hi). }
  assert (Hd : to_dict cols (map (fun c => frame_cell data c (get_or r c (VFloat nan))) cols)
               = map (fun kv => (fst kv, frame_cell data (fst kv) (snd kv))) r).
  { clear Hcols. subst cols. rewrite (cells_of_record_with r (frame_cell data)) by assumption.
    unfold to_dict. rewrite combine_map_fst.
    apply dict_of_items_nodup. rewrite map_map. simpl. exact Hnd. }
  rewrite Hd. split.
  { rewrite map_map. simpl. exact Hr. }
  intros c v Hin.
  assert (Hget : sget (map (fun kv => (fst kv, frame_cell data (fst kv) (snd kv))) r) c
                 = Some (frame_cell data c v)).
  { apply sget_in_nodup.
    - rewrite map_map. simpl. rewrite <- Hr in Hnd. exact Hnd.
    - exact (in_map (fun kv => (fst kv, frame_cell data (fst kv) (snd kv))) r (c, v) Hin). }
  rewrite Hget. unfold frame_cell. split.
  - intros [Htext | Hints].
    + now rewrite text_column_keeps_values.
    + now rewrite int_column_keeps_values.
  - intros Hnum Hfl. rewrite (number_column_is_float64 _ Hnum Hfl). split.
    + intros x ->. reflexivity.
    + intros z ->.
      assert (Hv : In (VInt z) (records_column data c)).
      { unfold records_column. apply in_map_iff. exists r. split.
        - unfold get_or. rewrite (sget_in_nodup r c (VInt z)); auto. now rewrite Hr.
        - eapply nth_error_In; eauto. }
      rewrite Forall_forall in Hnum.
      destruct (Hnum _ Hv) as [[z' [Ez Hz]] | [x Ex]]; [|discriminate Ex].
      injection Ez as <-.
      assert (Hfit : float_of_Z z <> None).
      { apply float_of_Z_fits.
        assert (2 ^ 63 < 2 ^ 1023) by (apply Z.pow_lt_mono_r; lia). lia. }
      simpl. destruct (float_of_Z z) as [x|]; [eauto | now elim Hfit].
Qed.

Lemma add_keys_origin (r : sdict pyval) (cols : list string) c :
  In c (add_keys cols r) -> In c cols \/ In c (map fst r).
Proof.
  unfold add_keys. revert cols. induction r as [|[k v] r IH]; intros cols Hin; simpl in *.
  - now left.
  - apply IH in Hin as [Hin | Hin]; [|right; now right].
    destruct (existsb (String.eqb k) cols); [now left|].
    apply in_app_or in Hin as [Hin | [E | []]]; [now left|]. right. now left.
Qed.

Lemma frame_columns_origin (data : list (sdict pyval)) c :
  In c (frame_columns data) -> exists r, In r data /\ In c (map fst r).
Proof.
  unfold frame_columns.
  assert (G : forall acc, In c (fold_left add_keys data acc) ->
                          In c acc \/ exists r, In r data /\ In c (map fst r)).
  { induction data as [|r0 data IH]; intros acc Hin; simpl in *.
    - now left.
    - apply IH in Hin as [Hin | [r [Hr Hc]]].
      + apply add_keys_origin in Hin as [Hin | Hin]; [now left|].
        right. exists r0. split; auto.
      + right. exists r. split; auto. }
  intros Hin. apply G in Hin as [[] | Hr]. exact Hr.
Qed.

Section EmptySheet.
Context `{Externals}.

(** X13.  On the frame built from a sheet's records [row_for_date]
    raises the missing-column error for every date column that is a key
    of no record.  A sheet without data rows has no records, so it is
    reported with this error for every column name, not as a day
    without a row. *)
Theorem headerless_date_column_is_missing
        (data : list (sdict pyval)) (c : string) (D : date) :
  Forall (fun r => ~ In c (map fst r)) data ->
  row_for_date (DataFrame_of_records data) (VStr c) D
  = Raise (RuntimeError ("Date column '" ++ c ++ "' not found. Found: "
                         ++ repr (VList (map VStr (frame_columns data))))).
Proof.
  intros Hno. apply row_for_date_missing. simpl. intros Hin.
  apply frame_columns_origin in Hin as [r [Hr Hc]].
  rewrite Forall_forall in Hno. exact (Hno r Hr Hc).
Qed.

End EmptySheet.

(** ** Rendering *)

Lemma pairs_length {A} (f g : A -> pyval) (l : list A) :
  List.length (flat_map (fun t => [f t; g t]) l) = (2 * List.length l)%nat.
Proof. induction l as [|t l IH]; simpl; auto. rewrite IH. lia. Qed.

Lemma pairs_nth_even {A} (f g : A -> pyval) (l : list A) i :
  nth_error (flat_map (fun t => [f t; g t]) l) (2 * i)
  = option_map f (nth_error l i).
Proof.
  revert i. induction l as [|t l IH]; intros i.
  - simpl. rewrite nth_error_nil. now destruct i.
  - destruct i as [|i]; [reflexivity|].
    replace (2 * S i)%nat with (S (S (2 * i))) by lia. simpl. apply IH.
Qed.

Lemma pairs_nth_odd {A} (f g : A -> pyval) (l : list A) i t :
  nth_error l i = Some t ->
  nth_error (flat_map (fun t => [f t; g t]) l) (2 * i + 1) = Some (g t).
Proof.
  revert i. induction l as [|t0 l IH]; intros i Hi.
  - now destruct i.
  - destruct i as [|i].
    + injection Hi as ->. reflexivity.
    + replace (2 * S i + 1)%nat with (S (S (2 * i + 1))) by lia. simpl. now apply IH.
Qed.

Lemma Forall2_nth_left {A B} (R : A -> B -> Prop) (la : list A) (lb : list B) i a :
  Forall2 R la lb -> nth_error la i = Some a ->
  exists b, nth_error lb i = Some b /\ R a b.
Proof.
  intros HF. revert i. induction HF as [|x y la lb Hxy _ IH]; intros i Hi.
  - now destruct i.
  - destruct i as [|i]; simpl in *.
    + injection Hi as ->. eauto.
    + now apply IH.
Qed.

Lemma dollar_same_char c1 c2 :
  Str.same_char_nocase c1 c2 ->
  (if ascii_dec "$" c1 then true else false)
  = (if ascii_dec "$" c2 then true else false).
Proof.
  intros [c | c Hc | c Hc]; auto;
    destruct c as [[] [] [] [] [] [] [] []]; try discriminate Hc; reflexivity.
Qed.

Lemma prefix_empty s : prefix "" s = true.
Proof. now destruct s. Qed.

Lemma contains_dollar_cons c r :
  contains "$" (String c r)
  = (if ascii_dec "$" c then true else false) || contains "$" r.
Proof.
  change (contains "$" (String c r))
    with ((if ascii_dec "$" c then prefix "" r else false) || contains "$" r).
  rewrite prefix_empty. reflexivity.
Qed.

Lemma contains_dollar_case l1 l2 :
  Str.equal_up_to_case l1 l2 -> contains "$" l1 = contains "$" l2.
Proof.
  induction 1 as [|c1 c2 s1 s2 Hc _ IH]; [reflexivity|].
  now rewrite !contains_dollar_cons, IH, (dollar_same_char c1 c2 Hc).
Qed.

Section RenderingFacts.
Context `{Externals} `{Delivery}.

Lemma blocks_loop_spec (rs : list ReportEntry) :
  forall acc blocks,
    blocks_loop rs acc = Ok blocks ->
    exists texts,
      Forall2 (fun r t => section_text r = Ok t) rs texts
      /\ blocks = (acc ++ flat_map (fun t => [section_block t; divider_block]) texts)%list.
Proof.
  induction rs as [|r rs IH]; intros acc blocks Hb; simpl in Hb.
  - injection Hb as <-. exists []. split; [constructor | now rewrite app_nil_r].
  - destruct (section_text r) as [t|e] eqn:Et; simpl in Hb; [|discriminate].
    apply IH in Hb as [texts [HF ->]].
    exists (t :: texts). split; [now constructor|].
    now rewrite <- app_assoc.
Qed.

Lemma blocks_loop_total (rs : list ReportEntry) :
  Forall (fun r => exists t, section_text r = Ok t) rs ->
  forall acc, exists blocks, blocks_loop rs acc = Ok blocks.
Proof.
  induction 1 as [|r rs [t Ht] _ IH]; intros acc; simpl.
  - eauto.
  - rewrite Ht. simpl. apply IH.
Qed.

Lemma fmt_value_renderable (k v : pyval) :
  renderable_field (k, v) -> exists s, _fmt_value k v = Ok s.
Proof.
  intros [[l Hl] Hint]. simpl in *. subst k.
  destruct v as [|b|z|x|s|l'|d]; simpl; eauto.
  - destruct (contains "$" l || contains "revenue" (Str.lower l)); eauto.
  - destruct (contains "$" l || contains "revenue" (Str.lower l)); eauto.
    destruct (float_of_Z z) eqn:E; eauto. now elim (Hint z).
  - destruct (is_nan x); eauto. simpl.
    destruct (contains "$" l || contains "revenue" (Str.lower l)); eauto.
    destruct (float_is_integer x); eauto.
Qed.

Lemma fields_md_renderable (items : list (pyval * pyval)) :
  Forall renderable_field items -> exists md, fields_md items = Ok md.
Proof.
  induction 1 as [|[k v] items Hkv _ [md IH]]; simpl; eauto.
  destruct (fmt_value_renderable k v Hkv) as [s ->]. simpl.
  rewrite IH. simpl. eauto.
Qed.

Lemma section_text_renderable (r : ReportEntry) :
  (forall f, fields r = Some f -> Forall renderable_field f) ->
  exists t, section_text r = Ok t.
Proof.
  intros Hr. unfold section_text.
  assert (Hf : Forall renderable_field
                 match fields r with Some f => f | None => [] end).
  { destruct (fields r); auto. }
  destruct (fields_md_renderable _ Hf) as [md ->]. simpl. eauto.
Qed.

Lemma build_blocks_total (results : list ReportEntry) (date_label : string) :
  Forall (fun r => forall f, fields r = Some f -> Forall renderable_field f) results ->
  exists blocks, build_blocks results date_label = Ok blocks.
Proof.
  intros Hall. apply blocks_loop_total.
  eapply Forall_impl; [|exact Hall]. apply section_text_renderable.
Qed.

Lemma section_text_error_entry (cfg : sdict pyval) (e : exn) :
  section_text (error_entry cfg e)
  = Ok (("📍" ++ " *" ++ py_str (title_of cfg) ++ "*")
        ++ newline ++ ":x: Error – " ++ exn_msg e).
Proof. reflexivity. Qed.

(** X14.  When [build_blocks] returns, the message has two blocks more
    than twice the number of results: the header with the date label, a
    divider, and for every result, in order, a section with its text
    followed by a divider. *)
Theorem build_blocks_layout
        (results : list ReportEntry) (date_label : string) (blocks : list pyval) :
  build_blocks results date_label = Ok blocks ->
  List.length blocks = (2 + 2 * List.length results)%nat
  /\ nth_error blocks 0
     = Some (header_block ("Daily Car Wash Summary – " ++ date_label))
  /\ nth_error blocks 1 = Some divider_block
  /\ forall i r,
       nth_error results i = Some r ->
       exists text,
         section_text r = Ok text
         /\ nth_error blocks (2 * i + 2) = Some (section_block text)
         /\ nth_error blocks (2 * i + 3) = Some divider_block.
Proof.
  intros Hb. apply blocks_loop_spec in Hb as [texts [HF ->]].
  assert (Hlen : List.length texts = List.length results)
    by (symmetry; eapply Forall2_length; eauto).
  split; [|split; [|split]].
  - cbn [app List.length].
    rewrite (pairs_length section_block (fun _ => divider_block)), Hlen. lia.
  - reflexivity.
  - reflexivity.
  - intros i r Hi.
    destruct (Forall2_nth_left _ _ _ i r HF Hi) as [t [Ht Hr]].
    exists t. split; [exact Hr|]. split.
    + replace (2 * i + 2)%nat with (S (S (2 * i))) by lia. cbn [app nth_error].
      now rewrite (pairs_nth_even section_block (fun _ => divider_block)), Ht.
    + replace (2 * i + 3)%nat with (S (S (2 * i + 1))) by lia. cbn [app nth_error].
      exact (pairs_nth_odd section_block (fun _ => divider_block) texts i t Ht).
Qed.

(** X15.  [build_blocks] returns a message whenever every field of
    every result has a string as its label and no [int] too large for a
    float as its value; results without fields (errors and days without
    a row) never make it raise. *)
Theorem build_blocks_returns (results : list ReportEntry) (date_label : string) :
  Forall (fun r => forall f, fields r = Some f -> Forall renderable_field f) results ->
  exists blocks, build_blocks results date_label = Ok blocks.
Proof. exact (build_blocks_total results date_label). Qed.

(** X16.  In the message built from the results of [main], the section
    of a source whose processing raised stands at the source's position
    and reads: the pin emoji, the title in bold, and on the next line
    [":x: Error – "] with the exception's message. *)
Theorem failed_source_section
        (y_mt : date) (CONFIG : list (sdict pyval)) (date_label : string)
        (blocks : list pyval) (i : nat) (cfg : sdict pyval) (e : exn) :
  build_blocks (main_results y_mt CONFIG) date_label = Ok blocks ->
  nth_error CONFIG i = Some cfg ->
  source_body y_mt cfg = Raise e ->
  nth_error blocks (2 * i + 2)
  = Some (section_block (("📍" ++ " *" ++ py_str (title_of cfg) ++ "*")
                         ++ newline ++ ":x: Error – " ++ exn_msg e)).
Proof.
  intros Hb Hi He. apply blocks_loop_spec in Hb as [texts [HF ->]].
  assert (Hr : nth_error (main_results y_mt CONFIG) i = Some (error_entry cfg e)).
  { rewrite main_results_map. rewrite (map_nth_error (run_source y_mt) i CONFIG Hi).
    unfold run_source. now rewrite He. }
  destruct (Forall2_nth_left _ _ _ i _ HF Hr) as [t [Ht Hs]].
  rewrite section_text_error_entry in Hs. injection Hs as <-.
  replace (2 * i + 2)%nat with (S (S (2 * i))) by lia. cbn [app nth_error].
  now rewrite (pairs_nth_even section_block (fun _ => divider_block)), Ht.
Qed.

(** X17.  A plain-string spec whose folded key is absent from the row,
    or whose cell is [None] or a NaN float, is rendered as the line with
    its label and an em dash. *)
Theorem missing_value_renders_as_dash (rl : sdict pyval) (name : string) :
  (sget rl (Str.fold_key name) = None
   \/ sget rl (Str.fold_key name) = Some VNone
   \/ exists x, sget rl (Str.fold_key name) = Some (VFloat x) /\ is_nan x = true) ->
  exists out,
    eval_fields rl [VStr name] [] = Ok out
    /\ fields_md out = Ok ["*" ++ name ++ ":* —"].
Proof.
  intros Hcell. eexists. split; [reflexivity|].
  change (Str.lower (Str.strip name)) with (Str.fold_key name).
  unfold get_or. simpl.
  destruct Hcell as [-> | [-> | [x [-> Hx]]]]; simpl; try reflexivity.
  now rewrite Hx.
Qed.

(** X18.  Whether a value is formatted as money does not depend on the
    case of the letters of its label: two labels equal up to case give
    the same text for every value. *)
Theorem money_hint_ignores_case (l1 l2 : string) (v : pyval) :
  Str.equal_up_to_case l1 l2 ->
  _fmt_value (VStr l1) v = _fmt_value (VStr l2) v.
Proof.
  intros E. unfold _fmt_value, money_hint.
  rewrite (contains_dollar_case l1 l2 E), (equal_up_to_case_lower l1 l2 E).
  reflexivity.
Qed.

Lemma failed_entries_have_no_fields (y_mt : date) (CONFIG : list (sdict pyval)) :
  Forall (fun cfg => exists e, source_body y_mt cfg = Raise e) CONFIG ->
  Forall (fun r => forall f, fields r = Some f -> Forall renderable_field f)
         (main_results y_mt CONFIG).
Proof.
  intros Hall. rewrite main_results_map. apply Forall_map.
  eapply Forall_impl; [|exact Hall].
  intros cfg [e He] f Hf. unfold run_source in Hf. rewrite He in Hf. discriminate Hf.
Qed.

(** X19.  Failures of the sources are not failures of the run: when
    every source raises, [main] still builds the message and posts it,
    and it ends as the post ends: normally for a status below 300, with
    the [RuntimeError] that quotes status and body otherwise. *)
Theorem failed_sources_do_not_fail_the_run
        (c : ascii) (u : string) (y_mt : date) (date_label : string)
        (CONFIG : list (sdict pyval)) (code : Z) (body : string) :
  Forall (fun cfg => exists e, source_body y_mt cfg = Raise e) CONFIG ->
  (forall payload, requests_post (String c u) payload = Ok (code, body)) ->
  main_deliver (Some (String c u)) y_mt date_label CONFIG
  = if 300 <=? code
    then Raise (RuntimeError ("Slack webhook failed: " ++ int_str code ++ " " ++ body))
    else Ok tt.
Proof.
  intros Hall Hpost. unfold main_deliver.
  destruct (build_blocks_total _ date_label (failed_entries_have_no_fields _ _ Hall))
    as [blocks ->].
  simpl. rewrite Hpost. reflexivity.
Qed.

End RenderingFacts.

(** ** The date label *)

Lemma int_str_ok_all :
  forallb int_str_ok (map Z.of_nat (seq 1 (Z.to_nat 9999))) = true.
Proof. vm_compute. reflexivity. Qed.

Lemma int_str_ok_range z : 1 <= z <= 9999 -> int_str_ok z = true.
Proof.
  intros Hz. pose proof int_str_ok_all as Hall.
  rewrite forallb_forall in Hall. apply Hall.
  apply in_map_iff. exists (Z.to_nat z). split; [apply Z2Nat.id; lia|].
  apply in_seq. split; [lia|].
  change (1 + Z.to_nat 9999)%nat with (Z.to_nat 10000). lia.
Qed.

Lemma prefix_sp0_cons c s :
  prefix " 0" (String c s) = Ascii.eqb c " " && prefix "0" s.
Proof.
  change (prefix " 0" (String c s))
    with (if ascii_dec " " c then prefix "0" s else false).
  destruct (ascii_dec " " c) as [<- | Hne]; [reflexivity|].
  apply not_eq_sym in Hne. apply Ascii.eqb_neq in Hne. now rewrite Hne.
Qed.

Lemma prefix_0_cons c s : prefix "0" (String c s) = Ascii.eqb c "0".
Proof.
  change (prefix "0" (String c s))
    with (if ascii_dec "0" c then prefix "" s else false).
  rewrite prefix_empty.
  destruct (ascii_dec "0" c) as [<- | Hne]; [reflexivity|].
  apply not_eq_sym in Hne. apply Ascii.eqb_neq in Hne. now rewrite Hne.
Qed.

Lemma replace_sp0_step c r :
  str_replace_from " 0" " " 0 (String c r)
  = if Ascii.eqb c " " && prefix "0" r
    then String " " (str_replace_from " 0" " " 1 r)
    else String c (str_replace_from " 0" " " 0 r).
Proof.
  change (str_replace_from " 0" " " 0 (String c r))
    with (if prefix " 0" (String c r)
          then String " " (str_replace_from " 0" " " 1 r)
          else String c (str_replace_from " 0" " " 0 r)).
  now rewrite prefix_sp0_cons.
Qed.

Lemma replace_sp0_word w s :
  no_space w = true ->
  str_replace_from " 0" " " 0 (w ++ s) = w ++ str_replace_from " 0" " " 0 s.
Proof.
  induction w as [|c w IH]; intros Hw; [reflexivity|].
  simpl in Hw. apply andb_prop in Hw as [Hc Hw].
  change (String c w ++ s) with (String c (w ++ s)).
  rewrite replace_sp0_step.
  apply negb_true_iff in Hc. rewrite Hc. simpl. now rewrite IH.
Qed.

Lemma replace_sp0_padded s :
  str_replace_from " 0" " " 0 (String " " (String "0" s))
  = String " " (str_replace_from " 0" " " 0 s).
Proof. rewrite replace_sp0_step, prefix_0_cons. reflexivity. Qed.

Lemma replace_sp0_plain w s :
  plain_word w = true ->
  str_replace_from " 0" " " 0 (String " " (w ++ s))
  = String " " (w ++ str_replace_from " 0" " " 0 s).
Proof.
  intros Hw. destruct w as [|c w]; [discriminate|].
  unfold plain_word in Hw. apply andb_prop in Hw as [Hc Hw].
  rewrite replace_sp0_step.
  change (String c w ++ s) with (String c (w ++ s)) at 1.
  rewrite prefix_0_cons. apply negb_true_iff in Hc. rewrite Hc. simpl andb. cbv iota.
  change (String c (w ++ s)) with (String c w ++ s).
  now rewrite replace_sp0_word.
Qed.

Lemma replace_sp0_comma s :
  str_replace_from " 0" " " 0 (String "," s)
  = String "," (str_replace_from " 0" " " 0 s).
Proof. now rewrite replace_sp0_step. Qed.

Lemma append_empty_r s : s ++ "" = s.
Proof. induction s as [|c s IH]; simpl; auto. now rewrite IH. Qed.

Lemma day_names_plain n :
  (n < 7)%nat -> plain_word (nth n day_names "") = true.
Proof. intros Hn. do 7 (destruct n as [|n]; [reflexivity|]). lia. Qed.

Lemma month_names_plain n :
  (n < 12)%nat -> plain_word (nth n month_names "") = true.
Proof. intros Hn. do 12 (destruct n as [|n]; [reflexivity|]). lia. Qed.

Lemma plain_word_no_space w : plain_word w = true -> no_space w = true.
Proof. destruct w; [discriminate|]. unfold plain_word. now intros [_ Hw]%andb_prop. Qed.

(** X20.  For every date from the year 1000 on, the date label is the
    weekday and month abbreviations, the day of the month without a
    leading zero, and the year: replacing [" 0"] removes the padding of
    the day and changes nothing else. *)
Theorem date_label_day_is_unpadded (y_mt : date) :
  1 <= month y_mt <= 12 -> 1 <= day y_mt <= 31 -> 1000 <= year y_mt <= 9999 ->
  date_label y_mt
  = day_abbr y_mt ++ ", " ++ month_abbr y_mt ++ " " ++ int_str (day y_mt)
    ++ ", " ++ int_str (year y_mt).
Proof.
  intros Hm Hd Hy.
  assert (Hw : plain_word (day_abbr y_mt) = true).
  { apply day_names_plain. unfold weekday.
    pose proof (Z.mod_pos_bound (days_from_civil y_mt + 3) 7). lia. }
  assert (Hmo : plain_word (month_abbr y_mt) = true)
    by (apply month_names_plain; lia).
  pose proof (int_str_ok_range (day y_mt) ltac:(lia)) as Hday.
  pose proof (int_str_ok_range (year y_mt) ltac:(lia)) as Hyear.
  unfold int_str_ok in Hday, Hyear.
  apply andb_prop in Hday as [Hdw Hdl]. apply andb_prop in Hyear as [Hyw Hyl].
  apply Nat.eqb_eq in Hdl, Hyl.
  assert (Hy4 : zero_pad 4 (int_str (year y_mt)) = int_str (year y_mt)).
  { destruct (year y_mt <? 10) eqn:E1; [lia|].
    destruct (year y_mt <? 100) eqn:E2; [lia|].
    destruct (year y_mt <? 1000) eqn:E3; [lia|].
    simpl. now rewrite Hyl. }
  unfold date_label, str_replace, strftime_a_b_d_Y. rewrite Hy4.
  set (W := day_abbr y_mt) in *. set (M := month_abbr y_mt) in *.
  set (D := int_str (day y_mt)) in *. set (Y := int_str (year y_mt)) in *.
  change (", " ++ M ++ " " ++ zero_pad 2 D ++ ", " ++ Y)
    with (String "," (String " " (M ++ String " " (zero_pad 2 D ++ String "," (String " " Y))))).
  change (", " ++ M ++ " " ++ D ++ ", " ++ Y)
    with (String "," (String " " (M ++ String " " (D ++ String "," (String " " Y))))).
  rewrite (replace_sp0_word W) by now apply plain_word_no_space.
  rewrite replace_sp0_comma, (replace_sp0_plain M) by assumption.
  assert (Htail : str_replace_from " 0" " " 0 (String "," (String " " Y))
                  = String "," (String " " Y)).
  { rewrite replace_sp0_comma. rewrite <- (append_empty_r Y) at 1.
    rewrite (replace_sp0_plain Y) by assumption. simpl. now rewrite append_empty_r. }
  destruct (day y_mt <? 10) eqn:E10.
  - assert (Hpad : zero_pad 2 D = String "0" D) by (simpl; now rewrite Hdl).
    rewrite Hpad.
    change (String "0" D ++ String "," (String " " Y))
      with (String "0" (D ++ String "," (String " " Y))).
    rewrite replace_sp0_padded.
    rewrite (replace_sp0_word D) by now apply plain_word_no_space.
    now rewrite Htail.
  - assert (Hpad : zero_pad 2 D = D).
    { destruct (day y_mt <? 100) eqn:E100; [|lia]. simpl. now rewrite Hdl. }
    rewrite Hpad, (replace_sp0_plain D) by assumption.
    now rewrite Htail.
Qed.

(** ** Sums over blank cells *)

Lemma fold_add_zeros (l : list float) :
  Forall (fun x => x = 0%float) l -> fold_left PrimFloat.add l 0%float = 0%float.
Proof. induction 1 as [|x l -> _ IH]; simpl; auto. Qed.

Section BlankSums.
Context `{Externals} `{Delivery}.

(** X21.  A computed sum over one or more keys whose cells are all
    absent or blank is the float zero, and it is rendered as a number
    (the text of the int 0, or the money format of zero under a money
    label), never as the dash of a missing value. *)
Theorem blank_sum_is_shown_as_zero (rl : sdict pyval) (ks : list pyval) (label : string) :
  ks <> [] ->
  Forall (fun k => blank_or_absent (sget rl (lookup_key k))) ks ->
  computed_sum rl ks = VFloat 0
  /\ _fmt_value (VStr label) (computed_sum rl ks)
     = Ok (if contains "$" label || contains "revenue" (Str.lower label)
           then "$" ++ format_comma_2f 0
           else py_str (VInt 0)).
Proof.
  intros Hne Hall.
  assert (Hsum : computed_sum rl ks = VFloat 0).
  { unfold computed_sum. destruct ks as [|k ks]; [now elim Hne|].
    unfold py_sum. rewrite map_map.
    change (map (fun x => sum_term rl (lookup_key x)) (k :: ks))
      with (sum_term rl (lookup_key k) :: map (fun x => sum_term rl (lookup_key x)) ks).
    cbv iota. f_equal. apply fold_add_zeros.
    change (sum_term rl (lookup_key k) :: map (fun x => sum_term rl (lookup_key x)) ks)
      with (map (fun x => sum_term rl (lookup_key x)) (k :: ks)).
    apply Forall_map. eapply Forall_impl; [|exact Hall].
    intros a Ha. unfold blank_or_absent in Ha.
    destruct (sget rl (lookup_key a)) as [v|] eqn:E.
    - exact (sum_term_blank rl _ v E Ha).
    - exact (sum_term_absent rl _ E). }
  split; [exact Hsum|]. rewrite Hsum. unfold _fmt_value. simpl.
  destruct (contains "$" label || contains "revenue" (Str.lower label)); reflexivity.
Qed.

End BlankSums.

(* ================================================================== *)
(** * Worked examples for the further properties *)

Ltac same_case :=
  match goal with
  | |- Str.same_char_nocase ?a ?b =>
      first [ apply Str.scn_same
            | exact (Str.scn_up_lo a eq_refl)
            | exact (Str.scn_lo_up b eq_refl) ]
  end.

Ltac up_to_case := repeat (constructor; [same_case|]); constructor.

(** The message of a run: money, a whole number, a missing column and a
    failed source. *)
Example message_of_two_results :
  build_blocks SampleDelivery.two_results "Sat, Jun 1, 2024"
  = Ok [ header_block "Daily Car Wash Summary – Sat, Jun 1, 2024";
         divider_block;
         section_block ("📍 *Main St*" ++ newline ++ "*Washes:* 42" ++ newline
                        ++ "*Revenue:* $1,234.50" ++ newline ++ "*Nope:* —");
         divider_block;
         section_block ("📍 *Gone*" ++ newline ++ ":x: Error – <Response [404]>");
         divider_block ].
Proof. vm_compute. reflexivity. Qed.

(** A label that is no string makes [build_blocks] raise as soon as its
    value is a number. *)
Example null_label_with_number_raises :
  build_blocks [mkentry (VStr "Main St") None "" (Some [(VNone, VInt 3)])] "x"
  = Raise (TypeError "argument of type 'NoneType' is not iterable").
Proof. vm_compute. reflexivity. Qed.

Example fetch_then_select :
  run_source (H := with_client sample sample_client) Sample.june_1
    [("title", VStr "Main St"); ("spreadsheet_id", VStr "book-1");
     ("worksheet", VStr "gid:0"); ("date_column", VStr "Date");
     ("fields", VList [VStr "washes"; VStr "Revenue"])]
  = mkentry (VStr "Main St") (Some (VStr "📍")) ""
            (Some [(VStr "washes", VInt 42); (VStr "Revenue", VFloat 1234.5)]).
Proof. vm_compute. reflexivity. Qed.

Lemma row_for_date_first_match_witness :
  In "Date" (columns SampleDelivery.two_shifts)
  /\ rows SampleDelivery.two_shifts
     = ([[VStr "2024-05-31"; VInt 30]]
        ++ [VStr "2024-06-01"; VInt 41] :: [[VStr "2024-06-01"; VInt 42]])%list
  /\ row_for_date SampleDelivery.two_shifts (VStr "Date") Sample.june_1
     = Ok (Some [("Date", VStr "2024-06-01"); ("Washes", VInt 41)]).
Proof.
  assert (Hin : In "Date" (columns SampleDelivery.two_shifts)) by (left; reflexivity).
  split; [exact Hin|]. split; [reflexivity|].
  refine (row_for_date_first_match SampleDelivery.two_shifts "Date" Sample.june_1
            [[VStr "2024-05-31"; VInt 30]] [[VStr "2024-06-01"; VInt 42]]
            [VStr "2024-06-01"; VInt 41]
            [Some (mkdate 2024 5 31)] [Some Sample.june_1]
            Hin eq_refl eq_refl eq_refl _).
  repeat constructor. discriminate.
Defined.

Lemma to_dict_holds_each_cell_witness :
  NoDup ["Date"; "A"; "B"]
  /\ sget (to_dict ["Date"; "A"; "B"] [VStr "2024-06-01"; VStr "10"; VStr ""]) "A"
     = Some (VStr "10").
Proof.
  assert (Hnd : NoDup ["Date"; "A"; "B"]).
  { repeat constructor; simpl; intuition discriminate. }
  split; [exact Hnd|].
  exact (to_dict_holds_each_cell ["Date"; "A"; "B"]
           [VStr "2024-06-01"; VStr "10"; VStr ""] 1 "A" (VStr "10")
           Hnd eq_refl eq_refl).
Defined.

Lemma direct_spec_finds_cell_witness :
  Forall (fun kv : string * pyval => Str.is_ascii (fst kv) = true)
         Sample.row_padded_header
  /\ Str.is_ascii "  REVENUE " = true
  /\ NoDup (map (fun kv : string * pyval => Str.lower (fst kv)) Sample.row_padded_header)
  /\ Str.equal_up_to_case (Str.strip "  REVENUE ") "Revenue"
  /\ eval_field (row_l Sample.row_padded_header) (VStr "  REVENUE ")
     = Ok (Some (VStr "  REVENUE ", VInt 42))
  /\ Str.strip "Tips " <> "Tips "
  /\ eval_field (row_l Sample.row_padded_header) (VStr "Tips ")
     = Ok (Some (VStr "Tips ", VNone)).
Proof.
  assert (Hascii : Forall (fun kv : string * pyval => Str.is_ascii (fst kv) = true)
                          Sample.row_padded_header) by (repeat constructor).
  assert (Hnd : NoDup (map (fun kv : string * pyval => Str.lower (fst kv))
                           Sample.row_padded_header)).
  { repeat constructor; simpl; intuition discriminate. }
  assert (E : Str.equal_up_to_case (Str.strip "  REVENUE ") "Revenue")
    by (vm_compute; up_to_case).
  assert (Hpad : Str.strip "Tips " <> "Tips ") by discriminate.
  split; [exact Hascii|]. split; [reflexivity|]. split; [exact Hnd|].
  split; [exact E|]. split; [|split; [exact Hpad|]].
  - refine (proj1 (direct_spec_finds_cell Sample.row_padded_header "  REVENUE "
                     Hascii eq_refl Hnd) "Revenue" (VInt 42) _ E).
    right. left. reflexivity.
  - destruct (direct_spec_finds_cell Sample.row_padded_header "Tips "
                Hascii eq_refl Hnd) as (_ & _ & Hpadded).
    destruct (Hpadded "Tips " (VInt 7)) as [_ Heq]; [|exact Hpad|].
    + right. right. left. reflexivity.
    + rewrite Heq. reflexivity.
Defined.

Lemma unrecognized_spec_is_transparent_witness :
  unrecognized_spec (VDict [("foo", VInt 1)]) = true
  /\ eval_fields (row_l Sample.row_june_1)
                 ([VStr "A"] ++ VDict [("foo", VInt 1)] :: [VStr "B"]) []
     = eval_fields (row_l Sample.row_june_1) ([VStr "A"] ++ [VStr "B"]) [].
Proof.
  split; [reflexivity|].
  exact (unrecognized_spec_is_transparent (row_l Sample.row_june_1)
           [VStr "A"] [VStr "B"] (VDict [("foo", VInt 1)]) [] eq_refl).
Defined.

Lemma direct_specs_keep_their_order_witness :
  NoDup ["B"; "Date"; "A"]
  /\ eval_fields (row_l Sample.row_june_1) (map VStr ["B"; "Date"; "A"]) []
     = Ok [(VStr "B", VStr ""); (VStr "Date", VStr "2024-06-01"); (VStr "A", VStr "10")].
Proof.
  assert (Hnd : NoDup ["B"; "Date"; "A"]).
  { repeat constructor; simpl; intuition discriminate. }
  split; [exact Hnd|].
  exact (direct_specs_keep_their_order (row_l Sample.row_june_1) ["B"; "Date"; "A"] Hnd).
Defined.

Lemma later_spec_overwrites_label_witness :
  eval_fields (row_l Sample.row_june_2)
              [VDict [("key", VStr "A"); ("label", VStr "X")]; VStr "Date"] []
  = Ok [(VStr "X", VStr "5"); (VStr "Date", VStr "2024-06-02")]
  /\ exists out',
       eval_fields (row_l Sample.row_june_2)
                   ([VDict [("key", VStr "A"); ("label", VStr "X")]; VStr "Date"]
                    ++ [VDict [("key", VStr "B"); ("label", VStr "X")]]) []
       = Ok out'
       /\ dict_get key_eqb out' (VStr "X") = Some (VStr "3")
       /\ map fst out' = [VStr "X"; VStr "Date"].
Proof.
  assert (E : eval_fields (row_l Sample.row_june_2)
                [VDict [("key", VStr "A"); ("label", VStr "X")]; VStr "Date"] []
              = Ok [(VStr "X", VStr "5"); (VStr "Date", VStr "2024-06-02")])
    by reflexivity.
  split; [exact E|].
  destruct (later_spec_overwrites_label (row_l Sample.row_june_2) _
              (VDict [("key", VStr "B"); ("label", VStr "X")]) (VStr "X") (VStr "3")
              _ E eq_refl eq_refl eq_refl)
    as (out' & Hout & Hget & Hkeys & _).
  exists out'. split; [exact Hout|]. split; [exact Hget|].
  apply Hkeys. discriminate.
Defined.

Lemma raising_spec_fails_the_source_witness :
  eval_fields (row_l Sample.row_june_1) [VStr "A"] [] = Ok [(VStr "A", VStr "10")]
  /\ eval_field (row_l Sample.row_june_1) (VDict [("sum", VInt 5)])
     = Raise (TypeError "'int' object is not iterable")
  /\ run_source Sample.june_1 SampleDelivery.cfg_bad_sum
     = mkentry (VStr "Washes") None ":x: Error – 'int' object is not iterable" None.
Proof.
  split; [reflexivity|]. split; [reflexivity|].
  exact (raising_spec_fails_the_source Sample.june_1 SampleDelivery.cfg_bad_sum
           Sample.row_june_1 (VStr "sheet-1") (VStr "Daily") (VStr "Date")
           Sample.washes [VStr "A"] [VStr "B"] (VDict [("sum", VInt 5)])
           [(VStr "A", VStr "10")] (TypeError "'int' object is not iterable")
           eq_refl eq_refl eq_refl eq_refl eq_refl eq_refl eq_refl eq_refl).
Defined.

Lemma fetch_by_gid_selects_by_id_witness :
  open_by_key (VStr "book-1") = Ok (mksh (Ok SampleDelivery.book))
  /\ Sheets.fetch_sheet_df (VStr "book-1") (VStr "gid:77")
     = Ok (mkdf ["Date"; "Washes"; "Revenue"]
                [[VStr "2024-06-02"; VInt 40; VFloat 980]])
  /\ Sheets.fetch_sheet_df (VStr "book-1") (VStr "gid:077")
     = Raise (RuntimeError "Worksheet with gid:077 not found.").
Proof.
  destruct (fetch_by_gid_selects_by_id (H := sample_client) (VStr "book-1") (mksh (Ok SampleDelivery.book))
              SampleDelivery.book eq_refl eq_refl) as [Hfound Hnone].
  split; [reflexivity|]. split.
  - refine (Hfound [mkws "Daily" 0 (Ok [SampleDelivery.record_june_1;
                                          SampleDelivery.record_june_2])]
                   (mkws "gid:0" 77 (Ok [SampleDelivery.record_june_2]))
                   [mkws "Empty" 5 (Ok [])] eq_refl _).
    repeat constructor. discriminate.
  - apply (Hnone "077"). repeat constructor; discriminate.
Defined.

Lemma fetch_by_title_selects_first_witness :
  prefix "gid:" "Daily" = false
  /\ Sheets.fetch_sheet_df (VStr "book-1") (VStr "Daily")
     = Ok (mkdf ["Date"; "Washes"; "Revenue"]
                [[VStr "2024-06-01"; VInt 42; VFloat 1234.5];
                 [VStr "2024-06-02"; VInt 40; VFloat 980]])
  /\ Sheets.fetch_sheet_df (VStr "book-1") (VStr "Weekly")
     = Raise (mkexn "WorksheetNotFound" "Weekly").
Proof.
  split; [reflexivity|]. split.
  - refine (proj1 (fetch_by_title_selects_first (H := sample_client) (VStr "book-1")
                     (mksh (Ok SampleDelivery.book)) SampleDelivery.book "Daily"
                     eq_refl eq_refl eq_refl)
                  [] _ _ eq_refl eq_refl _).
    constructor.
  - refine (proj2 (fetch_by_title_selects_first (H := sample_client) (VStr "book-1")
                     (mksh (Ok SampleDelivery.book)) SampleDelivery.book "Weekly"
                     eq_refl eq_refl eq_refl) _).
    repeat constructor; discriminate.
Defined.

Lemma frame_row_is_its_record_witness :
  NoDup ["Date"; "Washes"; "Revenue"]
  /\ columns (DataFrame_of_records [SampleDelivery.record_june_1;
                                    SampleDelivery.record_june_3])
     = ["Date"; "Washes"; "Revenue"]
  /\ exists cells,
       nth_error (rows (DataFrame_of_records [SampleDelivery.record_june_1;
                                              SampleDelivery.record_june_3])) 1
       = Some cells
       /\ sget (to_dict ["Date"; "Washes"; "Revenue"] cells) "Date"
          = Some (VStr "2024-06-03")
       /\ sget (to_dict ["Date"; "Washes"; "Revenue"] cells) "Washes"
          = Some (VInt 38)
       /\ sget (to_dict ["Date"; "Washes"; "Revenue"] cells) "Revenue"
          = Some (VFloat 1100).
Proof.
  assert (Hnd : NoDup ["Date"; "Washes"; "Revenue"]).
  { repeat constructor; simpl; intuition discriminate. }
  split; [exact Hnd|].
  destruct (frame_row_is_its_record
              [SampleDelivery.record_june_1; SampleDelivery.record_june_3]
              ["Date"; "Washes"; "Revenue"] 1 SampleDelivery.record_june_3 Hnd)
    as (Hcols & _ & cells & Hcells & _ & Hcell).
  - repeat constructor.
  - repeat (apply Forall_cons;
            [repeat (apply Forall_cons;
                     [first [ left; eexists; reflexivity
                            | right; left; eexists; reflexivity
                            | right; right; eexists; reflexivity ]|]);
             apply Forall_nil|]);
      apply Forall_nil.
  - exists SampleDelivery.record_june_1, "Date", "2024-06-01".
    split; left; reflexivity.
  - reflexivity.
  - split; [exact Hcols|]. exists cells. split; [exact Hcells|].
    split; [|split].
    + destruct (Hcell "Date" (VStr "2024-06-03")) as [Hsame _];
        [left; reflexivity|].
      apply Hsame. left. left. exists "2024-06-01". reflexivity.
    + destruct (Hcell "Washes" (VInt 38)) as [Hsame _];
        [right; left; reflexivity|].
      apply Hsame. right.
      constructor; [exists 42; reflexivity|].
      constructor; [exists 38; reflexivity | constructor].
    + destruct (Hcell "Revenue" (VInt 1100)) as [_ Hfloat];
        [right; right; left; reflexivity|].
      destruct Hfloat as [_ Hint].
      * constructor; [right; exists 1234.5%float; reflexivity|].
        constructor; [|constructor].
        left. exists 1100. split; [reflexivity | lia].
      * left. exists 1234.5%float. reflexivity.
      * destruct (Hint 1100 eq_refl) as (x & Hx & Hget).
        rewrite Hget. vm_compute in Hx.
        exact (f_equal (option_map VFloat) (eq_sym Hx)).
Defined.

Lemma headerless_date_column_is_missing_witness :
  Forall (fun r : sdict pyval => ~ In "Date" (map fst r)) []
  /\ row_for_date (DataFrame_of_records []) (VStr "Date") Sample.june_1
     = Raise (RuntimeError "Date column 'Date' not found. Found: []").
Proof.
  split; [constructor|].
  exact (headerless_date_column_is_missing [] "Date" Sample.june_1 (Forall_nil _)).
Defined.

Lemma build_blocks_layout_witness :
  exists blocks,
    build_blocks SampleDelivery.two_results "Sat, Jun 1, 2024" = Ok blocks
    /\ List.length blocks = 6%nat
    /\ nth_error blocks 3 = Some divider_block.
Proof.
  destruct (build_blocks SampleDelivery.two_results "Sat, Jun 1, 2024")
    as [blocks|e] eqn:E; [|vm_compute in E; discriminate E].
  exists blocks. split; [reflexivity|].
  destruct (build_blocks_layout _ _ _ E) as (Hlen & _ & _ & Hsec).
  split; [exact Hlen|].
  destruct (Hsec 0%nat _ eq_refl) as (text & _ & _ & Hdiv). exact Hdiv.
Defined.

Lemma build_blocks_returns_witness :
  Forall (fun r => forall f, fields r = Some f -> Forall renderable_field f)
         SampleDelivery.two_results
  /\ exists blocks,
       build_blocks SampleDelivery.two_results "Sat, Jun 1, 2024" = Ok blocks.
Proof.
  assert (Hall : Forall (fun r => forall f, fields r = Some f ->
                                            Forall renderable_field f)
                        SampleDelivery.two_results).
  { repeat constructor.
    - intros f Hf. injection Hf as <-.
      repeat constructor; simpl; eauto; try discriminate.
      intros z Hz. injection Hz as <-. discriminate.
    - intros f Hf. discriminate Hf. }
  split; [exact Hall|].
  exact (build_blocks_returns SampleDelivery.two_results "Sat, Jun 1, 2024" Hall).
Defined.

Lemma failed_source_section_witness :
  exists blocks,
    build_blocks (main_results Sample.june_1 [Sample.cfg_washes; Sample.cfg_gone])
                 "Sat, Jun 1, 2024" = Ok blocks
    /\ nth_error blocks 4
       = Some (section_block ("📍 *Gone*" ++ newline ++ ":x: Error – <Response [404]>")).
Proof.
  destruct (build_blocks (main_results Sample.june_1 [Sample.cfg_washes; Sample.cfg_gone])
                         "Sat, Jun 1, 2024")
    as [blocks|e] eqn:E; [|vm_compute in E; discriminate E].
  exists blocks. split; [reflexivity|].
  exact (failed_source_section Sample.june_1 [Sample.cfg_washes; Sample.cfg_gone]
           "Sat, Jun 1, 2024" blocks 1 Sample.cfg_gone
           (mkexn "SpreadsheetNotFound" "<Response [404]>") E eq_refl eq_refl).
Defined.

Lemma missing_value_renders_as_dash_witness :
  sget (row_l Sample.row_june_1) (Str.fold_key "Nope") = None
  /\ exists out,
       eval_fields (row_l Sample.row_june_1) [VStr "Nope"] [] = Ok out
       /\ fields_md out = Ok ["*Nope:* —"].
Proof.
  split; [reflexivity|].
  exact (missing_value_renders_as_dash (row_l Sample.row_june_1) "Nope"
           (or_introl eq_refl)).
Defined.

Lemma money_hint_ignores_case_witness :
  Str.equal_up_to_case "Total REVENUE" "total revenue"
  /\ _fmt_value (VStr "Total REVENUE") (VFloat 1234.5) = Ok "$1,234.50"
  /\ _fmt_value (VStr "total revenue") (VFloat 1234.5) = Ok "$1,234.50".
Proof.
  assert (E : Str.equal_up_to_case "Total REVENUE" "total revenue") by up_to_case.
  split; [exact E|]. split; [reflexivity|].
  rewrite <- (money_hint_ignores_case "Total REVENUE" "total revenue" (VFloat 1234.5) E).
  reflexivity.
Defined.

Lemma failed_sources_do_not_fail_the_run_witness :
  Forall (fun cfg => exists e, source_body Sample.june_1 cfg = Raise e)
         [Sample.cfg_gone; Sample.cfg_misnamed]
  /\ main_deliver (Some SampleDelivery.webhook) Sample.june_1 "Sat, Jun 1, 2024"
                  [Sample.cfg_gone; Sample.cfg_misnamed]
     = Ok tt.
Proof.
  assert (Hall : Forall (fun cfg => exists e, source_body Sample.june_1 cfg = Raise e)
                        [Sample.cfg_gone; Sample.cfg_misnamed]).
  { repeat constructor; eexists; reflexivity. }
  split; [exact Hall|].
  exact (failed_sources_do_not_fail_the_run
           "h" "ttps://hooks.slack.com/services/T0/B0/secret"
           Sample.june_1 "Sat, Jun 1, 2024"
           [Sample.cfg_gone; Sample.cfg_misnamed] 200 "ok"
           Hall (fun _ => eq_refl)).
Defined.

Lemma date_label_day_is_unpadded_witness :
  1 <= month Sample.june_1 <= 12 /\ 1 <= day Sample.june_1 <= 31
  /\ 1000 <= year Sample.june_1 <= 9999
  /\ date_label Sample.june_1 = "Sat, Jun 1, 2024".
Proof.
  assert (Hm : 1 <= month Sample.june_1 <= 12) by (simpl; lia).
  assert (Hd : 1 <= day Sample.june_1 <= 31) by (simpl; lia).
  assert (Hy : 1000 <= year Sample.june_1 <= 9999) by (simpl; lia).
  repeat (split; [assumption|]).
  exact (date_label_day_is_unpadded Sample.june_1 Hm Hd Hy).
Defined.

Example date_labels :
  map date_label [mkdate 2025 1 9; mkdate 2024 12 25; mkdate 2000 2 29]
  = ["Thu, Jan 9, 2025"; "Wed, Dec 25, 2024"; "Tue, Feb 29, 2000"].
Proof. vm_compute. reflexivity. Qed.

(** An empty webhook URL counts as none. *)
Example empty_webhook_is_unset :
  slack_post_blocks (Some "") [divider_block]
  = slack_post_blocks None [divider_block].
Proof. reflexivity. Qed.

Lemma blank_sum_is_shown_as_zero_witness :
  [VStr "B"; VStr "Tips"] <> []
  /\ Forall (fun k => blank_or_absent (sget (row_l Sample.row_june_1) (lookup_key k)))
            [VStr "B"; VStr "Tips"]
  /\ computed_sum (row_l Sample.row_june_1) [VStr "B"; VStr "Tips"] = VFloat 0
  /\ _fmt_value (VStr "Extras") (computed_sum (row_l Sample.row_june_1)
                                               [VStr "B"; VStr "Tips"])
     = Ok "0".
Proof.
  assert (Hne : [VStr "B"; VStr "Tips"] <> []) by discriminate.
  assert (Hall : Forall (fun k => blank_or_absent
                                    (sget (row_l Sample.row_june_1) (lookup_key k)))
                        [VStr "B"; VStr "Tips"]).
  { repeat constructor. }
  destruct (blank_sum_is_shown_as_zero (row_l Sample.row_june_1)
              [VStr "B"; VStr "Tips"] "Extras" Hne Hall) as [Hsum Hfmt].
  split; [exact Hne|]. split; [exact Hall|]. split; [exact Hsum | exact Hfmt].
Defined.
